(** * code-health: a shallow embedding of [code-health.ts]

    The script runs nine checks, collects their issues into one report,
    computes totals and a letter grade, and writes a markdown and a compact
    JSON report.  This development embeds the parts of the script that the
    report's contract rests on:

    - the issue model and the compact issue encoding ([compactIssue]);
    - the totals loop of [main] and [calculateGrade];
    - the heuristic source analyser ([analyzeFile], [detectLongFunctions],
      [detectMixedConcerns]) with the JavaScript regular expressions it
      uses, run by a small backtracking matcher;
    - the nine checks, each from its quick-mode gate to the [CheckResult]
      it returns.

    JavaScript strings are modelled by [string] (characters are code units
    in the range 0-255), counts by [nat], the one count the script obtains
    by subtraction ([hooks.custom]) by [Z], and the line of an issue by
    [JsNumber], an integer or [NaN].  What the script reads from the
    outside world (tool findings, file contents, clock readings, the
    outcome of its file-system calls) is an argument of the function that
    consumes it. *)

From Stdlib Require Import String Ascii List Bool Arith ZArith Lia.
From Stdlib Require Import DecimalString DecimalNat DecimalZ.
Import ListNotations.

Local Open Scope string_scope.
Local Open Scope nat_scope.

(** ** Template-literal helpers *)

(** [`${n}`] for a non-negative integer count. *)
Definition showNat (n : nat) : string :=
  NilEmpty.string_of_uint (Nat.to_uint n).

(** [`${z}`] for an integer that may be negative. *)
Definition showZ (z : Z) : string :=
  NilEmpty.string_of_int (Z.to_int z).

(** ** Data model *)

(** [Issue.type] *)
Inductive IssueType := error | warning | info.

(** [CheckResult.status] *)
Inductive Status := pass | warn | fail | skip.

(** [HealthReport.grade] *)
Inductive Grade := A | B | C | D | F.

Definition IssueType_eqb (a b : IssueType) : bool :=
  match a, b with
  | error, error | warning, warning | info, info => true
  | _, _ => false
  end.

(** A JavaScript number as [Issue.line] holds it.  The script fills the
    field with [parseInt(...)] (ESLint text fallback, jscpd, TypeScript),
    which yields an integer or [NaN], with [message.line || 0], or with
    the line number of a tool's JSON output.  [Integer 0] stands for both
    zeros; an integer is printed with its decimal digits. *)
Inductive JsNumber := NaN | Integer (z : Z).

(** [interface Issue]; the optional fields are [option]s. *)
Record Issue := mkIssue {
  type : IssueType;
  file : option string;
  line : option JsNumber;
  message : string;
  rule : option string;
  fix_ : option string
}.

(** [interface CheckResult] *)
Record CheckResult := mkCheckResult {
  name : string;
  status : Status;
  duration : nat;
  issues : list Issue;
  summary : string;
  rawOutput : option string
}.

(** [HealthReport.totals] *)
Record Totals := mkTotals {
  errors : nat;
  warnings : nat;
  infos : nat
}.

(** [interface HealthReport] *)
Record HealthReport := mkHealthReport {
  timestamp : string;
  report_duration : nat;
  checks : list CheckResult;
  totals : Totals;
  grade : Grade
}.

(** [issues.filter(i => i.type === t).length] *)
Definition countType (t : IssueType) (l : list Issue) : nat :=
  length (filter (fun i => IssueType_eqb (type i) t) l).

(** ** Totals and grade *)

(** The body of the inner loop of [main]: one issue bumps one counter. *)
Definition tally (t : Totals) (i : Issue) : Totals :=
  match type i with
  | error => mkTotals (S (errors t)) (warnings t) (infos t)
  | warning => mkTotals (errors t) (S (warnings t)) (infos t)
  | info => mkTotals (errors t) (warnings t) (S (infos t))
  end.

(** The two nested [for ... of] loops of [main], from the zero totals. *)
Definition calculateTotals (cs : list CheckResult) : Totals :=
  fold_left (fun t c => fold_left tally (issues c) t) cs (mkTotals 0 0 0).

(** [calculateGrade] reads [report.totals] only. *)
Definition calculateGrade (report : HealthReport) : Grade :=
  let errors := errors (totals report) in
  let warnings := warnings (totals report) in
  if (errors =? 0) && (warnings =? 0) then A
  else if (errors =? 0) && (warnings <=? 5) then B
  else if (errors <=? 2) && (warnings <=? 15) then C
  else if errors <=? 5 then D
  else F.

(** The report object [main] assembles: it is created with grade ["A"],
    then [report.grade = calculateGrade(report)]. *)
Definition buildReport (ts : string) (dur : nat) (cs : list CheckResult)
  : HealthReport :=
  let report := mkHealthReport ts dur cs (calculateTotals cs) A in
  mkHealthReport ts dur cs (totals report) (calculateGrade report).

(** The argument of the last statement of [main],
    [process.exit(totals.errors > 0 ? 1 : 0)].  The statement is reached
    only when the [await]ed [mkdir] and [writeFile] calls before it have
    succeeded: see [processExitCode]. *)
Definition exitCode (r : HealthReport) : nat :=
  if 0 <? errors (totals r) then 1 else 0.

(** ** Compact issue encoding *)

(** JavaScript truthiness of an optional string: present and non-empty. *)
Definition truthyString (o : option string) : option string :=
  match o with
  | Some "" => None
  | Some s => Some s
  | None => None
  end.

(** JavaScript truthiness of an optional number: present, not [NaN] and
    not zero.  The result is the integer the template literal prints. *)
Definition truthyNumber (o : option JsNumber) : option Z :=
  match o with
  | Some (Integer z) => if (z =? 0)%Z then None else Some z
  | Some NaN => None
  | None => None
  end.

(** [const t = issue.type === "error" ? "E" : issue.type === "warning" ? "W" : "I"] *)
Definition severityLetter (t : IssueType) : string :=
  match t with
  | error => "E"
  | warning => "W"
  | info => "I"
  end.

(** [const loc = issue.file ? `${issue.file}${issue.line ? `:${issue.line}` : ""}` : ""] *)
Definition location (issue : Issue) : string :=
  match truthyString (file issue) with
  | Some f =>
      f ++ match truthyNumber (line issue) with
           | Some z => ":" ++ showZ z
           | None => ""
           end
  | None => ""
  end.

(** [const r = issue.rule || ""] *)
Definition ruleText (issue : Issue) : string :=
  match truthyString (rule issue) with
  | Some r => r
  | None => ""
  end.

(** [compactIssue]: ["E|file.ts:42|message|rule"]. *)
Definition compactIssue (issue : Issue) : string :=
  severityLetter (type issue) ++ "|" ++ location issue ++ "|"
    ++ message issue ++ "|" ++ ruleText issue.

(** ** JavaScript regular expressions

    The script's regular expressions use literals, character classes,
    sequencing, alternation, greedy repetition, capturing groups and the
    word boundary [\b].  [regex] is their syntax; [rmatch] is the
    backtracking matcher of the language: alternatives in order, greedy
    repetition first, the first successful path wins. *)

Inductive regex :=
| Eps
| Class (p : ascii -> bool)
| Seq (r1 r2 : regex)
| Alt (r1 r2 : regex)
| Star (r : regex)
| Group (n : nat) (r : regex)
| WordB.

Definition inRange (lo hi : N) (c : ascii) : bool :=
  (lo <=? N_of_ascii c)%N && (N_of_ascii c <=? hi)%N.

Definition isUpper : ascii -> bool := inRange 65 90.
Definition isLower : ascii -> bool := inRange 97 122.
Definition isDigit : ascii -> bool := inRange 48 57.
(** [[a-zA-Z]] *)
Definition isAlpha (c : ascii) : bool := isLower c || isUpper c.
(** [\w] *)
Definition isWord (c : ascii) : bool :=
  isAlpha c || isDigit c || Ascii.eqb c "_".
(** [\s]: tab, line feed, vertical tab, form feed, carriage return, space,
    no-break space. *)
Definition isSpace (c : ascii) : bool :=
  inRange 9 13 c || Ascii.eqb c " " || (N_of_ascii c =? 160)%N.

(** A literal character, a negated character, a literal text. *)
Definition chr (c : ascii) : regex := Class (Ascii.eqb c).
Definition notChr (c : ascii) : regex := Class (fun x => negb (Ascii.eqb c x)).
Fixpoint lit (s : string) : regex :=
  match s with
  | EmptyString => Eps
  | String c s' => Seq (chr c) (lit s')
  end.
(** [r+], [r?], and sequencing of a list of parts. *)
Definition Plus (r : regex) : regex := Seq r (Star r).
Definition Opt (r : regex) : regex := Alt r Eps.
Definition seqs (rs : list regex) : regex := fold_right Seq Eps rs.
Definition alts (r : regex) (rs : list regex) : regex := fold_left Alt rs r.

(** [\s*], [\s+], [\w*], [\w+] *)
Definition ws_star : regex := Star (Class isSpace).
Definition ws_plus : regex := Plus (Class isSpace).
Definition word_star : regex := Star (Class isWord).
Definition word_plus : regex := Plus (Class isWord).

(** Captures: group number and captured text, most recent first. *)
Definition Captures := list (nat * string).

Definition isWordOpt (o : option ascii) : bool :=
  match o with Some c => isWord c | None => false end.

Definition head (s : string) : option ascii :=
  match s with String c _ => Some c | EmptyString => None end.

Section Matcher.
Variable R : Type.

(** A continuation receives the character before the current position,
    the rest of the input and the captures so far. *)
Definition Cont := option ascii -> string -> Captures -> option R.

Fixpoint rmatch (r : regex) (prev : option ascii) (s : string)
         (cs : Captures) (k : Cont) {struct r} : option R :=
  match r with
  | Eps => k prev s cs
  | Class p =>
      match s with
      | String c s' => if p c then k (Some c) s' cs else None
      | EmptyString => None
      end
  | Seq r1 r2 =>
      rmatch r1 prev s cs (fun p' s' cs' => rmatch r2 p' s' cs' k)
  | Alt r1 r2 =>
      match rmatch r1 prev s cs k with
      | Some x => Some x
      | None => rmatch r2 prev s cs k
      end
  | Star r1 =>
      (fix loop (n : nat) (prev : option ascii) (s : string)
           (cs : Captures) {struct n} : option R :=
         match n with
         | 0 => k prev s cs
         | S n' =>
             match rmatch r1 prev s cs
                     (fun p' s' cs' =>
                        if String.length s' <? String.length s
                        then loop n' p' s' cs' else None) with
             | Some x => Some x
             | None => k prev s cs
             end
         end) (String.length s) prev s cs
  | Group n r1 =>
      rmatch r1 prev s cs
        (fun p' s' cs' =>
           k p' s'
             ((n, substring 0 (String.length s - String.length s') s) :: cs'))
  | WordB =>
      if xorb (isWordOpt prev) (isWordOpt (head s)) then k prev s cs
      else None
  end.
End Matcher.

Arguments rmatch {R} r prev s cs k.

(** A match anchored at the current position: the character before the
    end of the match, the rest of the input, the captures. *)
Definition matchAt (r : regex) (prev : option ascii) (s : string)
  : option (option ascii * string * Captures) :=
  rmatch r prev s [] (fun p s' cs => Some (p, s', cs)).

(** The leftmost match ([RegExp.prototype.exec] without the [g] flag). *)
Fixpoint execFrom (r : regex) (prev : option ascii) (s : string)
  : option Captures :=
  match matchAt r prev s with
  | Some (_, _, cs) => Some cs
  | None =>
      match s with
      | String c s' => execFrom r (Some c) s'
      | EmptyString => None
      end
  end.

(** [str.match(re)] without [g]: the captures of the leftmost match. *)
Definition exec (r : regex) (s : string) : option Captures :=
  execFrom r None s.

(** [re.test(str)] *)
Definition test (r : regex) (s : string) : bool :=
  match exec r s with Some _ => true | None => false end.

(** The number of successive non-overlapping matches, scanning from the
    left; after an empty match the scan advances by one character. *)
Fixpoint countFrom (fuel : nat) (r : regex) (prev : option ascii)
         (s : string) : nat :=
  match fuel with
  | 0 => 0
  | S fuel' =>
      match matchAt r prev s with
      | Some (p', s', _) =>
          if String.length s' <? String.length s
          then S (countFrom fuel' r p' s')
          else match s with
               | String c s'' => S (countFrom fuel' r (Some c) s'')
               | EmptyString => 1
               end
      | None =>
          match s with
          | String c s'' => countFrom fuel' r (Some c) s''
          | EmptyString => 0
          end
      end
  end.

(** [(str.match(re_g) || []).length] *)
Definition matchCount (r : regex) (s : string) : nat :=
  countFrom (S (String.length s)) r None s.

(** The text of a capturing group, when it took part in the match and
    is non-empty (a truthy [match[n]]). *)
Fixpoint capture (n : nat) (cs : Captures) : option string :=
  match cs with
  | [] => None
  | (m, t) :: cs' => if m =? n then truthyString (Some t) else capture n cs'
  end.

(** [content.split("\n")] *)
Fixpoint splitLines (s : string) : list string :=
  match s with
  | EmptyString => [""]
  | String c s' =>
      if Ascii.eqb c "010" then "" :: splitLines s'
      else match splitLines s' with
           | l :: ls => String c l :: ls
           | [] => [String c ""]
           end
  end.

(** ** Heuristic source analyser *)

(** [hooks] of [interface FileAnalysis] *)
Record Hooks := mkHooks {
  useState : nat;
  useEffect : nat;
  useMemo : nat;
  useCallback : nat;
  useRef : nat;
  useQuery : nat;
  useMutation : nat;
  custom : Z
}.

(** [patterns] of [interface FileAnalysis] *)
Record Patterns := mkPatterns {
  inlineErrorBoundary : bool;
  multipleComponents : bool;
  deepJsxNesting : bool;
  longFunctions : list string;
  mixedConcerns : bool
}.

(** [interface FileAnalysis] *)
Record FileAnalysis := mkFileAnalysis {
  path : string;
  lines : nat;
  hooks : Hooks;
  patterns : Patterns
}.

(** [[<(]] *)
Definition angleOrParen : regex :=
  Class (fun c => Ascii.eqb c "<" || Ascii.eqb c "(").

(** [/useState\s*[<(]/g] and its siblings. *)
Definition re_useState : regex := seqs [lit "useState"; ws_star; angleOrParen].
Definition re_useEffect : regex := seqs [lit "useEffect"; ws_star; chr "("].
Definition re_useMemo : regex := seqs [lit "useMemo"; ws_star; chr "("].
Definition re_useCallback : regex := seqs [lit "useCallback"; ws_star; chr "("].
Definition re_useRef : regex := seqs [lit "useRef"; ws_star; angleOrParen].
Definition re_useQuery : regex := seqs [lit "useQuery"; ws_star; chr "("].
Definition re_useMutation : regex := seqs [lit "useMutation"; ws_star; chr "("].

(** [/\buse[A-Z][a-zA-Z]*\s*\(/g] *)
Definition re_useAny : regex :=
  seqs [WordB; lit "use"; Class isUpper; Star (Class isAlpha); ws_star; chr "("].

(** [/useState|useEffect|useMemo|useCallback|useRef|useQuery|useMutation/g] *)
Definition re_useNamed : regex :=
  alts (lit "useState")
       [lit "useEffect"; lit "useMemo"; lit "useCallback"; lit "useRef";
        lit "useQuery"; lit "useMutation"].

(** [/class\s+\w*Error\w*\s+extends\s+React\.Component/] *)
Definition re_inlineErrorBoundary : regex :=
  seqs [lit "class"; ws_plus; word_star; lit "Error"; word_star; ws_plus;
        lit "extends"; ws_plus; lit "React.Component"].

(** [/export\s+(const|function)\s+[A-Z][a-zA-Z]*\s*[=:]/g] *)
Definition re_exportedComponent : regex :=
  seqs [lit "export"; ws_plus; Group 1 (Alt (lit "const") (lit "function"));
        ws_plus; Class isUpper; Star (Class isAlpha); ws_star;
        Class (fun c => Ascii.eqb c "=" || Ascii.eqb c ":")].

(** [(?:div|Fragment|>)] *)
Definition divFragmentOrGt : regex :=
  alts (lit "div") [lit "Fragment"; chr ">"].

(** [/<(?:div|Fragment|>)[^>]*>\s*<(?:div|Fragment|>)/g] *)
Definition re_nestedJsx : regex :=
  seqs [chr "<"; divFragmentOrGt; Star (notChr ">"); chr ">"; ws_star;
        chr "<"; divFragmentOrGt].

(** The function-start pattern of [detectLongFunctions], an alternation
    of three forms (a space is written after a star that precedes a
    closing parenthesis):
    - [function\s+(\w+)]
    - [const\s+(\w+)\s*=\s*(?:async\s* )?\(]
    - [const\s+(\w+)\s*=\s*React\.memo] *)
Definition re_funcStart : regex :=
  alts (seqs [lit "function"; ws_plus; Group 1 word_plus])
       [seqs [lit "const"; ws_plus; Group 2 word_plus; ws_star; chr "=";
              ws_star; Opt (Seq (lit "async") ws_star); chr "("];
        seqs [lit "const"; ws_plus; Group 3 word_plus; ws_star; chr "=";
              ws_star; lit "React.memo"]].

(** [/{/g] and [/}/g] *)
Definition re_open : regex := chr "{".
Definition re_close : regex := chr "}".

(** [/<\w+[^>]*>/], [/\.map\s*\(/g], [/\.filter\s*\(/g], [/if\s*\(/g] *)
Definition re_jsx : regex :=
  seqs [chr "<"; word_plus; Star (notChr ">"); chr ">"].
Definition re_map : regex := seqs [lit ".map"; ws_star; chr "("].
Definition re_filter : regex := seqs [lit ".filter"; ws_star; chr "("].
Definition re_if : regex := seqs [lit "if"; ws_star; chr "("].

(** The local variables of [detectLongFunctions]. *)
Record LongFnState := mkLongFnState {
  acc : list string;
  currentFunction : string;
  functionStartLine : nat;
  braceDepth : Z;
  inFunction : bool
}.

(** [line.match(...)] of the function-start pattern, reduced to the name
    the loop takes from it:
    [funcMatch[1] || funcMatch[2] || funcMatch[3] || "anonymous"]. *)
Definition funcMatch (line : string) : option string :=
  match exec re_funcStart line with
  | None => None
  | Some cs =>
      Some match capture 1 cs with
           | Some n => n
           | None =>
               match capture 2 cs with
               | Some n => n
               | None =>
                   match capture 3 cs with
                   | Some n => n
                   | None => "anonymous"
                   end
               end
           end
  end.

(** The net brace count of one line: opening minus closing braces. *)
Definition braceDelta (line : string) : Z :=
  Z.of_nat (matchCount re_open line) - Z.of_nat (matchCount re_close line).

(** One iteration of the loop of [detectLongFunctions], at line index [i]. *)
Definition longFnStep (st : LongFnState) (i : nat) (line : string)
  : LongFnState :=
  let st1 :=
    match funcMatch line with
    | Some nm =>
        if negb (inFunction st)
        then mkLongFnState (acc st) nm i 0 true
        else st
    | None => st
    end in
  let depth := (braceDepth st1 + braceDelta line)%Z in
  if inFunction st1 && (depth <=? 0)%Z && (functionStartLine st1 <? i)
  then
    let functionLength := i - functionStartLine st1 in
    mkLongFnState
      (if 80 <? functionLength
       then acc st1 ++
            [currentFunction st1 ++ " (" ++ showNat functionLength ++ " lines)"]
       else acc st1)
      (currentFunction st1) (functionStartLine st1) depth false
  else
    mkLongFnState (acc st1) (currentFunction st1) (functionStartLine st1)
                  depth (inFunction st1).

(** [for (let i = 0; i < lines.length; i++)], from index [i] on. *)
Fixpoint longFnLoop (i : nat) (ls : list string) (st : LongFnState)
  : LongFnState :=
  match ls with
  | [] => st
  | l :: ls' => longFnLoop (S i) ls' (longFnStep st i l)
  end.

(** [detectLongFunctions] *)
Definition detectLongFunctions (content : string) : list string :=
  acc (longFnLoop 0 (splitLines content) (mkLongFnState [] "" 0 0 false)).

(** [detectMixedConcerns]; [&&] binds tighter than [||]. *)
Definition detectMixedConcerns (content : string) : bool :=
  let hasJsx := test re_jsx content in
  let hasHeavyLogic :=
    (3 <? matchCount re_map content) &&
    (2 <? matchCount re_filter content) ||
    (10 <? matchCount re_if content) in
  hasJsx && hasHeavyLogic.

(** The [custom] entry of [hooks]: generic matches minus named matches. *)
Definition customHooks (content : string) : Z :=
  Z.of_nat (matchCount re_useAny content) -
  Z.of_nat (matchCount re_useNamed content).

(** [analyzeFile], given the text [readFile] returned. *)
Definition analyzeContent (filePath content : string) : FileAnalysis :=
  let lines := splitLines content in
  let hooks :=
    mkHooks (matchCount re_useState content)
            (matchCount re_useEffect content)
            (matchCount re_useMemo content)
            (matchCount re_useCallback content)
            (matchCount re_useRef content)
            (matchCount re_useQuery content)
            (matchCount re_useMutation content)
            (customHooks content) in
  let patterns :=
    mkPatterns (test re_inlineErrorBoundary content)
               (2 <? matchCount re_exportedComponent content)
               (10 <? matchCount re_nestedJsx content)
               (detectLongFunctions content)
               (detectMixedConcerns content) in
  mkFileAnalysis filePath (length lines) hooks patterns.

(** [analyzeFile]: [None] is the [null] of the [catch] branch, taken when
    the file cannot be read. *)
Definition analyzeFile (filePath : string) (read : option string)
  : option FileAnalysis :=
  match read with
  | Some content => Some (analyzeContent filePath content)
  | None => None
  end.

(** ** String helpers used by the checks *)

(** [s.includes(sub)] *)
Fixpoint includes (sub s : string) : bool :=
  prefix sub s ||
  match s with
  | EmptyString => false
  | String _ s' => includes sub s'
  end.

(** [s.endsWith(suf)] *)
Definition endsWith (suf s : string) : bool :=
  let n := String.length s in
  let m := String.length suf in
  (m <=? n) && String.eqb (substring (n - m) m s) suf.

(** [s.replace(pat, "")] for a string pattern: the first occurrence of
    [pat] is removed. *)
Fixpoint removeFirst (pat s : string) : string :=
  if prefix pat s
  then substring (String.length pat) (String.length s - String.length pat) s
  else match s with
       | EmptyString => EmptyString
       | String c s' => String c (removeFirst pat s')
       end.

(** ** Thresholds *)

Module THRESHOLDS.
Definition FILE_LINES_WARNING := 300.
Definition FILE_LINES_ERROR := 500.
Definition COMPONENT_HOOKS_WARNING := 6%Z.
Definition COMPONENT_HOOKS_ERROR := 10%Z.
Definition COMPONENT_USEEFFECT_WARNING := 4.
Definition COMPONENT_USEMEMO_WARNING := 6.
Definition FOLDER_DEPTH_WARNING := 5.
Definition FOLDER_DEPTH_ERROR := 7.
Definition FILES_PER_FOLDER_WARNING := 15.
Definition FILES_PER_FOLDER_ERROR := 25.
End THRESHOLDS.

(** ** Complexity check *)

(** The issues [checkComplexity] pushes for one analysed file, in the
    order of the loop body, one definition per [if]. *)

Definition fileSizeIssues (relativePath : string) (analysis : FileAnalysis)
  : list Issue :=
  if THRESHOLDS.FILE_LINES_ERROR <? lines analysis then
    [mkIssue error (Some relativePath) None
       ("File has " ++ showNat (lines analysis) ++ " lines (max "
          ++ showNat THRESHOLDS.FILE_LINES_ERROR ++ ")")
       (Some "complexity/file-size")
       (Some "Split into smaller, focused modules. Extract hooks, utilities, and sub-components.")]
  else if THRESHOLDS.FILE_LINES_WARNING <? lines analysis then
    [mkIssue warning (Some relativePath) None
       ("File has " ++ showNat (lines analysis)
          ++ " lines (consider splitting at "
          ++ showNat THRESHOLDS.FILE_LINES_WARNING ++ "+)")
       (Some "complexity/file-size")
       (Some "Consider extracting reusable logic into hooks or utilities.")]
  else [].

Definition totalHooks (h : Hooks) : Z :=
  (Z.of_nat (useState h) + Z.of_nat (useEffect h) + Z.of_nat (useMemo h)
   + Z.of_nat (useCallback h) + Z.of_nat (useRef h) + custom h)%Z.

Definition hookCountIssues (relativePath : string) (analysis : FileAnalysis)
  : list Issue :=
  let h := hooks analysis in
  if (THRESHOLDS.COMPONENT_HOOKS_ERROR <=? totalHooks h)%Z then
    [mkIssue error (Some relativePath) None
       ("Component uses " ++ showZ (totalHooks h) ++ " hooks (useState: "
          ++ showNat (useState h) ++ ", useEffect: " ++ showNat (useEffect h)
          ++ ", useMemo: " ++ showNat (useMemo h) ++ ", useCallback: "
          ++ showNat (useCallback h) ++ ", custom: " ++ showZ (custom h) ++ ")")
       (Some "complexity/too-many-hooks")
       (Some "Extract related hooks into a custom hook (e.g., useComponentNameState). Split component into smaller pieces.")]
  else if (THRESHOLDS.COMPONENT_HOOKS_WARNING <=? totalHooks h)%Z then
    [mkIssue warning (Some relativePath) None
       ("Component uses " ++ showZ (totalHooks h) ++ " hooks - getting complex")
       (Some "complexity/too-many-hooks")
       (Some "Consider extracting related state and effects into a custom hook.")]
  else [].

Definition effectSprawlIssues (relativePath : string) (analysis : FileAnalysis)
  : list Issue :=
  let h := hooks analysis in
  if THRESHOLDS.COMPONENT_USEEFFECT_WARNING <=? useEffect h then
    [mkIssue warning (Some relativePath) None
       ("Component has " ++ showNat (useEffect h)
          ++ " useEffect calls - side-effect sprawl")
       (Some "complexity/effect-sprawl")
       (Some "Consolidate related effects or extract to custom hooks. Consider if effects can be replaced with event handlers.")]
  else [].

Definition overMemoIssues (relativePath : string) (analysis : FileAnalysis)
  : list Issue :=
  let h := hooks analysis in
  if THRESHOLDS.COMPONENT_USEMEMO_WARNING <=? useMemo h + useCallback h then
    [mkIssue info (Some relativePath) None
       ("Component has " ++ showNat (useMemo h) ++ " useMemo and "
          ++ showNat (useCallback h) ++ " useCallback - possible over-optimization")
       (Some "complexity/over-memoization")
       (Some "Review if all memos are necessary. React 19 compiler handles most memoization automatically.")]
  else [].

Definition errorBoundaryIssues (relativePath : string) (analysis : FileAnalysis)
  : list Issue :=
  if inlineErrorBoundary (patterns analysis) then
    [mkIssue warning (Some relativePath) None
       "Inline error boundary class in component file"
       (Some "pattern/inline-error-boundary")
       (Some "Move error boundary to shared/components/ErrorBoundary.tsx and import it.")]
  else [].

Definition multipleComponentsIssues (relativePath : string)
           (analysis : FileAnalysis) : list Issue :=
  if multipleComponents (patterns analysis) then
    [mkIssue info (Some relativePath) None
       "Multiple exported components in one file"
       (Some "pattern/multiple-components")
       (Some "Consider splitting each component into its own file for better organization.")]
  else [].

(** One issue of the [for (const func of ...slice(0, 3))] loop. *)
Definition longFunctionIssue (relativePath func : string) : Issue :=
  mkIssue warning (Some relativePath) None
    ("Long function: " ++ func)
    (Some "complexity/long-function")
    (Some "Break down into smaller functions. Extract logic into utilities or hooks.").

Definition longFunctionIssues (relativePath : string) (analysis : FileAnalysis)
  : list Issue :=
  if 0 <? length (longFunctions (patterns analysis)) then
    map (longFunctionIssue relativePath)
        (firstn 3 (longFunctions (patterns analysis)))
  else [].

Definition mixedConcernsIssues (relativePath : string) (analysis : FileAnalysis)
  : list Issue :=
  if mixedConcerns (patterns analysis) then
    [mkIssue info (Some relativePath) None
       "File appears to mix business logic with UI rendering"
       (Some "pattern/mixed-concerns")
       (Some "Extract business logic to hooks/utilities. Keep components focused on rendering.")]
  else [].

(** All issues of one iteration of the loop over [files]. *)
Definition complexityFileIssues (relativePath : string) (isTsx : bool)
           (analysis : FileAnalysis) : list Issue :=
  fileSizeIssues relativePath analysis
  ++ (if isTsx
      then hookCountIssues relativePath analysis
           ++ effectSprawlIssues relativePath analysis
           ++ overMemoIssues relativePath analysis
      else [])
  ++ errorBoundaryIssues relativePath analysis
  ++ multipleComponentsIssues relativePath analysis
  ++ longFunctionIssues relativePath analysis
  ++ mixedConcernsIssues relativePath analysis.

(** The accumulators of [checkComplexity]. *)
Record ComplexityAcc := mkComplexityAcc {
  c_issues : list Issue;
  largeFiles : nat;
  complexComponents : nat
}.

(** [file.replace(process.cwd() + "/", "").replace(process.cwd() + "\\", "")];
    the backslash is character 92. *)
Definition relativeTo (cwd file : string) : string :=
  removeFirst (cwd ++ String "092" "") (removeFirst (cwd ++ "/") file).

(** One iteration of [for (const file of files)]: [read] is what
    [readFile] gave for the file ([None]: it threw, the file is skipped). *)
Definition complexityStep (cwd : string) (st : ComplexityAcc)
           (f : string * option string) : ComplexityAcc :=
  match analyzeFile (fst f) (snd f) with
  | None => st
  | Some analysis =>
      let isTsx := endsWith ".tsx" (fst f) in
      mkComplexityAcc
        (c_issues st
           ++ complexityFileIssues (relativeTo cwd (fst f)) isTsx analysis)
        (if THRESHOLDS.FILE_LINES_ERROR <? lines analysis
         then S (largeFiles st) else largeFiles st)
        (if isTsx &&
            (THRESHOLDS.COMPONENT_HOOKS_ERROR <=? totalHooks (hooks analysis))%Z
         then S (complexComponents st) else complexComponents st)
  end.

(** [checkComplexity]: [files] is what [findFiles] found, each with its
    text; [elapsed] is [Date.now() - start]. *)
Definition checkComplexity (cwd : string) (files : list (string * option string))
           (elapsed : nat) : CheckResult :=
  let st := fold_left (complexityStep cwd) files (mkComplexityAcc [] 0 0) in
  let issues := c_issues st in
  let errors := countType error issues in
  let warnings := countType warning issues in
  mkCheckResult "Complexity Analysis"
    (if 0 <? errors then fail else if 5 <? warnings then warn else pass)
    elapsed issues
    (showNat (largeFiles st) ++ " oversized files, "
       ++ showNat (complexComponents st) ++ " complex components, "
       ++ showNat warnings ++ " warnings")
    None.

(** ** Structure check *)

(** [interface FolderAnalysis] *)
Record FolderAnalysis := mkFolderAnalysis {
  folder_path : string;
  depth : nat;
  fileCount : nat;
  hasIndex : bool;
  mixedContent : bool
}.

(** The issues of one iteration of [for (const folder of folders)]. *)
Definition folderIssues (folder : FolderAnalysis) : list Issue :=
  let f := Some ("apps/web/src/" ++ folder_path folder) in
  (if THRESHOLDS.FOLDER_DEPTH_ERROR <=? depth folder then
     [mkIssue error f None
        ("Folder depth " ++ showNat (depth folder) ++ " exceeds maximum ("
           ++ showNat THRESHOLDS.FOLDER_DEPTH_ERROR ++ ")")
        (Some "structure/deep-nesting")
        (Some "Flatten the structure. Consider co-locating related files or using a flatter hierarchy.")]
   else if THRESHOLDS.FOLDER_DEPTH_WARNING <=? depth folder then
     [mkIssue warning f None
        ("Folder depth " ++ showNat (depth folder) ++ " is getting deep")
        (Some "structure/deep-nesting")
        (Some "Consider flattening nested folders.")]
   else [])
  ++ (if THRESHOLDS.FILES_PER_FOLDER_ERROR <=? fileCount folder then
        [mkIssue error f None
           ("Folder has " ++ showNat (fileCount folder) ++ " files (max "
              ++ showNat THRESHOLDS.FILES_PER_FOLDER_ERROR ++ ")")
           (Some "structure/crowded-folder")
           (Some "Split into subfolders by domain or feature (e.g., /messages, /input, /sidebar).")]
      else if THRESHOLDS.FILES_PER_FOLDER_WARNING <=? fileCount folder then
        [mkIssue warning f None
           ("Folder has " ++ showNat (fileCount folder)
              ++ " files - consider organizing")
           (Some "structure/crowded-folder")
           (Some "Consider grouping related files into subfolders.")]
      else [])
  ++ (if mixedContent folder then
        [mkIssue info f None
           "Folder mixes components, hooks, and utilities without subfolders"
           (Some "structure/mixed-content")
           (Some "Organize into /components, /hooks, /utils subfolders or co-locate with features.")]
      else []).

(** What the scan of [features/] reads for one feature directory:
    its listing fails, it has no [components] folder, or it has one,
    whose own listing gives file names or fails. *)
Inductive FeatureRead :=
| Unreadable
| NoComponents
| Components (files : option (list string)).

(** The loop over [featureDirs]; a failed [readdir] leaves the loop
    through the enclosing [catch], keeping the issues pushed so far. *)
Fixpoint featureIssues (fs : list (string * FeatureRead)) : list Issue :=
  match fs with
  | [] => []
  | (_, Unreadable) :: _ => []
  | (_, NoComponents) :: fs' => featureIssues fs'
  | (_, Components None) :: _ => []
  | (feature, Components (Some componentFiles)) :: fs' =>
      let tsxCount := length (filter (endsWith ".tsx") componentFiles) in
      (if 20 <? tsxCount then
         [mkIssue warning
            (Some ("apps/web/src/features/" ++ feature ++ "/components")) None
            ("Feature has " ++ showNat tsxCount ++ " components in one folder")
            (Some "structure/feature-organization")
            (Some ("Group related components: e.g., /messages, /input, /sidebar within features/"
                     ++ feature ++ "/components"))]
       else [])
      ++ featureIssues fs'
  end.

(** [checkStructure]: [folders] is the result of the folder walk
    ([analyzeFolderStructure], not embedded here), [features] the
    directories under [features/] ([None]: the folder cannot be listed). *)
Definition checkStructure (folders : list FolderAnalysis)
           (features : option (list (string * FeatureRead)))
           (elapsed : nat) : CheckResult :=
  let issues :=
    (flat_map folderIssues folders
     ++ match features with
        | Some fs => featureIssues fs
        | None => []
        end)%list in
  let deepFolders :=
    length (filter (fun f => THRESHOLDS.FOLDER_DEPTH_ERROR <=? depth f) folders) in
  let crowdedFolders :=
    length (filter (fun f => THRESHOLDS.FILES_PER_FOLDER_ERROR <=? fileCount f)
                   folders) in
  let errors := countType error issues in
  let warnings := countType warning issues in
  mkCheckResult "Structure Analysis"
    (if 0 <? errors then fail else if 3 <? warnings then warn else pass)
    elapsed issues
    (showNat deepFolders ++ " deep folders, " ++ showNat crowdedFolders
       ++ " crowded folders, " ++ showNat warnings ++ " warnings")
    None.

(** ** Tool adapters

    Each adapter runs a tool and turns its output into issues.  The
    output of the tool and the issues the adapter's parsing pushes
    ([found]) are arguments here; the embedding starts at the quick-mode
    gate and ends at the [CheckResult] the adapter returns. *)

(** The status expression shared by five adapters:
    [errors > 0 ? "fail" : warnings > 0 ? "warn" : "pass"]. *)
Definition failWarnPass (errors warnings : nat) : Status :=
  if 0 <? errors then fail else if 0 <? warnings then warn else pass.

(** [checkEslint] *)
Definition checkEslint (found : list Issue) (raw : string) (elapsed : nat)
  : CheckResult :=
  let errors := countType error found in
  let warnings := countType warning found in
  mkCheckResult "Import & Complexity (ESLint)"
    (failWarnPass errors warnings) elapsed found
    (showNat errors ++ " errors, " ++ showNat warnings ++ " warnings")
    (Some raw).

(** [checkOxlint] *)
Definition checkOxlint (found : list Issue) (raw : string) (elapsed : nat)
  : CheckResult :=
  let errors := countType error found in
  let warnings := countType warning found in
  mkCheckResult "Linting (oxlint)"
    (failWarnPass errors warnings) elapsed found
    (showNat errors ++ " errors, " ++ showNat warnings ++ " warnings")
    (Some raw).

(** [checkKnip] *)
Definition checkKnip (found : list Issue) (raw : string) (elapsed : nat)
  : CheckResult :=
  let errors := countType error found in
  let warnings := countType warning found in
  let infos := countType info found in
  mkCheckResult "Dead Code (knip)"
    (failWarnPass errors warnings) elapsed found
    (showNat errors ++ " errors, " ++ showNat warnings ++ " unused deps, "
       ++ showNat infos ++ " unused exports")
    (Some raw).

(** One clone block as [checkJscpd] extracts it: first file, its start
    line (the pattern captures decimal digits, which [parseInt] turns
    into a non-negative integer), and the message built from the
    captured texts. *)
Record Clone := mkClone {
  clone_file : string;
  clone_line : nat;
  clone_message : string
}.

Definition cloneIssue (c : Clone) : Issue :=
  mkIssue warning (Some (clone_file c))
    (Some (Integer (Z.of_nat (clone_line c))))
    (clone_message c) (Some "jscpd/duplicate") None.

(** What [checkJscpd] reads from the tool's output and report file:
    the blocks matched by [cloneRegex]; the number of occurrences of
    ["Clone found"]; the blocks matched by the line-by-line scan; the
    message of the statistics issue when the JSON report is present with a
    positive percentage. *)
Record JscpdOutput := mkJscpdOutput {
  regexClones : list Clone;
  cloneFoundCount : nat;
  scanClones : list Clone;
  statsMessage : option string;
  jscpd_raw : string
}.

(** [checkJscpd] *)
Definition checkJscpd (isQuick : bool) (out : JscpdOutput) (elapsed : nat)
  : CheckResult :=
  if isQuick then
    mkCheckResult "Duplicate Code (jscpd)" skip 0 [] "Skipped (--quick mode)" None
  else
    let issues1 := map cloneIssue (regexClones out) in
    let issues2 :=
      if (length issues1 =? 0) && (0 <? cloneFoundCount out) then
        let scanned := (issues1 ++ map cloneIssue (scanClones out))%list in
        if (length scanned =? 0) && (0 <? cloneFoundCount out) then
          (scanned ++
           [mkIssue warning None None
              ("Found " ++ showNat (cloneFoundCount out)
                 ++ " code duplications (see logs/code-health-report.json for rawOutput)")
              (Some "jscpd/duplicate") None])%list
        else scanned
      else issues1 in
    let issues :=
      (issues2 ++
       match statsMessage out with
       | Some m => [mkIssue info None None m (Some "jscpd/stats") None]
       | None => []
       end)%list in
    let warnings := countType warning issues in
    mkCheckResult "Duplicate Code (jscpd)"
      (if 10 <? warnings then warn else pass)
      elapsed issues
      (showNat warnings ++ " duplicate blocks found")
      (Some (jscpd_raw out)).

(** What [checkMadge] keeps of the two [madge] runs: the orphan paths
    that pass its line filter, and the trimmed, non-empty cycle lines. *)
Record MadgeOutput := mkMadgeOutput {
  orphans : list string;
  cycles : list string;
  madge_raw : string
}.

Definition orphanIssue (orphan : string) : Issue :=
  let isExpectedOrphan :=
    includes "config.ts" orphan || includes ".config.ts" orphan
    || includes "_generated" orphan in
  mkIssue (if isExpectedOrphan then info else warning)
    (Some ("packages/backend/convex/" ++ orphan)) None
    (if isExpectedOrphan then "Config file (expected to be standalone)"
     else "Orphan file - nothing imports this")
    (Some "madge/orphan") None.

Definition cycleIssue (cleanCycle : string) : Issue :=
  mkIssue error None None ("Circular: " ++ cleanCycle) (Some "madge/circular") None.

(** [checkMadge] *)
Definition checkMadge (isQuick : bool) (out : MadgeOutput) (elapsed : nat)
  : CheckResult :=
  if isQuick then
    mkCheckResult "Dependency Graph (madge)" skip 0 [] "Skipped (--quick mode)" None
  else
    let issues :=
      (map orphanIssue (orphans out) ++ map cycleIssue (cycles out))%list in
    let errors := countType error issues in
    let warnings := countType warning issues in
    mkCheckResult "Dependency Graph (madge)"
      (failWarnPass errors warnings) elapsed issues
      (showNat errors ++ " circular deps, " ++ showNat warnings ++ " orphan files")
      (Some (madge_raw out)).

(** One error line of the type checker as [checkTypeScript] reads it:
    matched by its pattern (file, line, message, code) or kept whole. *)
Inductive TsError :=
| TsLocated (file : string) (line : nat) (message code : string)
| TsPlain (trimmed : string).

Definition tsIssue (e : TsError) : Issue :=
  match e with
  | TsLocated f l m c =>
      mkIssue error (Some f) (Some (Integer (Z.of_nat l))) m (Some c) None
  | TsPlain m => mkIssue error None None m None None
  end.

(** [checkTypeScript]; here [errors] is [issues.length]. *)
Definition checkTypeScript (found : list TsError) (raw : string) (elapsed : nat)
  : CheckResult :=
  let issues := map tsIssue found in
  let errors := length issues in
  mkCheckResult "TypeScript Types"
    (if 0 <? errors then fail else pass) elapsed issues
    (showNat errors ++ " type errors")
    (Some raw).

(** The single issue of the missing-configuration return of
    [checkArchitecture]. *)
Definition missingConfigIssue : Issue :=
  mkIssue info None None
    "No .dependency-cruiser.cjs config found - skipping architecture check"
    None
    (Some "Create .dependency-cruiser.cjs to define module boundaries").

(** [checkArchitecture]: [configExists] tells whether [stat(configPath)]
    succeeded. *)
Definition checkArchitecture (isQuick configExists : bool)
           (found : list Issue) (raw : string) (elapsed : nat) : CheckResult :=
  if isQuick then
    mkCheckResult "Architecture Boundaries" skip 0 [] "Skipped (--quick mode)" None
  else if negb configExists then
    mkCheckResult "Architecture Boundaries" skip elapsed [missingConfigIssue]
      "Config not found" None
  else
    let errors := countType error found in
    let warnings := countType warning found in
    mkCheckResult "Architecture Boundaries"
      (failWarnPass errors warnings) elapsed found
      (showNat errors ++ " boundary violations, " ++ showNat warnings ++ " warnings")
      (Some raw).

(** ** The run *)

(** Everything one run of [main] reads from outside the script. *)
Record World := mkWorld {
  isQuick : bool;
  cwd : string;
  oxlintFound : list Issue;   oxlintRaw : string;
  eslintFound : list Issue;   eslintRaw : string;
  knipFound : list Issue;     knipRaw : string;
  jscpdOut : JscpdOutput;
  madgeOut : MadgeOutput;
  tsFound : list TsError;     tsRaw : string;
  sourceFiles : list (string * option string);
  configExists : bool;
  archFound : list Issue;     archRaw : string;
  folders : list FolderAnalysis;
  features : option (list (string * FeatureRead));
  elapsed : nat -> nat;
  now : string;
  totalElapsed : nat
}.

(** The nine [checks.push(await ...)] of [main], in order; [elapsed w k]
    is the duration the [k]-th check measures. *)
Definition runChecks (w : World) : list CheckResult :=
  [ checkOxlint (oxlintFound w) (oxlintRaw w) (elapsed w 0);
    checkEslint (eslintFound w) (eslintRaw w) (elapsed w 1);
    checkKnip (knipFound w) (knipRaw w) (elapsed w 2);
    checkJscpd (isQuick w) (jscpdOut w) (elapsed w 3);
    checkMadge (isQuick w) (madgeOut w) (elapsed w 4);
    checkTypeScript (tsFound w) (tsRaw w) (elapsed w 5);
    checkComplexity (cwd w) (sourceFiles w) (elapsed w 6);
    checkArchitecture (isQuick w) (configExists w) (archFound w) (archRaw w)
                      (elapsed w 7);
    checkStructure (folders w) (features w) (elapsed w 8) ].

(** The report [main] builds and serialises. *)
Definition mainReport (w : World) : HealthReport :=
  buildReport (now w) (totalElapsed w) (runChecks w).

(** How the [await]ed file-system calls of [main] end: [mkdir] rejects
    before any check runs, one of the two [writeFile] calls rejects after
    the report is built, or all three succeed. *)
Inductive FileSystem := MkdirRejects | WriteFileRejects | ReportsWritten.

(** The exit code of the process started by [main().catch(console.error)].
    When [main] reaches its last statement the code is the argument of
    [process.exit].  When an [await]ed call rejects, [main] stops there,
    the rejection goes to [console.error], and the process ends on its
    own with code 0, whatever the checks found. *)
Definition processExitCode (w : World) (fs : FileSystem) : nat :=
  match fs with
  | ReportsWritten => exitCode (mainReport w)
  | MkdirRejects | WriteFileRejects => 0
  end.


(** ** Compact report *)

(** [`${report.grade}`] *)
Definition gradeLetter (g : Grade) : string :=
  match g with
  | A => "A"
  | B => "B"
  | C => "C"
  | D => "D"
  | F => "F"
  end.

(** The compact interfaces keep the source's one-letter field names,
    inside a module of their own; the fields of [totals] are [te], [tw]
    and [ti] for [e], [w] and [i]. *)
Module Compact.
(** [interface CompactCheckResult] *)
Record CheckResult := mkCheckResult {
  n : string;
  s : Status;
  d : nat;
  i : list string;
  sum : string
}.

(** [totals] of [interface CompactReport] *)
Record Totals := mkTotals {
  te : nat;
  tw : nat;
  ti : nat
}.

(** [interface CompactReport] *)
Record Report := mkReport {
  ts : string;
  dur : nat;
  checks : list CheckResult;
  totals : Totals;
  grade : string
}.
End Compact.

(** [compactReport] *)
Definition compactReport (report : HealthReport) : Compact.Report :=
  Compact.mkReport
    (timestamp report)
    (report_duration report)
    (map (fun c => Compact.mkCheckResult (name c) (status c) (duration c)
                     (map compactIssue (issues c)) (summary c))
         (checks report))
    (Compact.mkTotals (errors (totals report)) (warnings (totals report))
                      (infos (totals report)))
    (gradeLetter (grade report)).

(** ** Text fallbacks of the adapters

    When the output of a tool is not JSON, [JSON.parse] throws and the
    adapter scans the output line by line. *)

(** [s.trim()]: white space and line terminators are removed at both
    ends. *)
Fixpoint trimStart (s : string) : string :=
  match s with
  | EmptyString => EmptyString
  | String c s' => if isSpace c then trimStart s' else s
  end.

Fixpoint trimEnd (s : string) : string :=
  match s with
  | EmptyString => EmptyString
  | String c s' =>
      match trimEnd s' with
      | EmptyString => if isSpace c then EmptyString else String c EmptyString
      | t => String c t
      end
  end.

Definition trim (s : string) : string := trimEnd (trimStart s).

(** [text.split("\n").filter(Boolean)]: the non-empty lines. *)
Definition nonEmptyLines (text : string) : list string :=
  filter (fun l => negb (String.eqb l "")) (splitLines text).

(** The [catch] branch of [checkOxlint]. *)
Definition oxlintTextIssues (stdout : string) : list Issue :=
  flat_map (fun line =>
              if includes "error" line || includes "warning" line
              then [mkIssue warning None None line None None]
              else [])
           (nonEmptyLines stdout).

(** The [catch] branch of [checkKnip]. *)
Definition knipTextIssues (stdout : string) : list Issue :=
  flat_map (fun line =>
              if includes "Unused" line || includes "unused" line
              then [mkIssue warning None None (trim line) None None]
              else [])
           (nonEmptyLines stdout).

(** The [catch] branch of [checkArchitecture]; it scans
    [stdout + stderr]. *)
Definition architectureTextIssues (stdout stderr : string) : list Issue :=
  flat_map (fun line =>
              if includes "error" line || includes "violation" line
              then [mkIssue warning None None (trim line)
                      (Some "architecture/unknown") None]
              else [])
           (nonEmptyLines (stdout ++ stderr)).

(** The three checks on an output that is not JSON. *)
Definition checkOxlintText (stdout stderr : string) (elapsed : nat)
  : CheckResult :=
  checkOxlint (oxlintTextIssues stdout) (stdout ++ stderr) elapsed.

Definition checkKnipText (stdout stderr : string) (elapsed : nat)
  : CheckResult :=
  checkKnip (knipTextIssues stdout) (stdout ++ stderr) elapsed.

Definition checkArchitectureText (stdout stderr : string) (elapsed : nat)
  : CheckResult :=
  checkArchitecture false true (architectureTextIssues stdout stderr)
                    (stdout ++ stderr) elapsed.

(** ** Directory walks

    A directory tree as [readdir(dir, { withFileTypes: true })] shows
    it: files, directories with their own listing ([None] when the
    directory cannot be listed), and entries that are neither. *)
#[warnings="-register-all"]
Inductive Entry :=
| FileEntry (name : string)
| DirEntry (name : string) (listing : option (list Entry))
| OtherEntry (name : string).

Definition entryName (e : Entry) : string :=
  match e with
  | FileEntry name => name
  | DirEntry name _ => name
  | OtherEntry name => name
  end.

(** [entry.isFile()], [entry.isDirectory()] *)
Definition isFile (e : Entry) : bool :=
  match e with FileEntry _ => true | _ => false end.
Definition isDirectory (e : Entry) : bool :=
  match e with DirEntry _ _ => true | _ => false end.

(** [join(dir, name)] for a normalised [dir] and the name of a directory
    entry, with the separator of POSIX paths. *)
Definition pathJoin (dir name : string) : string := dir ++ "/" ++ name.

(** [s.replace(/^[/\\]/, "")]: one leading slash or backslash is
    removed. *)
Definition stripLeadingSeparator (s : string) : string :=
  match s with
  | String c s' =>
      if Ascii.eqb c "/" || Ascii.eqb c "092" then s' else s
  | EmptyString => EmptyString
  end.

(** The record [analyzeFolderStructure] builds for one directory from
    its listing. *)
Definition folderAnalysisOf (relativePath : string) (depth : nat)
           (entries : list Entry) : FolderAnalysis :=
  let files := filter isFile entries in
  let dirs := filter isDirectory entries in
  let tsxFiles := filter (fun f => endsWith ".tsx" (entryName f)) files in
  let tsFiles :=
    filter (fun f => endsWith ".ts" (entryName f)
                     && negb (endsWith ".d.ts" (entryName f))) files in
  let hasIndex :=
    existsb (fun f => String.eqb (entryName f) "index.ts"
                      || String.eqb (entryName f) "index.tsx") files in
  let hasComponents := 0 <? length tsxFiles in
  let hasUtils :=
    existsb (fun f => includes "util" (entryName f)
                      || includes "helper" (entryName f)
                      || includes "service" (entryName f)) tsFiles in
  let hasHooks := existsb (fun f => prefix "use" (entryName f)) tsFiles in
  let mixedContent :=
    hasComponents && (hasUtils || hasHooks) && (length dirs =? 0)
    && (5 <? length files) in
  mkFolderAnalysis relativePath depth (length files) hasIndex mixedContent.

(** [analyzeFolderStructure(dir, basePath, depth)]; [self] is the
    directory at [dir] (its own name plays no role).  A directory that
    cannot be listed, and one whose path includes [node_modules],
    [_generated] or [.git], gives no result. *)
Fixpoint analyzeFolderStructure (dir basePath : string) (depth : nat)
         (self : Entry) {struct self} : list FolderAnalysis :=
  match self with
  | DirEntry _ (Some entries) =>
      if includes "node_modules" dir || includes "_generated" dir
         || includes ".git" dir
      then []
      else
        let relativePath :=
          stripLeadingSeparator (removeFirst basePath dir) in
        ((match truthyString (Some relativePath) with
          | Some _ => [folderAnalysisOf relativePath depth entries]
          | None => []
          end)
         ++ (fix subDirs (es : list Entry) : list FolderAnalysis :=
               match es with
               | [] => []
               | e :: es' =>
                   match e with
                   | DirEntry name _ =>
                       analyzeFolderStructure (pathJoin dir name) basePath
                                              (S depth) e
                       ++ subDirs es'
                   | _ => subDirs es'
                   end
               end) entries)%list
  | _ => []
  end.

(** [join(process.cwd(), "apps/web/src")].  The working directory is a
    normalised absolute path: the root ["/"], after which [join] adds no
    second separator, or a path that does not end with one. *)
Definition webSrcPath (cwd : string) : string :=
  if String.eqb cwd "/" then "/apps/web/src" else cwd ++ "/apps/web/src".

(** [checkStructure] from the directory tree under [apps/web/src]. *)
Definition checkStructureOf (cwd : string) (webSrc : Entry)
           (features : option (list (string * FeatureRead)))
           (elapsed : nat) : CheckResult :=
  checkStructure
    (analyzeFolderStructure (webSrcPath cwd) (webSrcPath cwd) 0 webSrc)
    features elapsed.

(** A pattern that ends with [$]: the match has to reach the end of the
    input. *)
Definition matchToEnd (r : regex) (prev : option ascii) (s : string)
  : option unit :=
  rmatch r prev s []
         (fun _ s' _ => match s' with
                        | EmptyString => Some tt
                        | String _ _ => None
                        end).

Fixpoint testToEndFrom (r : regex) (prev : option ascii) (s : string) : bool :=
  match matchToEnd r prev s with
  | Some _ => true
  | None =>
      match s with
      | String c s' => testToEndFrom r (Some c) s'
      | EmptyString => false
      end
  end.

(** [re.test(str)] for [re = /r$/] *)
Definition testToEnd (r : regex) (s : string) : bool := testToEndFrom r None s.

(** [/\.(tsx?|ts)$/], without its [$] *)
Definition re_sourceFile : regex :=
  seqs [chr "."; Group 1 (Alt (Seq (lit "ts") (Opt (chr "x"))) (lit "ts"))].

(** [ignorePatterns] of [checkComplexity] *)
Definition ignorePatterns : list regex :=
  [lit "node_modules"; lit "_generated"; lit ".test."; lit ".spec.";
   lit "routeTree.gen"].

(** [walk] of [findFiles]: the files pushed while walking the directory
    [self] at path [currentDir], in the order of the walk. *)
Fixpoint walk (pattern : regex) (ignore : list regex) (currentDir : string)
         (self : Entry) {struct self} : list string :=
  match self with
  | DirEntry _ (Some entries) =>
      (fix each (es : list Entry) : list string :=
         match es with
         | [] => []
         | e :: es' =>
             let fullPath := pathJoin currentDir (entryName e) in
             ((if existsb (fun re => test re fullPath) ignore then []
               else match e with
                    | DirEntry _ _ => walk pattern ignore fullPath e
                    | FileEntry name =>
                        if testToEnd pattern name then [fullPath] else []
                    | OtherEntry _ => []
                    end)
              ++ each es')%list
         end) entries
  | _ => []
  end.

(** [findFiles(dir, pattern, ignore)] *)
Definition findFiles (dir : string) (pattern : regex) (ignore : list regex)
           (self : Entry) : list string :=
  walk pattern ignore dir self.

(** [checkComplexity] from the directory tree under [apps/web/src];
    [readFile] gives the text of a file, or [None] when it throws. *)
Definition checkComplexityOf (cwd : string) (webSrc : Entry)
           (readFile : string -> option string) (elapsed : nat)
  : CheckResult :=
  checkComplexity cwd
    (map (fun file => (file, readFile file))
         (findFiles (webSrcPath cwd) re_sourceFile ignorePatterns webSrc))
    elapsed.

(** ** Markdown report

    The literals of [generateMarkdownReport] hold glyphs outside the
    range of the characters modelled here; they stand in the texts below as
    they stand in the source file, and no function looks inside them. *)

(** [`${v}`] for an optional text: an absent one prints as [undefined]. *)
Definition showOptional (o : option string) : string :=
  match o with
  | Some s => s
  | None => "undefined"
  end.

(** [`${check.status}`] *)
Definition statusText (s : Status) : string :=
  match s with
  | pass => "pass"
  | warn => "warn"
  | fail => "fail"
  | skip => "skip"
  end.

(** [getStatusEmoji] *)
Definition getStatusEmoji (s : Status) : string :=
  match s with
  | pass => "‚úÖ"
  | warn => "‚ö†Ô∏è"
  | fail => "‚ùå"
  | skip => "‚è≠Ô∏è"
  end.

(** [i.rule === r] *)
Definition ruleIs (r : string) (i : Issue) : bool :=
  match rule i with
  | Some x => String.eqb x r
  | None => false
  end.

(** [i.rule?.includes(t)] *)
Definition ruleIncludes (t : string) (i : Issue) : bool :=
  match rule i with
  | Some x => includes t x
  | None => false
  end.

(** [i.type === t] *)
Definition typeIs (t : IssueType) (i : Issue) : bool :=
  IssueType_eqb (type i) t.

(** [report.checks.find(c => c.name.includes(t))] *)
Definition findCheck (t : string) (report : HealthReport) : option CheckResult :=
  find (fun c => includes t (name c)) (checks report).

(** The location and rule parts of an error or warning bullet, and the
    bullet with its optional fix line. *)
Definition bulletLocation (issue : Issue) : string :=
  match truthyString (file issue) with
  | Some f =>
      "`" ++ f ++ match truthyNumber (line issue) with
                  | Some z => ":" ++ showZ z
                  | None => ""
                  end ++ "`"
  | None => ""
  end.

Definition bulletRule (issue : Issue) : string :=
  match truthyString (rule issue) with
  | Some r => " [" ++ r ++ "]"
  | None => ""
  end.

Definition issueBullet (issue : Issue) : list string :=
  ("- " ++ bulletLocation issue ++ " " ++ message issue ++ bulletRule issue)
  :: match truthyString (fix_ issue) with
     | Some f => ["  - üí° **Fix:** " ++ f]
     | None => []
     end.

(** The bullet of an info issue: the file without the line, no rule. *)
Definition infoBullet (issue : Issue) : list string :=
  ("- " ++ match truthyString (file issue) with
           | Some f => "`" ++ f ++ "`"
           | None => ""
           end ++ " " ++ message issue)
  :: match truthyString (fix_ issue) with
     | Some f => ["  - üí° " ++ f]
     | None => []
     end.

(** The three blocks of the detail section of one check. *)
Definition errorBlock (errorIssues : list Issue) : list string :=
  if 0 <? length errorIssues then
    List.concat
      [ ["### ‚ùå Errors"; ""];
        flat_map issueBullet (firstn 20 errorIssues);
        if 20 <? length errorIssues
        then ["- ... and " ++ showNat (length errorIssues - 20) ++ " more errors"]
        else [];
        [""] ]
  else [].

Definition warningBlock (warnIssues : list Issue) : list string :=
  if 0 <? length warnIssues then
    List.concat
      [ ["### ‚ö†Ô∏è Warnings"; ""];
        flat_map issueBullet (firstn 20 warnIssues);
        if 20 <? length warnIssues
        then ["- ... and " ++ showNat (length warnIssues - 20) ++ " more warnings"]
        else [];
        [""] ]
  else [].

Definition infoBlock (infoIssues : list Issue) : list string :=
  if (0 <? length infoIssues) && (length infoIssues <=? 10) then
    List.concat [ ["### ‚ÑπÔ∏è Info"; ""]; flat_map infoBullet infoIssues; [""] ]
  else if 10 <? length infoIssues then
    ["### ‚ÑπÔ∏è Info (" ++ showNat (length infoIssues)
       ++ " items - see JSON for full list)"; ""]
  else [].

(** One iteration of the loop that adds the detailed issues per check. *)
Definition checkDetail (check : CheckResult) : list string :=
  if length (issues check) =? 0 then []
  else
    List.concat
      [ ["## " ++ getStatusEmoji (status check) ++ " " ++ name check; ""];
        errorBlock (filter (typeIs error) (issues check));
        warningBlock (filter (typeIs warning) (issues check));
        infoBlock (filter (typeIs info) (issues check)) ].

(** The action items: the lines pushed so far and the counter
    [priority]. *)
Definition ActionState := (list string * nat)%type.

(** One numbered item: [headline] receives [priority], which is then
    incremented; [details] and an empty line follow. *)
Definition pushItem (st : ActionState) (headline : nat -> string)
           (details : list string) : ActionState :=
  (List.concat [fst st; [headline (snd st)]; details; [""]], S (snd st)).

(** The items taken from [complexityCheck]. *)
Definition oversizedItem (st : ActionState) (largeFiles : list Issue)
  : ActionState :=
  if 0 <? length largeFiles then
    pushItem st
      (fun priority =>
         showNat priority ++ ". **üî¥ Split " ++ showNat (length largeFiles)
           ++ " oversized file(s)** - These are too large to maintain")
      (map (fun f => "   - `" ++ showOptional (file f) ++ "` - "
                       ++ match truthyString (fix_ f) with
                          | Some x => x
                          | None => "Split into smaller modules"
                          end)
           (firstn 5 largeFiles))
  else st.

Definition complexComponentsItem (st : ActionState)
           (complexComponents : list Issue) : ActionState :=
  if 0 <? length complexComponents then
    pushItem st
      (fun priority =>
         showNat priority ++ ". **üî¥ Simplify "
           ++ showNat (length complexComponents)
           ++ " complex component(s)** - Too many hooks indicate the component is doing too much")
      (flat_map (fun c => ["   - `" ++ showOptional (file c) ++ "`";
                           "     - " ++ message c;
                           "     - üí° " ++ showOptional (fix_ c)])
                (firstn 3 complexComponents))
  else st.

Definition complexityItems (st : ActionState)
           (complexityCheck : option CheckResult) : ActionState :=
  match complexityCheck with
  | Some c =>
      let largeFiles :=
        filter (fun i => ruleIs "complexity/file-size" i && typeIs error i)
               (issues c) in
      let complexComponents :=
        filter (fun i => ruleIs "complexity/too-many-hooks" i && typeIs error i)
               (issues c) in
      complexComponentsItem (oversizedItem st largeFiles) complexComponents
  | None => st
  end.

(** The item taken from [structureCheck]. *)
Definition structureItems (st : ActionState)
           (structureCheck : option CheckResult) : ActionState :=
  match structureCheck with
  | Some c =>
      let crowdedFolders := filter (ruleIs "structure/crowded-folder") (issues c) in
      if 0 <? length crowdedFolders then
        pushItem st
          (fun priority =>
             showNat priority ++ ". **üìÅ Organize "
               ++ showNat (length crowdedFolders)
               ++ " crowded folder(s)** - Too many files in one place")
          (map (fun f => "   - `" ++ showOptional (file f) ++ "` - "
                           ++ match truthyString (fix_ f) with
                              | Some x => x
                              | None => "Split into subfolders"
                              end)
               (firstn 3 crowdedFolders))
      else st
  | None => st
  end.

(** The item taken from [architectureCheck]. *)
Definition architectureItems (st : ActionState)
           (architectureCheck : option CheckResult) : ActionState :=
  match architectureCheck with
  | Some c =>
      let violations := filter (typeIs error) (issues c) in
      if 0 <? length violations then
        pushItem st
          (fun priority =>
             showNat priority ++ ". **üèóÔ∏è Fix "
               ++ showNat (length violations)
               ++ " architecture violation(s)** - Clean module boundaries")
          (flat_map (fun v =>
                       ("   - `" ++ showOptional (file v) ++ "` - " ++ message v)
                       :: match truthyString (fix_ v) with
                          | Some x => ["     - üí° " ++ x]
                          | None => []
                          end)
                    (firstn 3 violations))
      else st
  | None => st
  end.

(** The item taken from [duplicateCheck]. *)
Definition duplicateItems (st : ActionState)
           (duplicateCheck : option CheckResult) : ActionState :=
  match duplicateCheck with
  | Some c =>
      let dupes := length (filter (typeIs warning) (issues c)) in
      if 0 <? dupes then
        pushItem st
          (fun priority =>
             showNat priority ++ ". **üìã Consolidate " ++ showNat dupes
               ++ " duplicate code block(s)** - DRY principle")
          ["   - Extract shared logic into utilities or shared components"]
      else st
  | None => st
  end.

(** The items taken from [deadCodeCheck]. *)
Definition deadCodeItems (st : ActionState)
           (deadCodeCheck : option CheckResult) : ActionState :=
  match deadCodeCheck with
  | Some c =>
      if 0 <? length (issues c) then
        let unusedFiles := filter (ruleIs "knip/unused-file") (issues c) in
        let unusedExports := filter (ruleIncludes "unused-export") (issues c) in
        let st1 :=
          if 0 <? length unusedFiles then
            pushItem st
              (fun priority =>
                 showNat priority ++ ". **üóëÔ∏è Delete "
                   ++ showNat (length unusedFiles)
                   ++ " unused file(s)** - Dead code")
              (map (fun f => "   - `" ++ showOptional (file f) ++ "`")
                   (firstn 5 unusedFiles))
          else st in
        if 10 <? length unusedExports then
          pushItem st1
            (fun priority =>
               showNat priority ++ ". **üßπ Clean up "
                 ++ showNat (length unusedExports)
                 ++ " unused exports** - Remove or use them")
            []
        else st1
      else st
  | None => st
  end.

(** The item taken from [orphanCheck]. *)
Definition circularItems (st : ActionState)
           (orphanCheck : option CheckResult) : ActionState :=
  match orphanCheck with
  | Some c =>
      if 0 <? length (filter (ruleIs "madge/circular") (issues c)) then
        pushItem st
          (fun priority =>
             showNat priority
               ++ ". **üîÑ Fix circular dependencies** - These can cause bundling issues")
          []
      else st
  | None => st
  end.

(** The line pushed when [priority] is still 1. *)
Definition noCriticalLine : string :=
  "üéâ **No critical issues found!** Keep up the good work.".

(** The state after the six groups of items, from [priority = 1]. *)
Definition actionState (report : HealthReport) : ActionState :=
  let deadCodeCheck := findCheck "knip" report in
  let duplicateCheck := findCheck "jscpd" report in
  let orphanCheck := findCheck "madge" report in
  let complexityCheck := findCheck "Complexity" report in
  let architectureCheck := findCheck "Architecture" report in
  let structureCheck := findCheck "Structure" report in
  circularItems
    (deadCodeItems
       (duplicateItems
          (architectureItems
             (structureItems
                (complexityItems ([], 1) complexityCheck)
                structureCheck)
             architectureCheck)
          duplicateCheck)
       deadCodeCheck)
    orphanCheck.

(** The lines of the priority action items, after their heading. *)
Definition actionItems (report : HealthReport) : list string :=
  let st := actionState report in
  List.concat [fst st; if snd st =? 1 then [noCriticalLine; ""] else []].

Section Markdown.
(** [(ms / 1000).toFixed(1)] rounds a floating-point quotient; it is a
    parameter here. *)
Variable toFixed1 : nat -> string.
(** [JSON_FILE] *)
Variable JSON_FILE : string.

(** [formatDuration] *)
Definition formatDuration (ms : nat) : string :=
  if ms <? 1000 then showNat ms ++ "ms" else toFixed1 ms ++ "s".

(** One row of the summary table. *)
Definition summaryRow (check : CheckResult) : string :=
  "| " ++ name check ++ " | " ++ getStatusEmoji (status check) ++ " "
    ++ statusText (status check) ++ " | " ++ formatDuration (duration check)
    ++ " | " ++ summary check ++ " |".

(** [generateMarkdownReport], before its [lines.join("\n")]. *)
Definition markdownLines (report : HealthReport) : list string :=
  List.concat
    [ ["# üè• Code Health Report";
    "";
    "**Generated:** " ++ timestamp report;
    "**Duration:** " ++ formatDuration (report_duration report);
    "**Grade:** " ++ gradeLetter (grade report);
    "";
    "## üìä Summary";
    "";
    "| Check | Status | Duration | Summary |";
    "|-------|--------|----------|---------|"];
      map summaryRow (checks report);
      [""; "## üìà Totals"; "";
       "- **Errors:** " ++ showNat (errors (totals report));
       "- **Warnings:** " ++ showNat (warnings (totals report));
       "- **Info:** " ++ showNat (infos (totals report));
       ""];
      flat_map checkDetail (checks report);
      ["## üéØ Priority Action Items"; "";
       "Based on the analysis, here are the most impactful fixes:"; ""];
      actionItems report;
      ["---"; "*Full JSON report available at: " ++ JSON_FILE ++ "*"] ].

(** [generateMarkdownReport] *)
Definition generateMarkdownReport (report : HealthReport) : string :=
  String.concat (String "010" "") (markdownLines report).
End Markdown.
(** ** Specification-side definitions

    These follow the wording of the specification; the theorems below
    compare them with the definitions embedded from the script. *)

(** Grade rules as the specification lists them, first match wins. *)
Definition gradeRules : list ((nat -> nat -> bool) * Grade) :=
  [ (fun e w => (e =? 0) && (w =? 0), A);
    (fun e w => (e =? 0) && (w <=? 5), B);
    (fun e w => (e <=? 2) && (w <=? 15), C);
    (fun e _ => e <=? 5, D) ].

Fixpoint firstMatch (rules : list ((nat -> nat -> bool) * Grade))
         (otherwise : Grade) (e w : nat) : Grade :=
  match rules with
  | [] => otherwise
  | (p, g) :: rules' => if p e w then g else firstMatch rules' otherwise e w
  end.

Definition gradeSpec (e w : nat) : Grade := firstMatch gradeRules F e w.

(** Status derivation as the specification words it, with the number of
    warnings a check tolerates before it reports [warn] as a parameter:
    [fail] if an error is present, else [warn] if more than [tolerated]
    warnings are present, else [pass]. *)
Definition deriveStatus (tolerated : nat) (l : list Issue) : Status :=
  if existsb (fun i => IssueType_eqb (type i) error) l then fail
  else if tolerated <? countType warning l then warn
  else pass.

(** The uniform rule of the specification: no warning is tolerated. *)
Definition uniformStatus (l : list Issue) : Status :=
  if existsb (fun i => IssueType_eqb (type i) error) l then fail
  else if existsb (fun i => IssueType_eqb (type i) warning) l then warn
  else pass.

(** Warnings tolerated by each of the nine checks, in the order of
    [runChecks]. *)
Definition toleratedWarnings : list nat := [0; 0; 0; 10; 0; 0; 5; 0; 3].

(** The other reading of the heavy-logic test of [detectMixedConcerns],
    [A && (B || C)], which the script does not compute. *)
Definition mixedConcernsRegrouped (content : string) : bool :=
  test re_jsx content &&
  ((3 <? matchCount re_map content) &&
   ((2 <? matchCount re_filter content) || (10 <? matchCount re_if content))).

(** [lacks c s]: the character [c] does not occur in [s]. *)
Fixpoint lacks (c : ascii) (s : string) : bool :=
  match s with
  | EmptyString => true
  | String x s' => negb (Ascii.eqb c x) && lacks c s'
  end.

(** The five logical fields a reader of the compact form is after. *)
Definition logicalFields (i : Issue)
  : IssueType * option string * option JsNumber * string * option string :=
  (type i, file i, line i, message i, rule i).

(** Issues on which the compact form keeps the five fields apart: a line
    comes only with a file; the file, when present, is non-empty and free
    of the separators ["|"] and [":"]; the line, when present, is neither
    [NaN] nor 0, the two numbers the template takes for an absent line;
    the message is free of ["|"]; the rule, when present, is non-empty. *)
Definition separable (i : Issue) : Prop :=
  match file i with
  | Some f => f <> "" /\ lacks "|" f = true /\ lacks ":" f = true
  | None => line i = None
  end
  /\ line i <> Some NaN
  /\ line i <> Some (Integer 0)
  /\ lacks "|" (message i) = true
  /\ rule i <> Some "".

(** The issues of the complexity check that report a long function. *)
Definition isLongFunctionIssue (i : Issue) : bool :=
  match rule i with
  | Some r => String.eqb r "complexity/long-function"
  | None => false
  end.

(** A source text as the specification describes it for the function-length
    detector: top-level function declarations with other lines between
    them.  A declaration is its name, its first line and the lines after
    it up to and including its closing line. *)
Inductive Segment :=
| Gap (ls : list string)
| Func (nm : string) (header : string) (body : list string).

Definition segmentLines (seg : Segment) : list string :=
  match seg with
  | Gap ls => ls
  | Func _ header body => header :: body
  end.

Definition textLines (segs : list Segment) : list string :=
  flat_map segmentLines segs.

(** [closesAtEnd d body]: starting from brace depth [d], the depth stays
    positive after every line of [body] but the last, and is at most 0
    after the last. *)
Fixpoint closesAtEnd (d : Z) (body : list string) : bool :=
  match body with
  | [] => false
  | l :: rest =>
      match rest with
      | [] => (d + braceDelta l <=? 0)%Z
      | _ :: _ => (0 <? d + braceDelta l)%Z && closesAtEnd (d + braceDelta l) rest
      end
  end.

(** The span of a declaration: closing line index minus start line index. *)
Definition span (body : list string) : nat := length body.

(** The entry the detector pushes for a function of a given span. *)
Definition longEntry (nm : string) (n : nat) : string :=
  nm ++ " (" ++ showNat n ++ " lines)".

(** The report the specification asks for: the declarations whose span
    exceeds 80, in source order, each with its span. *)
Definition longReport (segs : list Segment) : list string :=
  flat_map (fun seg =>
              match seg with
              | Func nm _ body =>
                  if 80 <? span body then [longEntry nm (span body)] else []
              | Gap _ => []
              end) segs.

(** The reading of the specification's property: every declaration starts
    on a line that matches the function-start pattern, has no such line
    inside (none nested), and its closing line is the first line, the
    start line included, after which the brace depth counted from the
    start is back to 0 or below; lines between declarations match no
    function-start pattern. *)
Definition balancedSegment (seg : Segment) : Prop :=
  match seg with
  | Gap ls => Forall (fun l => funcMatch l = None) ls
  | Func nm header body =>
      funcMatch header = Some nm
      /\ Forall (fun l => funcMatch l = None) body
      /\ match body with
         | [] => (braceDelta header <=? 0)%Z
         | _ :: _ => (0 <? braceDelta header)%Z
                     && closesAtEnd (braceDelta header) body
         end = true
  end.

(** What the detector needs: the closing line of a declaration is the
    first line strictly after the start line after which the brace depth
    counted from the start is 0 or below. *)
Definition trackedSegment (seg : Segment) : Prop :=
  match seg with
  | Gap ls => Forall (fun l => funcMatch l = None) ls
  | Func nm header body =>
      funcMatch header = Some nm
      /\ closesAtEnd (braceDelta header) body = true
  end.

(** Grades from best to worst. *)
Definition gradeRank (g : Grade) : nat :=
  match g with
  | A => 0
  | B => 1
  | C => 2
  | D => 3
  | F => 4
  end.

(** The number of occurrences of a character in a text. *)
Fixpoint countChar (c : ascii) (s : string) : nat :=
  match s with
  | EmptyString => 0
  | String x s' => (if Ascii.eqb c x then 1 else 0) + countChar c s'
  end.

(** What holds of the detector's state before it reads line [i], the
    lines before it being [seen]. *)
Definition entryOf (seen : list string) (e : string) : Prop :=
  exists nm n, e = longEntry nm n /\ 80 < n /\ n < length seen
               /\ exists l, In l seen /\ funcMatch l = Some nm.

Definition detectorInvariant (seen : list string) (st : LongFnState) : Prop :=
  Forall (entryOf seen) (acc st)
  /\ if inFunction st
     then functionStartLine st < length seen
          /\ 82 * length (acc st) <= functionStartLine st
          /\ exists l, In l seen /\ funcMatch l = Some (currentFunction st)
     else 82 * length (acc st) <= length seen.

(** An orphan that [checkMadge] expects to stand alone. *)
Definition expectedOrphan (orphan : string) : bool :=
  includes "config.ts" orphan || includes ".config.ts" orphan
  || includes "_generated" orphan.

(** A file [readFile] could read. *)
Definition readable (f : string * option string) : bool :=
  match snd f with Some _ => true | None => false end.

(** [startsWithChar c s]: the first character of [s] is [c]. *)
Definition startsWithChar (c : ascii) (s : string) : bool :=
  match s with
  | String x _ => Ascii.eqb x c
  | EmptyString => false
  end.

(** The first character of the compact form of each severity. *)
Definition severityChar (t : IssueType) : ascii :=
  match t with
  | error => "E"
  | warning => "W"
  | info => "I"
  end.

(** A name as a directory listing gives it: not empty, without slash. *)
Definition plainName (n : string) : bool :=
  negb (String.eqb n "") && lacks "/" n.

(** Every entry below a directory has a plain name. *)
Fixpoint plainTree (e : Entry) : bool :=
  match e with
  | DirEntry _ (Some es) =>
      forallb (fun x => plainName (entryName x) && plainTree x) es
  | _ => true
  end.

(** The results of the sub-directories of a listing, as one expression. *)
Definition subDirResults (dir basePath : string) (depth : nat)
           (es : list Entry) : list FolderAnalysis :=
  flat_map (fun e =>
              match e with
              | DirEntry name _ =>
                  analyzeFolderStructure (pathJoin dir name) basePath
                                         (S depth) e
              | _ => []
              end) es.

(** The files pushed for the entries of a listing, as one expression. *)
Definition walkEntries (pattern : regex) (ignore : list regex)
           (currentDir : string) (es : list Entry) : list string :=
  flat_map (fun e =>
              let fullPath := pathJoin currentDir (entryName e) in
              if existsb (fun re => test re fullPath) ignore then []
              else match e with
                   | DirEntry _ _ => walk pattern ignore fullPath e
                   | FileEntry name =>
                       if testToEnd pattern name then [fullPath] else []
                   | OtherEntry _ => []
                   end) es.

(** The texts [ignorePatterns] looks for. *)
Definition ignoredTexts : list string :=
  ["node_modules"; "_generated"; ".test."; ".spec."; "routeTree.gen"].

(** Induction on a directory tree, with the hypothesis for every entry
    of a listing. *)
Section EntryInduction.
Variable P : Entry -> Prop.
Hypothesis HFile : forall name, P (FileEntry name).
Hypothesis HOther : forall name, P (OtherEntry name).
Hypothesis HLocked : forall name, P (DirEntry name None).
Hypothesis HDir : forall name es, Forall P es -> P (DirEntry name (Some es)).

Fixpoint Entry_induction (e : Entry) : P e :=
  match e with
  | FileEntry name => HFile name
  | OtherEntry name => HOther name
  | DirEntry name None => HLocked name
  | DirEntry name (Some es) =>
      HDir name es
           ((fix all (l : list Entry) : Forall P l :=
               match l with
               | [] => Forall_nil P
               | x :: l' => Forall_cons x (Entry_induction x) (all l')
               end) es)
  end.
End EntryInduction.

(** A world with other source files under another working directory,
    everything else unchanged. *)
Definition withSources (w : World) (cwd' : string)
           (files : list (string * option string)) : World :=
  mkWorld (isQuick w) cwd'
          (oxlintFound w) (oxlintRaw w) (eslintFound w) (eslintRaw w)
          (knipFound w) (knipRaw w) (jscpdOut w) (madgeOut w)
          (tsFound w) (tsRaw w) files (configExists w)
          (archFound w) (archRaw w) (folders w) (features w)
          (elapsed w) (now w) (totalElapsed w).

(** The checks of a run that the action items are taken from. *)
Definition eslintOf (w : World) : CheckResult :=
  checkEslint (eslintFound w) (eslintRaw w) (elapsed w 1).
Definition knipOf (w : World) : CheckResult :=
  checkKnip (knipFound w) (knipRaw w) (elapsed w 2).
Definition jscpdOf (w : World) : CheckResult :=
  checkJscpd (isQuick w) (jscpdOut w) (elapsed w 3).
Definition madgeOf (w : World) : CheckResult :=
  checkMadge (isQuick w) (madgeOut w) (elapsed w 4).
Definition architectureOf (w : World) : CheckResult :=
  checkArchitecture (isQuick w) (configExists w) (archFound w) (archRaw w)
                    (elapsed w 7).
Definition structureOf (w : World) : CheckResult :=
  checkStructure (folders w) (features w) (elapsed w 8).

(** No group of action items has anything to show. *)
Definition nothingToAct (w : World) : Prop :=
  filter (fun i => ruleIs "complexity/file-size" i && typeIs error i)
         (issues (eslintOf w)) = []
  /\ filter (fun i => ruleIs "complexity/too-many-hooks" i && typeIs error i)
            (issues (eslintOf w)) = []
  /\ filter (ruleIs "structure/crowded-folder") (issues (structureOf w)) = []
  /\ filter (typeIs error) (issues (architectureOf w)) = []
  /\ filter (typeIs warning) (issues (jscpdOf w)) = []
  /\ filter (ruleIs "knip/unused-file") (issues (knipOf w)) = []
  /\ length (filter (ruleIncludes "unused-export") (issues (knipOf w))) <= 10
  /\ filter (ruleIs "madge/circular") (issues (madgeOf w)) = [].

(** What the action items keep true of their state: nothing pushed and
    the counter at 1, or a first line that starts with the digit 1 and a
    counter above 1. *)
Definition numberedFromOne (st : ActionState) : Prop :=
  st = ([], 1)
  \/ (1 < snd st /\ exists t rest, fst st = String "1" t :: rest).

(** Every name below a directory is as a directory listing gives it (not
    empty, without slash) and holds no backslash. *)
Fixpoint separatorFree (e : Entry) : bool :=
  match e with
  | DirEntry _ (Some es) =>
      forallb (fun x => plainName (entryName x) && lacks "092" (entryName x)
                        && separatorFree x) es
  | _ => true
  end.

(** A working directory as [process.cwd()] gives it on POSIX, where the
    path model of [webSrcPath] and [pathJoin] applies: the root, or an
    absolute path in normal form (no empty, [.] or [..] segment and no
    separator at the end). *)
Definition posixCwd (cwd : string) : bool :=
  String.eqb cwd "/"
  || (prefix "/" cwd
      && negb (endsWith "/" cwd)
      && negb (includes "//" cwd)
      && negb (includes "/./" cwd) && negb (endsWith "/." cwd)
      && negb (includes "/../" cwd) && negb (endsWith "/.." cwd)).

(** The line feeds inside the entries of a list of texts. *)
Definition embeddedLineFeeds (entries : list string) : nat :=
  list_sum (map (countChar "010") entries).

(** ** Sample inputs

    Concrete inputs on which the theorems below are run. *)

(** A world in which every tool is silent and nothing is on disk. *)
Definition quietWorld (quick config : bool)
           (sources : list (string * option string)) : World :=
  mkWorld quick "/repo"
          [] "" [] "" [] ""
          (mkJscpdOutput [] 0 [] None "")
          (mkMadgeOutput [] [] "")
          [] ""
          sources
          config [] ""
          [] None
          (fun _ => 0) "2025-01-01T00:00:00.000Z" 0.

(** One source file that declares an error-boundary class. *)
Definition boundaryFile : string * option string :=
  ("/repo/apps/web/src/a.ts", Some "class AppError extends React.Component {}").

Definition boundaryWorld : World := quietWorld false true [boundaryFile].

(** A full run without the dependency-cruiser configuration. *)
Definition noConfigWorld : World := quietWorld false false [].

(** A quick run. *)
Definition quickWorld : World := quietWorld true true [].

(** A tag and eleven [if (] conditions, no [.map(] and no [.filter(]. *)
Definition mixedSample : string :=
  "<a> if(if(if(if(if(if(if(if(if(if(if(".

(** A component that calls [useState] with a type argument. *)
Definition typedStateSample : string :=
  "const [n, setN] = useState<number>(0);".

(** A module that imports [useState] and calls no hook. *)
Definition importSample : string :=
  "import { useState } from 'react';".

(** Two issues without a file that differ in their line only. *)
Definition lineFive : Issue :=
  mkIssue warning None (Some (Integer 5)) "m" (Some "r") None.
Definition lineSeven : Issue :=
  mkIssue warning None (Some (Integer 7)) "m" (Some "r") None.

(** Two issues with every optional field present, which differ in the
    suggested fix only. *)
Definition fullIssue : Issue :=
  mkIssue error (Some "src/a.ts") (Some (Integer 42)) "Unexpected any"
          (Some "no-any") None.
Definition fullIssueWithFix : Issue :=
  mkIssue error (Some "src/a.ts") (Some (Integer 42)) "Unexpected any"
          (Some "no-any") (Some "Use unknown").

(** Two issues of the same file, one with the line [NaN] that [parseInt]
    yields for a text without leading digits, one without a line. *)
Definition lineNaN : Issue :=
  mkIssue warning (Some "a.ts") (Some NaN) "m" (Some "r") None.
Definition lineAbsent : Issue :=
  mkIssue warning (Some "a.ts") None "m" (Some "r") None.

(** A report with one check and one error whose message holds a line
    feed. *)
Definition twoLineReport : HealthReport :=
  buildReport "t" 5
    [mkCheckResult "TypeScript Types" fail 5
       [mkIssue error (Some "a.ts") (Some (Integer 3))
                ("first" ++ String "010" "second") (Some "TS1") None]
       "1 type errors" None].

(** An analysis with five long functions. *)
Definition fiveLong : FileAnalysis :=
  mkFileAnalysis "a.ts" 10 (mkHooks 0 0 0 0 0 0 0 0)
    (mkPatterns false false false
       ["f1 (81 lines)"; "f2 (82 lines)"; "f3 (83 lines)"; "f4 (84 lines)";
        "f5 (85 lines)"] false).

(** The line feed, and a text from its lines. *)
Definition nl : string := String "010" "".
Definition joinLines (ls : list string) : string := String.concat nl ls.

(** A one-line function directly followed by a function of span 82. *)
Definition oneLinerSegments : list Segment :=
  [ Func "f" "function f() { return 1; }" [];
    Func "g" "function g() {" (repeat "  x();" 81 ++ ["}"]) ].
Definition oneLinerText : string := joinLines (textLines oneLinerSegments).

(** An import, a function of span 82 whose brace opens on the line after
    its header, and a short arrow function. *)
Definition trackedSegments : list Segment :=
  [ Gap ["import x from 'y';"; ""];
    Func "render" "export function render(props)"
         (["{"] ++ repeat "  draw(props);" 80 ++ ["}"]);
    Gap [""];
    Func "id" "const id = (a) => {" ["  return a;"; "};"] ].
Definition trackedText : string := joinLines (textLines trackedSegments).

(** Reports with given totals. *)
Definition reportWith (e w n : nat) : HealthReport :=
  mkHealthReport "" 0 [] (mkTotals e w n) A.

(** A run whose only finding is one type error. *)
Definition typeErrorWorld : World :=
  mkWorld false "/repo"
          [] "" [] "" [] ""
          (mkJscpdOutput [] 0 [] None "")
          (mkMadgeOutput [] [] "")
          [TsLocated "src/a.ts" 3 "Type 'string' is not assignable to type 'number'." "TS2322"]
          "" [] true [] "" [] None
          (fun _ => 0) "2025-01-01T00:00:00.000Z" 0.

(** A duplicate-code output that mentions clones no pattern can parse. *)
Definition unparsedClones : JscpdOutput :=
  mkJscpdOutput [] 2 [] None "Clone found (ts): Clone found (tsx):".

(** A dependency-graph output with one cycle and two orphans, one of
    them a configuration file. *)
Definition cyclicMadge : MadgeOutput :=
  mkMadgeOutput ["auth.config.ts"; "old/unused.ts"] ["a.ts > b.ts > a.ts"] "".

(** A small tree under [apps/web/src]. *)
Definition sampleTree : Entry :=
  DirEntry "src"
    (Some [ FileEntry "main.tsx";
            FileEntry "env.d.ts";
            FileEntry "notes.md";
            DirEntry "features"
              (Some [ DirEntry "chat"
                        (Some [ FileEntry "Chat.tsx";
                                FileEntry "Chat.test.tsx";
                                FileEntry "useChat.ts" ]);
                      DirEntry "locked" None ]);
            DirEntry "node_modules" (Some [ FileEntry "lib.ts" ]);
            OtherEntry "link" ]).

(** ** Sanity checks of the embedding *)

Example funcMatch_function : funcMatch "export async function loadUser(id) {" = Some "loadUser".
Proof. reflexivity. Qed.
Example funcMatch_const : funcMatch "  const handle_1 = async (e) => {" = Some "handle_1".
Proof. reflexivity. Qed.
Example funcMatch_memo : funcMatch "const Row = React.memo(function Inner() {" = Some "Row".
Proof. reflexivity. Qed.
Example funcMatch_none : funcMatch "  return x + 1; }" = None.
Proof. reflexivity. Qed.
Example braceDelta_ex : braceDelta "} else { if (a) {" = 1%Z.
Proof. reflexivity. Qed.
Example errorBoundary_ex : test re_inlineErrorBoundary "class MyErrorBoundary extends React.Component<P> {" = true.
Proof. reflexivity. Qed.
Example splitLines_ex : splitLines ("a" ++ nl ++ "b" ++ nl) = ["a"; "b"; ""].
Proof. reflexivity. Qed.

(** A function of span 84 whose parameter list runs over several lines:
    the line after the header has depth 0, the detector leaves the function
    there and reports nothing. *)
Example multiline_header_missed :
  detectLongFunctions
    (joinLines (["function wide("; "  a,"; "  b"; ") {"]
                  ++ repeat "  work(a, b);" 80 ++ ["}"]))
  = [].
Proof. vm_compute. reflexivity. Qed.

Example customHooks_counts_calls :
  hooks (analyzeContent "a.tsx"
           "const a = useThing(1); const b = useState(0); useRef<X>(null); useEffect (() => {})")
  = mkHooks 1 1 0 0 1 0 0 0.
Proof. vm_compute. reflexivity. Qed.

Example nestedJsx_ex : matchCount re_nestedJsx "<><div a=1>  <Fragment>" = 1.
Proof. vm_compute. reflexivity. Qed.

Example exportedComponent_ex :
  matchCount re_exportedComponent
    "export const Foo = 1; export function Bar: x; export  const  baz = 2; export function Qux() {}"
  = 2.
Proof. vm_compute. reflexivity. Qed.

Example compactIssue_full : compactIssue fullIssue = "E|src/a.ts:42|Unexpected any|no-any".
Proof. reflexivity. Qed.

Example compactIssue_bare :
  compactIssue (mkIssue info None None "note" None None) = "I||note|".
Proof. reflexivity. Qed.

(** A file of 600 lines: one file-size error that names 600 and 500. *)
Example oversized_file :
  issues (checkComplexity "/repo"
            [("/repo/apps/web/src/big.ts", Some (joinLines (repeat "" 600)))] 0)
  = [mkIssue error (Some "apps/web/src/big.ts") None
       "File has 600 lines (max 500)" (Some "complexity/file-size")
       (Some "Split into smaller, focused modules. Extract hooks, utilities, and sub-components.")].
Proof. vm_compute. reflexivity. Qed.

(** No issue at all: grade A, exit code 0. *)
Example clean_run :
  grade (mainReport quickWorld) = A /\ exitCode (mainReport quickWorld) = 0.
Proof. vm_compute. split; reflexivity. Qed.

(** Six errors and twenty warnings: grade F. *)
Example six_errors_grade :
  calculateGrade (mkHealthReport "" 0 [] (mkTotals 6 20 0) A) = F.
Proof. reflexivity. Qed.

(** Five long functions detected, three issues pushed. *)
Example five_long_three_issues :
  map message (complexityFileIssues "a.ts" false fiveLong)
  = ["Long function: f1 (81 lines)"; "Long function: f2 (82 lines)";
     "Long function: f3 (83 lines)"].
Proof. reflexivity. Qed.

(** ** Totals *)

Lemma countType_app (t : IssueType) (l1 l2 : list Issue) :
  countType t (l1 ++ l2) = countType t l1 + countType t l2.
Proof.
  unfold countType. rewrite filter_app, length_app. reflexivity.
Qed.

Lemma countType_cons (t : IssueType) (i : Issue) (l : list Issue) :
  countType t (i :: l) =
  (if IssueType_eqb (type i) t then 1 else 0) + countType t l.
Proof.
  unfold countType. simpl. destruct (IssueType_eqb (type i) t); reflexivity.
Qed.

Lemma fold_tally (l : list Issue) : forall t,
  fold_left tally l t =
  mkTotals (errors t + countType error l)
           (warnings t + countType warning l)
           (infos t + countType info l).
Proof.
  induction l as [|i l IH]; intros [e w n].
  - simpl. unfold countType. simpl. f_equal; lia.
  - simpl fold_left. rewrite IH. rewrite !countType_cons.
    unfold tally. destruct (type i); simpl; f_equal; lia.
Qed.

Lemma fold_checks (cs : list CheckResult) : forall t,
  fold_left (fun t c => fold_left tally (issues c) t) cs t =
  mkTotals (errors t + countType error (flat_map issues cs))
           (warnings t + countType warning (flat_map issues cs))
           (infos t + countType info (flat_map issues cs)).
Proof.
  induction cs as [|c cs IH]; intros [e w n].
  - simpl. unfold countType. simpl. f_equal; lia.
  - simpl fold_left. rewrite IH, fold_tally. simpl flat_map.
    rewrite !countType_app. simpl. f_equal; lia.
Qed.

Lemma calculateTotals_sums (cs : list CheckResult) :
  calculateTotals cs =
  mkTotals (countType error (flat_map issues cs))
           (countType warning (flat_map issues cs))
           (countType info (flat_map issues cs)).
Proof.
  unfold calculateTotals. rewrite fold_checks. reflexivity.
Qed.

(** C1. For every run, the totals of the report are the per-severity
    counts over all issues of all checks of that report: [errors] is the
    number of [error] issues in the concatenation of the checks' issue
    lists, [warnings] the number of [warning] issues, [infos] the number of
    [info] issues. *)
Theorem totals_are_severity_sums (w : World) :
  let r := mainReport w in
  errors (totals r) = countType error (flat_map issues (checks r)) /\
  warnings (totals r) = countType warning (flat_map issues (checks r)) /\
  infos (totals r) = countType info (flat_map issues (checks r)).
Proof.
  unfold mainReport, buildReport. cbn [totals checks].
  rewrite calculateTotals_sums. cbn [errors warnings infos].
  repeat split.
Qed.

(** ** Grade *)

Lemma calculateGrade_regions (report : HealthReport) :
  let e := errors (totals report) in
  let w := warnings (totals report) in
  let g := calculateGrade report in
  (g = A <-> e = 0 /\ w = 0) /\
  (g = B <-> e = 0 /\ 1 <= w <= 5) /\
  (g = C <-> e <= 2 /\ w <= 15 /\ ~ (e = 0 /\ w <= 5)) /\
  (g = D <-> e <= 5 /\ ~ (e <= 2 /\ w <= 15)) /\
  (g = F <-> 5 < e).
Proof.
  unfold calculateGrade.
  destruct (Nat.eqb_spec (errors (totals report)) 0);
    destruct (Nat.eqb_spec (warnings (totals report)) 0);
    destruct (Nat.leb_spec (warnings (totals report)) 5);
    destruct (Nat.leb_spec (errors (totals report)) 2);
    destruct (Nat.leb_spec (warnings (totals report)) 15);
    destruct (Nat.leb_spec (errors (totals report)) 5);
    cbn [andb]; repeat split; intros; try discriminate; try lia.
Qed.

(** C2. [calculateGrade] is the first-match evaluation of the rules
    A (no errors, no warnings), B (no errors, at most 5 warnings),
    C (at most 2 errors, at most 15 warnings), D (at most 5 errors),
    else F, on the report's error and warning totals.  Spelled out by
    region: A exactly when both are zero, B exactly when there is no error
    and 1 to 5 warnings, C exactly when rule C holds and rule B does not,
    D exactly when rule D holds and rule C does not, F exactly when there
    are more than 5 errors.  The number of infos and every other field of
    the report have no influence. *)
Theorem calculateGrade_first_match (report : HealthReport) :
  let e := errors (totals report) in
  let w := warnings (totals report) in
  let g := calculateGrade report in
  g = gradeSpec e w
  /\ ((g = A <-> e = 0 /\ w = 0) /\
      (g = B <-> e = 0 /\ 1 <= w <= 5) /\
      (g = C <-> e <= 2 /\ w <= 15 /\ ~ (e = 0 /\ w <= 5)) /\
      (g = D <-> e <= 5 /\ ~ (e <= 2 /\ w <= 15)) /\
      (g = F <-> 5 < e))
  /\ (forall ts dur cs n g', calculateGrade
         (mkHealthReport ts dur cs (mkTotals e w n) g') = g).
Proof.
  split; [|split].
  - reflexivity.
  - apply calculateGrade_regions.
  - reflexivity.
Qed.

(** ** Status of a check *)

Lemma existsb_countType (t : IssueType) (l : list Issue) :
  existsb (fun i => IssueType_eqb (type i) t) l = (0 <? countType t l).
Proof.
  induction l as [|i l IH].
  - reflexivity.
  - rewrite countType_cons. simpl existsb.
    destruct (IssueType_eqb (type i) t); simpl; [reflexivity | exact IH].
Qed.

Lemma deriveStatus_counts (t : nat) (l : list Issue) :
  deriveStatus t l =
  if 0 <? countType error l then fail
  else if t <? countType warning l then warn else pass.
Proof.
  unfold deriveStatus. rewrite existsb_countType. reflexivity.
Qed.

Lemma deriveStatus_uniform (l : list Issue) :
  deriveStatus 0 l = uniformStatus l.
Proof.
  unfold deriveStatus, uniformStatus. rewrite (existsb_countType warning).
  reflexivity.
Qed.

Lemma failWarnPass_derive (l : list Issue) :
  failWarnPass (countType error l) (countType warning l) = deriveStatus 0 l.
Proof.
  rewrite deriveStatus_counts. reflexivity.
Qed.

Lemma countType_map_const (t : IssueType) {X : Type} (f : X -> Issue)
      (l : list X) :
  (forall x, IssueType_eqb (type (f x)) t = false) ->
  countType t (map f l) = 0.
Proof.
  intros H. induction l as [|x l IH].
  - reflexivity.
  - simpl map. rewrite countType_cons, H, IH. reflexivity.
Qed.

(** The duplicate-code check never pushes an [error] issue. *)
Lemma checkJscpd_no_errors (q : bool) (out : JscpdOutput) (el : nat) :
  countType error (issues (checkJscpd q out el)) = 0.
Proof.
  unfold checkJscpd. destruct q; [reflexivity|]. cbn [issues].
  assert (Hc : forall l, countType error (map cloneIssue l) = 0)
    by (intros l; apply countType_map_const; reflexivity).
  assert (Hs : countType error
                 match statsMessage out with
                 | Some m => [mkIssue info None None m (Some "jscpd/stats") None]
                 | None => []
                 end = 0) by (destruct (statsMessage out); reflexivity).
  rewrite countType_app, Hs, Nat.add_0_r.
  destruct ((length (map cloneIssue (regexClones out)) =? 0)
            && (0 <? cloneFoundCount out)); [|apply Hc].
  destruct ((length (map cloneIssue (regexClones out)
                       ++ map cloneIssue (scanClones out)) =? 0)
            && (0 <? cloneFoundCount out));
    rewrite ?countType_app, !Hc; reflexivity.
Qed.

Lemma checkJscpd_status (out : JscpdOutput) (el : nat) :
  status (checkJscpd false out el)
  = deriveStatus 10 (issues (checkJscpd false out el)).
Proof.
  rewrite deriveStatus_counts, checkJscpd_no_errors. reflexivity.
Qed.

Lemma checkTypeScript_status (found : list TsError) (raw : string) (el : nat) :
  status (checkTypeScript found raw el)
  = deriveStatus 0 (issues (checkTypeScript found raw el)).
Proof.
  unfold checkTypeScript. cbn [status issues]. unfold deriveStatus.
  destruct found as [|e found]; [reflexivity|].
  destruct e; reflexivity.
Qed.

Lemma checkComplexity_status (cwd : string) files (el : nat) :
  status (checkComplexity cwd files el)
  = deriveStatus 5 (issues (checkComplexity cwd files el)).
Proof.
  rewrite deriveStatus_counts. reflexivity.
Qed.

Lemma checkStructure_status folders features (el : nat) :
  status (checkStructure folders features el)
  = deriveStatus 3 (issues (checkStructure folders features el)).
Proof.
  rewrite deriveStatus_counts. reflexivity.
Qed.

Lemma deriveStatus_not_skip (t : nat) (l : list Issue) :
  deriveStatus t l <> skip.
Proof.
  unfold deriveStatus.
  destruct (existsb _ l); [discriminate|].
  destruct (t <? countType warning l); discriminate.
Qed.

(** C3 (as amended). For every check of a run that was executed (status
    not [skip]), the status is one pure function of the check's issues,
    with a per-check number of tolerated warnings: [fail] if at least one
    [error] issue is present; else [warn] if more than the tolerated number
    of [warning] issues is present; else [pass].  The tolerated number is 0
    for oxlint, ESLint, knip, madge, TypeScript and architecture, 10 for
    the duplicate-code check, 5 for the complexity check and 3 for the
    structure check. *)
Theorem status_derived_from_issues (w : World) (k t : nat) (r : CheckResult) :
  nth_error (runChecks w) k = Some r ->
  nth_error toleratedWarnings k = Some t ->
  status r <> skip ->
  status r = deriveStatus t (issues r).
Proof.
  intros Hr Ht Hs. unfold runChecks in Hr. unfold toleratedWarnings in Ht.
  destruct k as [|[|[|[|[|[|[|[|[|k]]]]]]]]]; cbn [nth_error] in Hr, Ht;
    [ injection Hr as <-; injection Ht as <- .. | ].
  - apply failWarnPass_derive.
  - apply failWarnPass_derive.
  - apply failWarnPass_derive.
  - destruct (isQuick w); [exfalso; apply Hs; reflexivity|].
    apply checkJscpd_status.
  - unfold checkMadge in *. destruct (isQuick w);
      [exfalso; apply Hs; reflexivity|].
    apply failWarnPass_derive.
  - apply checkTypeScript_status.
  - apply checkComplexity_status.
  - unfold checkArchitecture in *. destruct (isQuick w);
      [exfalso; apply Hs; reflexivity|].
    destruct (configExists w); cbn [negb] in *;
      [|exfalso; apply Hs; reflexivity].
    apply failWarnPass_derive.
  - apply checkStructure_status.
  - destruct k; discriminate Hr.
Qed.

Lemma status_derived_from_issues_witness :
  let r := checkComplexity "/repo" [boundaryFile] 0 in
  status r = deriveStatus 5 (issues r).
Proof.
  apply (status_derived_from_issues boundaryWorld 6 5).
  - reflexivity.
  - reflexivity.
  - vm_compute. discriminate.
Defined.

(** C3 (as stated) fails: the complexity check of a run whose only
    source file declares an inline error-boundary class has one [warning]
    issue and no [error] issue, and its status is [pass], not [warn]. *)
Lemma uniform_status_counterexample :
  ~ (forall (w : World) (r : CheckResult),
        In r (runChecks w) -> status r <> skip ->
        status r = uniformStatus (issues r)).
Proof.
  intros H.
  specialize (H boundaryWorld (checkComplexity "/repo" [boundaryFile] 0)).
  assert (Hin : In (checkComplexity "/repo" [boundaryFile] 0)
                   (runChecks boundaryWorld)).
  { unfold runChecks. do 6 right. left. reflexivity. }
  specialize (H Hin).
  assert (Hs : status (checkComplexity "/repo" [boundaryFile] 0) <> skip)
    by (vm_compute; discriminate).
  specialize (H Hs). vm_compute in H. discriminate H.
Qed.

(** ** Skipped checks *)

(** C6 (as amended). A [skip] result of a run comes from one of two
    places.  In quick mode it is one of the three gated checks and has an
    empty issue list, the reason being the summary "Skipped (--quick mode)".
    Outside quick mode it is the architecture check run without its
    configuration file, and it carries exactly one [info] issue that
    describes the missing file, with the summary "Config not found". *)
Theorem skip_results (w : World) (r : CheckResult) :
  In r (runChecks w) ->
  status r = skip ->
  (isQuick w = true /\ issues r = [] /\ summary r = "Skipped (--quick mode)")
  \/ (isQuick w = false /\ configExists w = false
      /\ name r = "Architecture Boundaries"
      /\ issues r = [missingConfigIssue] /\ summary r = "Config not found").
Proof.
  intros Hin Hs. unfold runChecks in Hin.
  repeat (destruct Hin as [<- | Hin]); try contradiction.
  - exfalso. revert Hs. cbn [checkOxlint status]. rewrite failWarnPass_derive.
    apply deriveStatus_not_skip.
  - exfalso. revert Hs. cbn [checkEslint status]. rewrite failWarnPass_derive.
    apply deriveStatus_not_skip.
  - exfalso. revert Hs. cbn [checkKnip status]. rewrite failWarnPass_derive.
    apply deriveStatus_not_skip.
  - destruct (isQuick w) eqn:Hq.
    + left. repeat split.
    + exfalso. revert Hs. rewrite checkJscpd_status.
      apply deriveStatus_not_skip.
  - unfold checkMadge in *. destruct (isQuick w) eqn:Hq.
    + left. repeat split.
    + exfalso. revert Hs. cbn [status]. rewrite failWarnPass_derive.
      apply deriveStatus_not_skip.
  - exfalso. revert Hs. rewrite checkTypeScript_status.
    apply deriveStatus_not_skip.
  - exfalso. revert Hs. rewrite checkComplexity_status.
    apply deriveStatus_not_skip.
  - unfold checkArchitecture in *. destruct (isQuick w) eqn:Hq.
    + left. repeat split.
    + destruct (configExists w) eqn:Hc; cbn [negb] in *.
      * exfalso. revert Hs. cbn [status]. rewrite failWarnPass_derive.
        apply deriveStatus_not_skip.
      * right. repeat split.
  - exfalso. revert Hs. rewrite checkStructure_status.
    apply deriveStatus_not_skip.
Qed.

Lemma skip_results_witness :
  let r := checkArchitecture false false [] "" 0 in
  (isQuick noConfigWorld = true /\ issues r = []
   /\ summary r = "Skipped (--quick mode)")
  \/ (isQuick noConfigWorld = false /\ configExists noConfigWorld = false
      /\ name r = "Architecture Boundaries"
      /\ issues r = [missingConfigIssue] /\ summary r = "Config not found").
Proof.
  apply (skip_results noConfigWorld (checkArchitecture false false [] "" 0)).
  - unfold runChecks. do 7 right. left. reflexivity.
  - reflexivity.
Defined.

(** C6 (as stated) fails: outside quick mode and without the
    configuration file, the architecture check returns [skip] together with
    one issue. *)
Lemma skip_with_issue_counterexample :
  ~ (forall (w : World) (r : CheckResult),
        In r (runChecks w) -> status r = skip -> issues r = []).
Proof.
  intros H.
  specialize (H noConfigWorld (checkArchitecture false false [] "" 0)).
  assert (Hin : In (checkArchitecture false false [] "" 0)
                   (runChecks noConfigWorld)).
  { unfold runChecks. do 7 right. left. reflexivity. }
  specialize (H Hin eq_refl). discriminate H.
Qed.

(** ** Mixed concerns *)

(** C7. The mixed-concerns flag is raised exactly when the content has a
    tag-like construct and either (more than 3 [.map(] calls and more than
    2 [.filter(] calls) or more than 10 [if (] conditions.  The grouping
    is [(A && B) || C]: a content with a tag, eleven conditions and no
    [.map(] call is flagged, which the grouping [A && (B || C)] would not
    do. *)
Theorem detectMixedConcerns_grouping (content : string) :
  (detectMixedConcerns content = true <->
     test re_jsx content = true /\
     ((3 < matchCount re_map content /\ 2 < matchCount re_filter content)
      \/ 10 < matchCount re_if content))
  /\ detectMixedConcerns mixedSample = true
  /\ mixedConcernsRegrouped mixedSample = false.
Proof.
  split; [|split; vm_compute; reflexivity].
  unfold detectMixedConcerns.
  rewrite andb_true_iff, orb_true_iff, andb_true_iff, !Nat.ltb_lt.
  reflexivity.
Qed.

(** ** Custom hook count *)

(** C8 (the code departs from it). On a component that calls
    [useState<number>(0)], and on a module that only imports [useState],
    the generic pattern finds no call, the named pattern finds the bare
    name once, and the custom count is -1. *)
Theorem customHooks_negative :
  customHooks typedStateSample = (-1)%Z
  /\ useState (hooks (analyzeContent "Counter.tsx" typedStateSample)) = 1
  /\ custom (hooks (analyzeContent "Counter.tsx" typedStateSample)) = (-1)%Z
  /\ customHooks importSample = (-1)%Z.
Proof.
  repeat split; vm_compute; reflexivity.
Qed.

(** ** Long-function issues of the complexity check *)

Lemma filter_nil_when {X : Type} (p : X -> bool) (l : list X) :
  Forall (fun x => p x = false) l -> filter p l = [].
Proof.
  induction 1 as [|x l Hx _ IH]; simpl; [reflexivity|].
  rewrite Hx. exact IH.
Qed.

Lemma filter_all_when {X : Type} (p : X -> bool) (l : list X) :
  Forall (fun x => p x = true) l -> filter p l = l.
Proof.
  induction 1 as [|x l Hx _ IH]; simpl; [reflexivity|].
  rewrite Hx, IH. reflexivity.
Qed.

Ltac no_long_function :=
  repeat match goal with
         | |- context [if ?b then _ else _] => destruct b
         end;
  repeat constructor.

Lemma longFunctionIssues_filter (rel : string) (analysis : FileAnalysis) :
  filter isLongFunctionIssue (longFunctionIssues rel analysis)
  = map (longFunctionIssue rel) (firstn 3 (longFunctions (patterns analysis))).
Proof.
  unfold longFunctionIssues.
  destruct (longFunctions (patterns analysis)) as [|f fs]; [reflexivity|].
  cbn [length Nat.ltb Nat.leb]. apply filter_all_when.
  apply Forall_map. apply Forall_forall. intros; reflexivity.
Qed.

Lemma complexityFileIssues_filter (rel : string) (isTsx : bool)
      (analysis : FileAnalysis) :
  filter isLongFunctionIssue (complexityFileIssues rel isTsx analysis)
  = map (longFunctionIssue rel) (firstn 3 (longFunctions (patterns analysis))).
Proof.
  unfold complexityFileIssues. rewrite !filter_app, longFunctionIssues_filter.
  assert (H1 : filter isLongFunctionIssue (fileSizeIssues rel analysis) = []).
  { apply filter_nil_when. unfold fileSizeIssues. no_long_function. }
  assert (H2 : filter isLongFunctionIssue
                 (if isTsx
                  then hookCountIssues rel analysis
                       ++ effectSprawlIssues rel analysis
                       ++ overMemoIssues rel analysis
                  else []) = []).
  { apply filter_nil_when. destruct isTsx; [|constructor].
    apply Forall_app; split; [|apply Forall_app; split];
      unfold hookCountIssues, effectSprawlIssues, overMemoIssues;
      no_long_function. }
  assert (H3 : filter isLongFunctionIssue (errorBoundaryIssues rel analysis) = []).
  { apply filter_nil_when. unfold errorBoundaryIssues. no_long_function. }
  assert (H4 : filter isLongFunctionIssue
                 (multipleComponentsIssues rel analysis) = []).
  { apply filter_nil_when. unfold multipleComponentsIssues. no_long_function. }
  assert (H5 : filter isLongFunctionIssue (mixedConcernsIssues rel analysis) = []).
  { apply filter_nil_when. unfold mixedConcernsIssues. no_long_function. }
  rewrite H1, H2, H3, H4, H5, app_nil_r. reflexivity.
Qed.

Lemma complexity_fold_issues (cwd : string) (files : list (string * option string)) :
  forall st,
  c_issues (fold_left (complexityStep cwd) files st)
  = (c_issues st ++
     flat_map (fun f =>
                 match analyzeFile (fst f) (snd f) with
                 | Some analysis =>
                     complexityFileIssues (relativeTo cwd (fst f))
                       (endsWith ".tsx" (fst f)) analysis
                 | None => []
                 end) files)%list.
Proof.
  induction files as [|f files IH]; intros st.
  - simpl. rewrite app_nil_r. reflexivity.
  - simpl fold_left. rewrite IH. unfold complexityStep.
    simpl flat_map. destruct (analyzeFile (fst f) (snd f)).
    + cbn [c_issues]. rewrite app_assoc. reflexivity.
    + reflexivity.
Qed.

(** C10. For every analysed file the complexity check pushes one
    [warning] issue with rule [complexity/long-function] for each of the
    first three long functions of the file's analysis and none for the
    others: at most three per file, however many were detected.  Over a
    whole check, its long-function issues are those of its readable files,
    in order. *)
Theorem long_function_issues_capped (cwd rel : string) (isTsx : bool)
        (analysis : FileAnalysis) (files : list (string * option string))
        (el : nat) :
  let detected := longFunctions (patterns analysis) in
  let pushed :=
    filter isLongFunctionIssue (complexityFileIssues rel isTsx analysis) in
  pushed = map (longFunctionIssue rel) (firstn 3 detected)
  /\ length pushed = Nat.min 3 (length detected)
  /\ length pushed <= 3
  /\ Forall (fun i => type i = warning) pushed
  /\ filter isLongFunctionIssue (issues (checkComplexity cwd files el))
     = flat_map
         (fun f =>
            match snd f with
            | Some content =>
                map (longFunctionIssue (relativeTo cwd (fst f)))
                    (firstn 3 (detectLongFunctions content))
            | None => []
            end) files.
Proof.
  cbv zeta. rewrite complexityFileIssues_filter.
  rewrite length_map, length_firstn.
  repeat split.
  - apply Nat.le_min_l.
  - apply Forall_map. apply Forall_forall. intros; reflexivity.
  - unfold checkComplexity. cbn [issues]. rewrite complexity_fold_issues.
    cbn [c_issues app].
    induction files as [|f files IH]; [reflexivity|].
    simpl flat_map. rewrite filter_app, IH. f_equal.
    destruct f as [p [content|]]; cbn [fst snd analyzeFile].
    + rewrite complexityFileIssues_filter. reflexivity.
    + reflexivity.
Qed.

(** ** Compact encoding *)

Lemma append_empty_r (s : string) : s ++ "" = s.
Proof.
  induction s as [|x s IH]; simpl; [|rewrite IH]; reflexivity.
Qed.

Lemma lacks_app (c : ascii) (a b : string) :
  lacks c (a ++ b) = lacks c a && lacks c b.
Proof.
  induction a as [|x a IH]; simpl; [reflexivity|].
  rewrite IH, andb_assoc. reflexivity.
Qed.

(** A text is cut in one way only at the first occurrence of a
    separator. *)
Lemma cut_unique (c : ascii) (a a' b b' : string) :
  lacks c a = true -> lacks c a' = true ->
  a ++ String c b = a' ++ String c b' ->
  a = a' /\ b = b'.
Proof.
  revert a'. induction a as [|x a IH]; intros [|x' a'] Ha Ha' E; simpl in *.
  - injection E as ->. split; reflexivity.
  - injection E as <- _. rewrite Ascii.eqb_refl in Ha'. discriminate.
  - injection E as -> _. rewrite Ascii.eqb_refl in Ha. discriminate.
  - injection E as -> E.
    apply andb_true_iff in Ha as [_ Ha]. apply andb_true_iff in Ha' as [_ Ha'].
    destruct (IH a' Ha Ha' E) as [-> ->]. split; reflexivity.
Qed.

Lemma string_of_uint_lacks (c : ascii) (d : Decimal.uint) :
  isDigit c = false -> lacks c (NilEmpty.string_of_uint d) = true.
Proof.
  intros Hc.
  assert (Hd : forall x, isDigit x = true -> Ascii.eqb c x = false).
  { intros x Hx. destruct (Ascii.eqb_spec c x) as [->|]; [|reflexivity].
    rewrite Hx in Hc. discriminate. }
  induction d; simpl; try reflexivity; rewrite IHd, Hd; reflexivity.
Qed.

Lemma showNat_lacks (c : ascii) (n : nat) :
  isDigit c = false -> lacks c (showNat n) = true.
Proof. apply string_of_uint_lacks. Qed.

Lemma showNat_inj (n m : nat) : showNat n = showNat m -> n = m.
Proof.
  unfold showNat. intros E. apply Unsigned.to_uint_inj.
  assert (H : Some (Nat.to_uint n) = Some (Nat.to_uint m))
    by (rewrite <- !NilEmpty.usu, E; reflexivity).
  injection H as H. exact H.
Qed.

Lemma showZ_lacks (c : ascii) (z : Z) :
  isDigit c = false -> c <> "-"%char -> lacks c (showZ z) = true.
Proof.
  intros Hc Hm. unfold showZ.
  destruct (Z.to_int z) as [d|d]; cbn [NilEmpty.string_of_int lacks].
  - apply string_of_uint_lacks. exact Hc.
  - rewrite (string_of_uint_lacks c d Hc).
    destruct (Ascii.eqb_spec c "-"); [contradiction | reflexivity].
Qed.

Lemma showZ_inj (z z' : Z) : showZ z = showZ z' -> z = z'.
Proof.
  unfold showZ. intros E. apply DecimalZ.to_int_inj.
  assert (H : Some (Z.to_int z) = Some (Z.to_int z'))
    by (rewrite <- !NilEmpty.isi, E; reflexivity).
  injection H as H. exact H.
Qed.

(** A line that is neither [NaN] nor 0 is absent, or an integer that the
    template prints. *)
Lemma truthyNumber_kept (o : option JsNumber) :
  o <> Some NaN -> o <> Some (Integer 0) ->
  (o = None /\ truthyNumber o = None)
  \/ (exists z, o = Some (Integer z) /\ truthyNumber o = Some z).
Proof.
  intros Hn Hz. destruct o as [[|z]|].
  - contradiction.
  - right. exists z. split; [reflexivity|]. cbn [truthyNumber].
    destruct (Z.eqb_spec z 0) as [->|]; [contradiction | reflexivity].
  - left. split; reflexivity.
Qed.

Lemma severityLetter_inj (t t' : IssueType) (s s' : string) :
  severityLetter t ++ s = severityLetter t' ++ s' -> t = t' /\ s = s'.
Proof.
  destruct t, t'; simpl; intros E; try discriminate E;
    injection E as ->; split; reflexivity.
Qed.

(** The location segment of a separable issue has no ["|"], and tells the
    file and the line. *)
Lemma location_lacks_bar (i : Issue) :
  separable i -> lacks "|" (location i) = true.
Proof.
  intros (Hf & _). unfold location.
  destruct (file i) as [[|x f]|]; try reflexivity.
  cbn [truthyString]. destruct Hf as (_ & Hb & _).
  rewrite lacks_app, Hb.
  destruct (truthyNumber (line i)); [|reflexivity].
  cbn [append lacks]. rewrite showZ_lacks; [reflexivity.. | discriminate].
Qed.

Lemma location_inj (i i' : Issue) :
  separable i -> separable i' -> location i = location i' ->
  file i = file i' /\ line i = line i'.
Proof.
  intros (Hf & Hn & Hz & _) (Hf' & Hn' & Hz' & _). unfold location.
  destruct (file i) as [f|], (file i') as [f'|].
  - destruct Hf as (Hne & _ & Hc), Hf' as (Hne' & _ & Hc').
    assert (Tf : truthyString (Some f) = Some f)
      by (destruct f; [congruence | reflexivity]).
    assert (Tf' : truthyString (Some f') = Some f')
      by (destruct f'; [congruence | reflexivity]).
    rewrite Tf, Tf'.
    destruct (truthyNumber_kept (line i) Hn Hz) as [[-> ->] | (z & -> & ->)],
             (truthyNumber_kept (line i') Hn' Hz') as [[-> ->] | (z' & -> & ->)];
      intros E.
    + rewrite !append_empty_r in E. subst. split; reflexivity.
    + exfalso. rewrite append_empty_r in E. rewrite E in Hc.
      rewrite lacks_app in Hc. cbn [append lacks] in Hc.
      rewrite Ascii.eqb_refl, andb_false_r in Hc. discriminate.
    + exfalso. rewrite append_empty_r in E. rewrite <- E in Hc'.
      rewrite lacks_app in Hc'. cbn [append lacks] in Hc'.
      rewrite Ascii.eqb_refl, andb_false_r in Hc'. discriminate.
    + apply cut_unique in E as [-> E]; try assumption.
      apply showZ_inj in E as ->. split; reflexivity.
  - destruct Hf as (Hne & _). destruct f as [|x f]; [congruence|].
    cbn [truthyString append]. intros E. discriminate E.
  - destruct Hf' as (Hne' & _). destruct f' as [|x f']; [congruence|].
    cbn [truthyString append]. intros E. discriminate E.
  - intros _. rewrite Hf, Hf'. split; reflexivity.
Qed.

Lemma ruleText_inj (i i' : Issue) :
  rule i <> Some "" -> rule i' <> Some "" ->
  ruleText i = ruleText i' -> rule i = rule i'.
Proof.
  unfold ruleText.
  destruct (rule i) as [[|x r]|], (rule i') as [[|x' r']|];
    cbn [truthyString]; intros H H' E; try congruence; try discriminate E.
Qed.

(** C4 (as amended). On separable issues -- a line only together with a
    file; a file that is non-empty and free of ["|"] and [":"]; a line that
    is an integer other than 0, so not [NaN] either; a message free of
    ["|"]; a rule that is non-empty -- the compact form is lossless for
    severity, file, line, message and rule: two such issues with the same
    compact form agree on all five fields, with or without file, line or
    rule. *)
Theorem compactIssue_lossless_on_separable (i i' : Issue) :
  separable i -> separable i' ->
  compactIssue i = compactIssue i' ->
  logicalFields i = logicalFields i'.
Proof.
  intros S S' E. unfold compactIssue in E.
  apply severityLetter_inj in E as [Et E].
  cbn [append] in E. injection E as E.
  apply cut_unique in E as [Eloc E]; try (apply location_lacks_bar; assumption).
  destruct (location_inj i i' S S' Eloc) as [Ef El].
  destruct S as (_ & _ & _ & Hm & Hr), S' as (_ & _ & _ & Hm' & Hr').
  apply cut_unique in E as [Em Er]; try assumption.
  apply ruleText_inj in Er; try assumption.
  unfold logicalFields. rewrite Et, Ef, El, Em, Er. reflexivity.
Qed.

Lemma compactIssue_lossless_on_separable_witness :
  logicalFields fullIssue = logicalFields fullIssueWithFix.
Proof.
  apply (compactIssue_lossless_on_separable fullIssue fullIssueWithFix).
  - unfold separable, fullIssue, fullIssueWithFix; cbn.
    repeat split; try reflexivity; discriminate.
  - unfold separable, fullIssue, fullIssueWithFix; cbn.
    repeat split; try reflexivity; discriminate.
  - reflexivity.
Defined.

(** C4 (as stated) fails: no decoder recovers the five fields of every
    issue, since two issues without a file that differ in their line have
    the same compact form. *)
Lemma compactIssue_not_lossless :
  ~ (exists decode : string ->
        IssueType * option string * option JsNumber * string * option string,
        forall i : Issue, decode (compactIssue i) = logicalFields i).
Proof.
  intros [decode H].
  pose proof (H lineFive) as H5. pose proof (H lineSeven) as H7.
  assert (E : compactIssue lineFive = compactIssue lineSeven) by reflexivity.
  rewrite E, H7 in H5. discriminate H5.
Qed.

(** Each restriction on the line is needed: the lines [NaN] and 0 are
    printed like an absent line. *)
Example compactIssue_drops_NaN_and_zero :
  compactIssue lineNaN = compactIssue lineAbsent
  /\ compactIssue (mkIssue warning (Some "a.ts") (Some (Integer 0)) "m"
                           (Some "r") None)
     = compactIssue lineAbsent
  /\ logicalFields lineNaN <> logicalFields lineAbsent
  /\ compactIssue (mkIssue warning (Some "a.ts") (Some (Integer (-3))) "m"
                           (Some "r") None)
     = "W|a.ts:-3|m|r".
Proof. repeat split; try reflexivity. discriminate. Qed.

(** C9. An issue without a file has an empty location segment whatever
    its line: two issues without a file that agree on severity, message and
    rule have the same compact form, so the line is not represented. *)
Theorem compactIssue_drops_line_without_file (i i' : Issue) :
  file i = None -> file i' = None ->
  type i = type i' -> message i = message i' -> rule i = rule i' ->
  location i = "" /\ location i' = "" /\ compactIssue i = compactIssue i'.
Proof.
  intros Hf Hf' Ht Hm Hr.
  assert (L : location i = "") by (unfold location; rewrite Hf; reflexivity).
  assert (L' : location i' = "") by (unfold location; rewrite Hf'; reflexivity).
  repeat split; try assumption.
  unfold compactIssue, ruleText. rewrite L, L', Ht, Hm, Hr. reflexivity.
Qed.

Lemma compactIssue_drops_line_without_file_witness :
  line lineFive <> line lineSeven
  /\ location lineFive = "" /\ location lineSeven = ""
  /\ compactIssue lineFive = compactIssue lineSeven.
Proof.
  split; [discriminate|].
  apply (compactIssue_drops_line_without_file lineFive lineSeven);
    reflexivity.
Defined.

(** ** Function-length detector *)

Lemma longFnLoop_app (l1 l2 : list string) : forall i st,
  longFnLoop i (l1 ++ l2) st = longFnLoop (i + length l1) l2 (longFnLoop i l1 st).
Proof.
  induction l1 as [|l l1 IH]; intros i st; simpl.
  - rewrite Nat.add_0_r. reflexivity.
  - rewrite IH. f_equal. lia.
Qed.

(** Outside a function, a line that starts no function leaves the
    detector idle and its report unchanged. *)
Lemma longFnStep_idle (st : LongFnState) (i : nat) (l : string) :
  inFunction st = false -> funcMatch l = None ->
  inFunction (longFnStep st i l) = false /\ acc (longFnStep st i l) = acc st.
Proof.
  intros Hin Hm. unfold longFnStep. rewrite Hm, Hin.
  cbn [andb inFunction acc]. split; reflexivity.
Qed.

Lemma longFnLoop_gap (ls : list string) : forall i st,
  inFunction st = false ->
  Forall (fun l => funcMatch l = None) ls ->
  inFunction (longFnLoop i ls st) = false /\ acc (longFnLoop i ls st) = acc st.
Proof.
  induction ls as [|l ls IH]; intros i st Hin Hall; simpl.
  - split; [assumption | reflexivity].
  - inversion Hall as [|? ? Hl Hls]; subst.
    destruct (longFnStep_idle st i l Hin Hl) as [Hin' Hacc'].
    destruct (IH (S i) _ Hin' Hls) as [Hin'' Hacc''].
    split; [assumption | congruence].
Qed.

(** The start line of a function: the detector enters the function and
    stays in it, whatever the braces of that line. *)
Lemma longFnStep_header (st : LongFnState) (i : nat) (h nm : string) :
  inFunction st = false -> funcMatch h = Some nm ->
  longFnStep st i h = mkLongFnState (acc st) nm i (braceDelta h) true.
Proof.
  intros Hin Hm. unfold longFnStep. rewrite Hm, Hin.
  cbn [negb inFunction acc functionStartLine braceDepth currentFunction].
  rewrite Nat.ltb_irrefl, andb_false_r, Z.add_0_l. reflexivity.
Qed.

(** Inside a function, a line is judged by the brace depth alone. *)
Lemma longFnStep_inside (st : LongFnState) (j : nat) (l : string) :
  inFunction st = true -> functionStartLine st < j ->
  longFnStep st j l =
  let depth := (braceDepth st + braceDelta l)%Z in
  if (depth <=? 0)%Z
  then mkLongFnState
         (if 80 <? j - functionStartLine st
          then (acc st
                ++ [longEntry (currentFunction st) (j - functionStartLine st)])%list
          else acc st)
         (currentFunction st) (functionStartLine st) depth false
  else mkLongFnState (acc st) (currentFunction st) (functionStartLine st)
                     depth true.
Proof.
  intros Hin Hlt. unfold longFnStep.
  assert (E : match funcMatch l with
              | Some nm => if negb (inFunction st)
                           then mkLongFnState (acc st) nm j 0 true else st
              | None => st
              end = st).
  { destruct (funcMatch l); [rewrite Hin|]; reflexivity. }
  rewrite E, Hin. cbv zeta.
  apply Nat.ltb_lt in Hlt. rewrite Hlt. cbn [andb]. rewrite andb_true_r.
  reflexivity.
Qed.

Lemma longFnLoop_body (body : list string) : forall j st,
  inFunction st = true -> functionStartLine st < j ->
  closesAtEnd (braceDepth st) body = true ->
  let n := j + length body - 1 - functionStartLine st in
  inFunction (longFnLoop j body st) = false
  /\ acc (longFnLoop j body st)
     = (acc st ++ (if 80 <? n then [longEntry (currentFunction st) n] else []))%list.
Proof.
  induction body as [|l rest IH]; intros j st Hin Hlt Hc; [discriminate Hc|].
  cbn [longFnLoop]. rewrite (longFnStep_inside st j l Hin Hlt). cbv zeta.
  cbn [closesAtEnd] in Hc. destruct rest as [|l' rest'].
  - rewrite Hc. cbn [longFnLoop inFunction acc length].
    replace (j + 1 - 1 - functionStartLine st) with (j - functionStartLine st)
      by lia.
    split; [reflexivity|].
    destruct (80 <? j - functionStartLine st);
      [reflexivity | rewrite app_nil_r; reflexivity].
  - apply andb_true_iff in Hc as [Hpos Hc].
    assert (Hn : (braceDepth st + braceDelta l <=? 0)%Z = false)
      by (apply Z.leb_gt; apply Z.ltb_lt; exact Hpos).
    rewrite Hn.
    set (st' := mkLongFnState (acc st) (currentFunction st)
                  (functionStartLine st) (braceDepth st + braceDelta l) true).
    assert (Hlt' : functionStartLine st' < S j) by (cbn; lia).
    destruct (IH (S j) st' eq_refl Hlt' Hc) as [H1 H2].
    split; [exact H1|]. rewrite H2. cbn [st' acc currentFunction functionStartLine].
    replace (S j + length (l' :: rest') - 1 - functionStartLine st)
      with (j + length (l :: l' :: rest') - 1 - functionStartLine st)
      by (cbn [length]; lia).
    reflexivity.
Qed.

(** A whole declaration, met while idle: it is reported exactly when its
    span exceeds 80, and the detector is idle again after its closing
    line. *)
Lemma longFnLoop_func (nm header : string) (body : list string) (i : nat)
      (st : LongFnState) :
  inFunction st = false ->
  funcMatch header = Some nm ->
  closesAtEnd (braceDelta header) body = true ->
  inFunction (longFnLoop i (header :: body) st) = false
  /\ acc (longFnLoop i (header :: body) st)
     = (acc st
        ++ (if 80 <? span body then [longEntry nm (span body)] else []))%list.
Proof.
  intros Hin Hm Hc. cbn [longFnLoop].
  rewrite (longFnStep_header st i header nm Hin Hm).
  set (st' := mkLongFnState (acc st) nm i (braceDelta header) true).
  assert (Hlt : functionStartLine st' < S i) by (cbn; lia).
  destruct (longFnLoop_body body (S i) st' eq_refl Hlt Hc) as [H1 H2].
  split; [exact H1|]. rewrite H2. cbn [st' acc currentFunction functionStartLine].
  unfold span. replace (S i + length body - 1 - i) with (length body) by lia.
  reflexivity.
Qed.

Lemma longFnLoop_segments (segs : list Segment) : forall i st,
  inFunction st = false ->
  Forall trackedSegment segs ->
  inFunction (longFnLoop i (textLines segs) st) = false
  /\ acc (longFnLoop i (textLines segs) st) = (acc st ++ longReport segs)%list.
Proof.
  induction segs as [|seg segs IH]; intros i st Hin Hall.
  - cbn. rewrite app_nil_r. split; [assumption | reflexivity].
  - inversion Hall as [|? ? Hseg Hsegs]; subst.
    unfold textLines, longReport. cbn [flat_map].
    fold (textLines segs). fold (longReport segs).
    rewrite longFnLoop_app.
    destruct seg as [ls | nm header body]; cbn [segmentLines].
    + destruct (longFnLoop_gap ls i st Hin Hseg) as [H1 H2].
      destruct (IH (i + length ls) _ H1 Hsegs) as [H3 H4].
      split; [exact H3|]. rewrite H4, H2. reflexivity.
    + destruct Hseg as [Hm Hc].
      destruct (longFnLoop_func nm header body i st Hin Hm Hc) as [H1 H2].
      destruct (IH (i + length (header :: body)) _ H1 Hsegs) as [H3 H4].
      split; [exact H3|]. rewrite H4, H2, app_assoc. reflexivity.
Qed.

(** C5 (as amended). For every source text made of top-level function
    declarations and of lines between them that match no function-start
    pattern, where the closing line of each declaration is the first line
    strictly after its start line after which the brace depth counted from
    the start line is 0 or below, the detector reports exactly the
    declarations whose span (closing line index minus start line index)
    exceeds 80 lines, in source order, each as its name with that span. *)
Theorem detectLongFunctions_exact (content : string) (segs : list Segment) :
  splitLines content = textLines segs ->
  Forall trackedSegment segs ->
  detectLongFunctions content = longReport segs.
Proof.
  intros Hlines Hall. unfold detectLongFunctions. rewrite Hlines.
  destruct (longFnLoop_segments segs 0 (mkLongFnState [] "" 0 0 false)
              eq_refl Hall) as [_ H].
  exact H.
Qed.

Lemma detectLongFunctions_exact_witness :
  detectLongFunctions trackedText = ["render (82 lines)"].
Proof.
  apply (detectLongFunctions_exact trackedText trackedSegments).
  - vm_compute. reflexivity.
  - unfold trackedSegments.
    repeat (apply Forall_cons || apply Forall_nil);
      cbn [trackedSegment]; repeat (apply Forall_cons || apply Forall_nil);
      try split; vm_compute; reflexivity.
Defined.

(** C5 (as stated) fails: a one-line function directly followed by a
    function of span 82 makes the detector report the first under the
    length 83 and miss the second. *)
Lemma detectLongFunctions_counterexample :
  ~ (forall (content : string) (segs : list Segment),
        splitLines content = textLines segs ->
        Forall balancedSegment segs ->
        detectLongFunctions content = longReport segs).
Proof.
  intros H.
  assert (Hl : splitLines oneLinerText = textLines oneLinerSegments)
    by (vm_compute; reflexivity).
  assert (Hb : Forall balancedSegment oneLinerSegments).
  { unfold oneLinerSegments.
    repeat (apply Forall_cons || apply Forall_nil); cbn [balancedSegment].
    - repeat split; try (vm_compute; reflexivity). constructor.
    - repeat split; try (vm_compute; reflexivity).
      cbn [repeat app].
      repeat (apply Forall_cons || apply Forall_nil); vm_compute; reflexivity. }
  specialize (H oneLinerText oneLinerSegments Hl Hb).
  assert (Hd : detectLongFunctions oneLinerText = ["f (83 lines)"])
    by (vm_compute; reflexivity).
  assert (Hr : longReport oneLinerSegments = ["g (82 lines)"])
    by (vm_compute; reflexivity).
  rewrite Hd, Hr in H. discriminate H.
Qed.

(** ** Further properties of the grade and of the exit code *)

Lemma gradeRank_bounds (r : HealthReport) :
  let e := errors (totals r) in
  let w := warnings (totals r) in
  let k := gradeRank (calculateGrade r) in
  (k <= 0 <-> e = 0 /\ w = 0) /\
  (k <= 1 <-> e = 0 /\ w <= 5) /\
  (k <= 2 <-> e <= 2 /\ w <= 15) /\
  (k <= 3 <-> e <= 5) /\
  k <= 4.
Proof.
  unfold calculateGrade.
  destruct (Nat.eqb_spec (errors (totals r)) 0);
    destruct (Nat.eqb_spec (warnings (totals r)) 0);
    destruct (Nat.leb_spec (warnings (totals r)) 5);
    destruct (Nat.leb_spec (errors (totals r)) 2);
    destruct (Nat.leb_spec (warnings (totals r)) 15);
    destruct (Nat.leb_spec (errors (totals r)) 5);
    cbn [andb gradeRank]; lia.
Qed.

(** X1. More errors or more warnings never give a better grade. *)
Theorem calculateGrade_monotone (r r' : HealthReport) :
  errors (totals r) <= errors (totals r') ->
  warnings (totals r) <= warnings (totals r') ->
  gradeRank (calculateGrade r) <= gradeRank (calculateGrade r').
Proof.
  intros He Hw.
  pose proof (gradeRank_bounds r) as B.
  pose proof (gradeRank_bounds r') as B'.
  cbv zeta in B, B'.
  destruct B as (B0 & B1 & B2 & B3 & B4).
  destruct B' as (B0' & B1' & B2' & B3' & B4').
  destruct (gradeRank (calculateGrade r')) as [|[|[|[|k]]]].
  - apply B0. lia.
  - apply B1. lia.
  - apply B2. lia.
  - apply B3. lia.
  - lia.
Qed.

Lemma calculateGrade_monotone_witness :
  gradeRank (calculateGrade (reportWith 0 5 0))
  <= gradeRank (calculateGrade (reportWith 1 5 0)).
Proof.
  apply (calculateGrade_monotone (reportWith 0 5 0) (reportWith 1 5 0));
    cbn; lia.
Defined.

Lemma countType_flat_map_pos (t : IssueType) (cs : list CheckResult) :
  0 < countType t (flat_map issues cs) <->
  exists r, In r cs /\ 0 < countType t (issues r).
Proof.
  induction cs as [|c cs IH]; simpl flat_map.
  - split; [cbn; lia | intros (r & [] & _)].
  - rewrite countType_app. split.
    + intros H. destruct (Nat.eq_dec (countType t (issues c)) 0) as [E|E].
      * assert (H' : 0 < countType t (flat_map issues cs)) by lia.
        apply IH in H' as (r & Hin & Hr). exists r. split; [right|]; assumption.
      * exists c. split; [left; reflexivity | lia].
    + intros (r & [<- | Hin] & Hr); [lia|].
      assert (0 < countType t (flat_map issues cs)) by (apply IH; eauto). lia.
Qed.

Lemma deriveStatus_fail (t : nat) (l : list Issue) :
  deriveStatus t l = fail <-> 0 < countType error l.
Proof.
  rewrite deriveStatus_counts.
  destruct (Nat.ltb_spec 0 (countType error l)).
  - split; [intros _; assumption | reflexivity].
  - split; [|lia]. destruct (t <? countType warning l); discriminate.
Qed.

(** In a run, a check has status [fail] exactly when it holds an
    [error] issue. *)
Lemma fail_iff_error_issue (w : World) (r : CheckResult) :
  In r (runChecks w) ->
  (status r = fail <-> 0 < countType error (issues r)).
Proof.
  intros Hin. unfold runChecks in Hin.
  repeat (destruct Hin as [<- | Hin]); try contradiction.
  - cbn [checkOxlint status issues]. rewrite failWarnPass_derive.
    apply deriveStatus_fail.
  - cbn [checkEslint status issues]. rewrite failWarnPass_derive.
    apply deriveStatus_fail.
  - cbn [checkKnip status issues]. rewrite failWarnPass_derive.
    apply deriveStatus_fail.
  - destruct (isQuick w).
    + cbn. split; [discriminate | lia].
    + rewrite checkJscpd_status. apply deriveStatus_fail.
  - unfold checkMadge. destruct (isQuick w).
    + cbn. split; [discriminate | lia].
    + cbn [status issues]. rewrite failWarnPass_derive. apply deriveStatus_fail.
  - rewrite checkTypeScript_status. apply deriveStatus_fail.
  - rewrite checkComplexity_status. apply deriveStatus_fail.
  - unfold checkArchitecture. destruct (isQuick w).
    + cbn. split; [discriminate | lia].
    + destruct (configExists w); cbn [negb].
      * cbn [status issues]. rewrite failWarnPass_derive. apply deriveStatus_fail.
      * cbn. split; [discriminate | lia].
  - rewrite checkStructure_status. apply deriveStatus_fail.
Qed.

(** The argument of [process.exit] tells whether a check has failed. *)
Lemma exitCode_failed_check (w : World) :
  (exitCode (mainReport w) = 1 <->
     exists r, In r (runChecks w) /\ status r = fail)
  /\ (exitCode (mainReport w) = 0 <->
        forall r, In r (runChecks w) -> status r <> fail)
  /\ (exitCode (mainReport w) = 1 ->
        2 <= gradeRank (grade (mainReport w)))
  /\ (exitCode (mainReport w) = 0 \/ exitCode (mainReport w) = 1).
Proof.
  assert (E : errors (totals (mainReport w))
              = countType error (flat_map issues (runChecks w))).
  { unfold mainReport, buildReport. cbn [totals].
    rewrite calculateTotals_sums. reflexivity. }
  assert (P : 0 < errors (totals (mainReport w)) <->
              exists r, In r (runChecks w) /\ status r = fail).
  { rewrite E, countType_flat_map_pos. split; intros (r & Hin & H);
      exists r; (split; [assumption|]); apply (fail_iff_error_issue w r Hin);
      assumption. }
  unfold exitCode.
  destruct (Nat.ltb_spec 0 (errors (totals (mainReport w)))) as [Hpos|Hz].
  - split; [|split; [|split]].
    + split; [intros _; apply P; assumption | reflexivity].
    + split; [discriminate|]. intros H. exfalso.
      apply P in Hpos as (r & Hin & Hf). exact (H r Hin Hf).
    + intros _. unfold mainReport, buildReport in *. cbn [grade totals] in *.
      unfold calculateGrade. cbn [totals].
      destruct (Nat.eqb_spec (errors (calculateTotals (runChecks w))) 0);
        [lia|]. cbn [andb].
      destruct ((errors (calculateTotals (runChecks w)) <=? 2)
                && (warnings (calculateTotals (runChecks w)) <=? 15));
        [cbn; lia|].
      destruct (errors (calculateTotals (runChecks w)) <=? 5); cbn; lia.
    + right. reflexivity.
  - split; [|split; [|split]].
    + split; [discriminate|]. intros H. apply P in H. lia.
    + split; [|reflexivity]. intros _ r Hin Hf.
      assert (0 < errors (totals (mainReport w))) by (apply P; eauto). lia.
    + discriminate.
    + left. reflexivity.
Qed.

(** X2. The process ends with code 1 exactly when the log directory and
    the two report files have been written and at least one check of the
    run has status [fail]; it ends with code 0 otherwise, that is when no
    check has failed or when [mkdir] or [writeFile] has rejected, even if
    a check has failed; with exit code 1 the grade is never A or B. *)
Theorem exit_code_iff_failed_check (w : World) (fs : FileSystem) :
  (processExitCode w fs = 1 <->
     fs = ReportsWritten
     /\ exists r, In r (runChecks w) /\ status r = fail)
  /\ (processExitCode w fs = 0 <->
        fs <> ReportsWritten
        \/ forall r, In r (runChecks w) -> status r <> fail)
  /\ (processExitCode w fs = 1 ->
        2 <= gradeRank (grade (mainReport w))).
Proof.
  destruct (exitCode_failed_check w) as (X1 & X0 & Xg & _).
  destruct fs; cbn [processExitCode].
  - split; [|split].
    + split; [discriminate | intros [H _]; discriminate H].
    + split; [intros _; left; discriminate | reflexivity].
    + discriminate.
  - split; [|split].
    + split; [discriminate | intros [H _]; discriminate H].
    + split; [intros _; left; discriminate | reflexivity].
    + discriminate.
  - split; [|split].
    + rewrite X1. split; [intros H; split; [reflexivity | exact H]|].
      intros [_ H]. exact H.
    + rewrite X0. split; [intros H; right; exact H|].
      intros [H | H]; [contradiction | exact H].
    + exact Xg.
Qed.

(** A run with a type error ends with code 1 when the reports are written
    and with code 0 when a [writeFile] call rejects. *)
Example failed_check_and_rejected_write :
  processExitCode typeErrorWorld ReportsWritten = 1
  /\ processExitCode typeErrorWorld WriteFileRejects = 0
  /\ processExitCode typeErrorWorld MkdirRejects = 0.
Proof. repeat split; reflexivity. Qed.

(** ** Further properties of the source analyser *)

Lemma splitLines_nonempty (s : string) : splitLines s <> [].
Proof.
  destruct s as [|c s]; simpl; [discriminate|].
  destruct (Ascii.eqb c "010"); [discriminate|].
  destruct (splitLines s); discriminate.
Qed.

Lemma splitLines_length (s : string) :
  length (splitLines s) = S (countChar "010" s).
Proof.
  induction s as [|c s IH]; [reflexivity|].
  cbn [splitLines countChar]. rewrite (Ascii.eqb_sym "010" c).
  destruct (Ascii.eqb c "010"); cbn [length Nat.add].
  - rewrite IH. reflexivity.
  - pose proof (splitLines_nonempty s) as Hne.
    destruct (splitLines s) as [|l ls]; [contradiction|]. exact IH.
Qed.

(** X3. The line count of an analysed file is the number of line feeds
    in its text plus one, so a text that ends with a line feed counts one
    line more than it has terminated lines; the file-size error is raised
    exactly from 500 line feeds on, the warning from 300 to 499. *)
Theorem analysed_lines_count (filePath content : string) (rel : string) :
  let a := analyzeContent filePath content in
  let feeds := countChar "010" content in
  lines a = S feeds
  /\ (map type (fileSizeIssues rel a) = [error] <-> 500 <= feeds)
  /\ (map type (fileSizeIssues rel a) = [warning] <-> 300 <= feeds < 500)
  /\ (fileSizeIssues rel a = [] <-> feeds < 300).
Proof.
  cbv zeta.
  assert (L : lines (analyzeContent filePath content)
              = S (countChar "010" content))
    by (cbn [analyzeContent lines]; apply splitLines_length).
  split; [exact L|].
  unfold fileSizeIssues, THRESHOLDS.FILE_LINES_ERROR,
    THRESHOLDS.FILE_LINES_WARNING.
  rewrite L.
  destruct (Nat.ltb_spec 500 (S (countChar "010" content)));
    [|destruct (Nat.ltb_spec 300 (S (countChar "010" content)))];
    cbn [map type]; repeat split; intros; try discriminate; try lia;
    try reflexivity.
Qed.

Lemma entryOf_more (seen : list string) (l : string) (e : string) :
  entryOf seen e -> entryOf (seen ++ [l]) e.
Proof.
  intros (nm & n & -> & Hn & Hlen & l' & Hin & Hm).
  exists nm, n. rewrite length_app. cbn [length].
  repeat split; try lia; try assumption.
  exists l'. split; [apply in_or_app; left|]; assumption.
Qed.

Lemma detectorInvariant_step (seen : list string) (st : LongFnState)
      (l : string) :
  detectorInvariant seen st ->
  detectorInvariant (seen ++ [l]) (longFnStep st (length seen) l).
Proof.
  intros [Hacc Hst].
  assert (Hacc' : Forall (entryOf (seen ++ [l])) (acc st)).
  { eapply Forall_impl; [|exact Hacc]. intros e. apply entryOf_more. }
  assert (Hlen : length (seen ++ [l]) = S (length seen))
    by (rewrite length_app; cbn; lia).
  unfold detectorInvariant. rewrite Hlen.
  destruct (inFunction st) eqn:Hin.
  - destruct Hst as (Hlt & Hb & l0 & Hl0 & Hm0).
    rewrite (longFnStep_inside st (length seen) l Hin Hlt). cbv zeta.
    destruct (braceDepth st + braceDelta l <=? 0)%Z;
      cbn [acc inFunction functionStartLine currentFunction].
    + destruct (Nat.ltb_spec 80 (length seen - functionStartLine st)).
      * split.
        -- apply Forall_app. split; [exact Hacc'|].
           constructor; [|constructor].
           exists (currentFunction st), (length seen - functionStartLine st).
           rewrite Hlen. repeat split; try lia.
           exists l0. split; [apply in_or_app; left|]; assumption.
        -- rewrite length_app. cbn [length]. lia.
      * split; [exact Hacc' | lia].
    + split; [exact Hacc'|]. repeat split; try lia.
      exists l0. split; [apply in_or_app; left|]; assumption.
  - destruct (funcMatch l) as [nm|] eqn:Hm.
    + rewrite (longFnStep_header st (length seen) l nm Hin Hm).
      cbn [acc inFunction functionStartLine currentFunction].
      split; [exact Hacc'|]. repeat split; try lia.
      exists l. split; [apply in_or_app; right; left; reflexivity | exact Hm].
    + destruct (longFnStep_idle st (length seen) l Hin Hm) as [H1 H2].
      rewrite H1, H2. split; [exact Hacc' | lia].
Qed.

Lemma detectorInvariant_loop (ls : list string) : forall seen st,
  detectorInvariant seen st ->
  detectorInvariant (seen ++ ls) (longFnLoop (length seen) ls st).
Proof.
  induction ls as [|l ls IH]; intros seen st H.
  - rewrite app_nil_r. exact H.
  - cbn [longFnLoop].
    replace (seen ++ l :: ls)%list with ((seen ++ [l]) ++ ls)%list
      by (rewrite <- app_assoc; reflexivity).
    replace (S (length seen)) with (length (seen ++ [l]))
      by (rewrite length_app; cbn; lia).
    apply IH. apply detectorInvariant_step. exact H.
Qed.

Lemma detectorInvariant_final (content : string) :
  detectorInvariant (splitLines content)
    (longFnLoop 0 (splitLines content) (mkLongFnState [] "" 0 0 false)).
Proof.
  apply (detectorInvariant_loop (splitLines content) []).
  split; [constructor | cbn; lia].
Qed.

(** X4. Every entry the function-length detector reports has the form
    [name (n lines)] where [name] is the name the function-start pattern
    captures on some line of the text and [n] is more than 80 and less than
    the number of lines. *)
Theorem detectLongFunctions_entries (content : string) (e : string) :
  In e (detectLongFunctions content) ->
  exists nm n,
    e = nm ++ " (" ++ showNat n ++ " lines)"
    /\ 80 < n < length (splitLines content)
    /\ exists l, In l (splitLines content) /\ funcMatch l = Some nm.
Proof.
  intros Hin. destruct (detectorInvariant_final content) as [Hacc _].
  rewrite Forall_forall in Hacc.
  destruct (Hacc e Hin) as (nm & n & -> & Hn & Hlen & Hl).
  exists nm, n. repeat split; assumption.
Qed.

Lemma detectLongFunctions_entries_witness :
  exists nm n,
    "render (82 lines)" = nm ++ " (" ++ showNat n ++ " lines)"
    /\ 80 < n < length (splitLines trackedText)
    /\ exists l, In l (splitLines trackedText) /\ funcMatch l = Some nm.
Proof.
  apply (detectLongFunctions_entries trackedText "render (82 lines)").
  vm_compute. left. reflexivity.
Defined.

(** X5. Reported functions do not overlap and each takes at least 82
    lines: 82 times the number of reported entries is at most the number
    of lines of the text.  A text of fewer than 82 lines has no entry. *)
Theorem detectLongFunctions_bound (content : string) :
  82 * length (detectLongFunctions content) <= length (splitLines content)
  /\ (length (splitLines content) < 82 -> detectLongFunctions content = []).
Proof.
  assert (B : 82 * length (detectLongFunctions content)
              <= length (splitLines content)).
  { destruct (detectorInvariant_final content) as [_ H].
    unfold detectLongFunctions.
    destruct (inFunction _); lia. }
  split; [exact B|]. intros Hlt.
  destruct (detectLongFunctions content); [reflexivity | cbn [length] in B; lia].
Qed.

(** ** Further properties of the checks *)

Ltac count_ifs :=
  repeat match goal with
         | |- context [if ?b then _ else _] => destruct b
         end;
  reflexivity.

Lemma fileSizeIssues_errors (rel : string) (a : FileAnalysis) :
  countType error (fileSizeIssues rel a)
  = if THRESHOLDS.FILE_LINES_ERROR <? lines a then 1 else 0.
Proof. unfold fileSizeIssues. count_ifs. Qed.

Lemma hookCountIssues_errors (rel : string) (a : FileAnalysis) :
  countType error (hookCountIssues rel a)
  = if (THRESHOLDS.COMPONENT_HOOKS_ERROR <=? totalHooks (hooks a))%Z
    then 1 else 0.
Proof. unfold hookCountIssues. cbv zeta. count_ifs. Qed.

Lemma complexityFileIssues_errors (rel : string) (isTsx : bool)
      (a : FileAnalysis) :
  countType error (complexityFileIssues rel isTsx a)
  = (if THRESHOLDS.FILE_LINES_ERROR <? lines a then 1 else 0)
    + (if isTsx &&
          (THRESHOLDS.COMPONENT_HOOKS_ERROR <=? totalHooks (hooks a))%Z
       then 1 else 0).
Proof.
  unfold complexityFileIssues. rewrite !countType_app.
  rewrite fileSizeIssues_errors.
  assert (H1 : countType error (effectSprawlIssues rel a) = 0)
    by (unfold effectSprawlIssues; cbv zeta; count_ifs).
  assert (H2 : countType error (overMemoIssues rel a) = 0)
    by (unfold overMemoIssues; cbv zeta; count_ifs).
  assert (H3 : countType error (errorBoundaryIssues rel a) = 0)
    by (unfold errorBoundaryIssues; count_ifs).
  assert (H4 : countType error (multipleComponentsIssues rel a) = 0)
    by (unfold multipleComponentsIssues; count_ifs).
  assert (H5 : countType error (longFunctionIssues rel a) = 0).
  { unfold longFunctionIssues.
    destruct (0 <? length (longFunctions (patterns a))); [|reflexivity].
    apply countType_map_const. reflexivity. }
  assert (H6 : countType error (mixedConcernsIssues rel a) = 0)
    by (unfold mixedConcernsIssues; count_ifs).
  rewrite H3, H4, H5, H6.
  destruct isTsx; cbn [andb].
  - rewrite !countType_app, hookCountIssues_errors, H1, H2. lia.
  - cbn. lia.
Qed.

Lemma complexity_fold_errors (cwd : string)
      (files : list (string * option string)) : forall st,
  countType error (c_issues st) = largeFiles st + complexComponents st ->
  let st' := fold_left (complexityStep cwd) files st in
  countType error (c_issues st') = largeFiles st' + complexComponents st'.
Proof.
  induction files as [|f files IH]; intros st H; [exact H|].
  cbn [fold_left]. apply IH. unfold complexityStep.
  destruct (analyzeFile (fst f) (snd f)) as [a|]; [|exact H].
  cbn [c_issues largeFiles complexComponents].
  rewrite countType_app, complexityFileIssues_errors, H.
  destruct (THRESHOLDS.FILE_LINES_ERROR <? lines a);
    destruct (endsWith ".tsx" (fst f)
              && (THRESHOLDS.COMPONENT_HOOKS_ERROR <=? totalHooks (hooks a))%Z);
    lia.
Qed.

(** X6. The [error] issues of the complexity check are exactly the
    oversized files and the complex components its summary counts: their
    number is the sum of the two counters, and the check has status [fail]
    exactly when one of the two counters is not zero. *)
Theorem checkComplexity_errors_counted (cwd : string)
        (files : list (string * option string)) (el : nat) :
  let st := fold_left (complexityStep cwd) files (mkComplexityAcc [] 0 0) in
  let r := checkComplexity cwd files el in
  countType error (issues r) = largeFiles st + complexComponents st
  /\ (status r = fail <-> 0 < largeFiles st + complexComponents st)
  /\ summary r = showNat (largeFiles st) ++ " oversized files, "
                 ++ showNat (complexComponents st) ++ " complex components, "
                 ++ showNat (countType warning (issues r)) ++ " warnings".
Proof.
  cbv zeta.
  assert (E : countType error (issues (checkComplexity cwd files el))
              = largeFiles (fold_left (complexityStep cwd) files
                              (mkComplexityAcc [] 0 0))
                + complexComponents (fold_left (complexityStep cwd) files
                                       (mkComplexityAcc [] 0 0))).
  { unfold checkComplexity. cbn [issues].
    apply (complexity_fold_errors cwd files (mkComplexityAcc [] 0 0)).
    reflexivity. }
  split; [exact E|]. split; [|reflexivity].
  rewrite checkComplexity_status, deriveStatus_fail, E. reflexivity.
Qed.

Lemma complexity_fold_readable (cwd : string)
      (files : list (string * option string)) : forall st,
  fold_left (complexityStep cwd) (filter readable files) st
  = fold_left (complexityStep cwd) files st.
Proof.
  induction files as [|[p [content|]] files IH]; intros st;
    cbn [filter readable snd fold_left].
  - reflexivity.
  - apply IH.
  - rewrite IH. reflexivity.
Qed.

(** X7. A source file that cannot be read is skipped without a trace:
    the complexity check returns the same result -- issues, status and
    summary -- as if the unreadable files had not been found. *)
Theorem checkComplexity_skips_unreadable (cwd : string)
        (files : list (string * option string)) (el : nat) :
  checkComplexity cwd files el
  = checkComplexity cwd (filter readable files) el
  /\ (Forall (fun f => snd f = None) files ->
      issues (checkComplexity cwd files el) = []
      /\ status (checkComplexity cwd files el) = pass).
Proof.
  split.
  - unfold checkComplexity. rewrite complexity_fold_readable. reflexivity.
  - intros H.
    assert (E : fold_left (complexityStep cwd) files (mkComplexityAcc [] 0 0)
                = mkComplexityAcc [] 0 0).
    { generalize (mkComplexityAcc [] 0 0).
      induction H as [|[p o] files Ho _ IH]; intros st; [reflexivity|].
      cbn [fold_left]. cbn [snd] in Ho. subst o.
      unfold complexityStep at 2. cbn [analyzeFile fst snd]. apply IH. }
    unfold checkComplexity. rewrite E. split; reflexivity.
Qed.





Lemma countType_cloneIssues (l : list Clone) :
  countType warning (map cloneIssue l) = length l.
Proof.
  induction l as [|c l IH]; [reflexivity|].
  cbn [map]. rewrite countType_cons, IH. reflexivity.
Qed.

(** X9. The duplicate-code check never has status [fail].  Outside quick
    mode, an output that mentions "Clone found" never comes out clean: the
    result holds at least one [warning] issue, and when no clone block could
    be parsed it holds the one issue that states how many were seen. *)
Theorem checkJscpd_never_silent (q : bool) (out : JscpdOutput) (el : nat) :
  status (checkJscpd q out el) <> fail
  /\ (q = false -> 0 < cloneFoundCount out ->
      0 < countType warning (issues (checkJscpd q out el)))
  /\ (q = false -> 0 < cloneFoundCount out ->
      regexClones out = [] -> scanClones out = [] ->
      filter (fun i => IssueType_eqb (type i) warning)
             (issues (checkJscpd q out el))
      = [mkIssue warning None None
           ("Found " ++ showNat (cloneFoundCount out)
              ++ " code duplications (see logs/code-health-report.json for rawOutput)")
           (Some "jscpd/duplicate") None]).
Proof.
  split; [|split].
  - destruct q; [discriminate|].
    rewrite checkJscpd_status, deriveStatus_fail, checkJscpd_no_errors. lia.
  - intros -> Hc. unfold checkJscpd. cbn [issues].
    apply Nat.ltb_lt in Hc. rewrite Hc, !andb_true_r, length_map.
    rewrite countType_app.
    destruct (regexClones out) as [|c cs] eqn:Hr.
    + cbn [length Nat.eqb map app]. rewrite length_map.
      destruct (scanClones out) as [|c' cs'].
      * cbn. lia.
      * cbn [length Nat.eqb map]. rewrite countType_cons. cbn. lia.
    + cbn [length Nat.eqb map]. rewrite countType_cons. cbn. lia.
  - intros -> Hc Hr Hs. unfold checkJscpd. cbn [issues].
    apply Nat.ltb_lt in Hc. rewrite Hr, Hs, Hc. cbn [map length Nat.eqb andb app].
    destruct (statsMessage out); reflexivity.
Qed.

Lemma checkJscpd_never_silent_witness :
  0 < countType warning (issues (checkJscpd false unparsedClones 0)).
Proof.
  apply (checkJscpd_never_silent false unparsedClones 0).
  - reflexivity.
  - cbn. lia.
Defined.

Lemma orphanIssue_type (o : string) :
  type (orphanIssue o) = if expectedOrphan o then info else warning.
Proof. reflexivity. Qed.

Lemma countType_orphans (t : IssueType) (l : list string) :
  countType t (map orphanIssue l)
  = length (filter (fun o => IssueType_eqb
                               (if expectedOrphan o then info else warning) t) l).
Proof.
  induction l as [|o l IH]; [reflexivity|].
  cbn [map filter]. rewrite countType_cons, orphanIssue_type, IH.
  destruct (IssueType_eqb _ t); reflexivity.
Qed.

(** X10. Outside quick mode the dependency-graph check has one [error]
    issue per cycle line and one [warning] issue per orphan that is not an
    expected one (a path that includes "config.ts" or "_generated" is
    reported as [info]).  It has status [fail] exactly when a cycle was
    seen, and [warn] exactly when no cycle was seen and some orphan is not
    an expected one. *)
Theorem checkMadge_cycles_and_orphans (out : MadgeOutput) (el : nat) :
  let r := checkMadge false out el in
  let unexpected := filter (fun o => negb (expectedOrphan o)) (orphans out) in
  countType error (issues r) = length (cycles out)
  /\ countType warning (issues r) = length unexpected
  /\ (status r = fail <-> cycles out <> [])
  /\ (status r = warn <-> cycles out = [] /\ unexpected <> []).
Proof.
  cbv zeta. unfold checkMadge. cbn [issues status].
  assert (E : countType error
                (map orphanIssue (orphans out) ++ map cycleIssue (cycles out))
              = length (cycles out)).
  { rewrite countType_app, countType_orphans.
    rewrite filter_nil_when
      by (apply Forall_forall; intros o _; destruct (expectedOrphan o);
          reflexivity).
    cbn [length Nat.add].
    induction (cycles out) as [|c cs IH]; [reflexivity|].
    cbn [map]. rewrite countType_cons, IH. reflexivity. }
  assert (W : countType warning
                (map orphanIssue (orphans out) ++ map cycleIssue (cycles out))
              = length (filter (fun o => negb (expectedOrphan o)) (orphans out))).
  { rewrite countType_app, countType_orphans.
    rewrite (countType_map_const warning cycleIssue) by reflexivity.
    rewrite Nat.add_0_r. f_equal. apply filter_ext.
    intros o. destruct (expectedOrphan o); reflexivity. }
  rewrite E, W. unfold failWarnPass.
  split; [reflexivity|]. split; [reflexivity|].
  destruct (cycles out) as [|c cs]; cbn [length Nat.ltb Nat.leb].
  - destruct (filter (fun o => negb (expectedOrphan o)) (orphans out));
      cbn [length Nat.ltb Nat.leb]; repeat split; intros;
      try discriminate; intuition congruence.
  - repeat split; intros; try discriminate; intuition congruence.
Qed.

(** ** Compact report *)

Lemma compactIssue_starts (t : IssueType) (x : Issue) :
  startsWithChar (severityChar t) (compactIssue x) = IssueType_eqb (type x) t.
Proof.
  unfold compactIssue. destruct (type x), t; reflexivity.
Qed.

Lemma countType_by_letter (t : IssueType) (l : list Issue) :
  length (filter (startsWithChar (severityChar t)) (map compactIssue l))
  = countType t l.
Proof.
  unfold countType. induction l as [|x l IH]; [reflexivity|].
  cbn [map filter]. rewrite compactIssue_starts.
  destruct (IssueType_eqb (type x) t); cbn [length]; rewrite IH; reflexivity.
Qed.

Lemma compact_issue_strings (cs : list CheckResult) :
  flat_map Compact.i
    (map (fun c => Compact.mkCheckResult (name c) (status c) (duration c)
                     (map compactIssue (issues c)) (summary c)) cs)
  = map compactIssue (flat_map issues cs).
Proof.
  induction cs as [|c cs IH]; [reflexivity|].
  cbn [map flat_map Compact.i]. rewrite IH, map_app. reflexivity.
Qed.

(** X11. The compact report of a run is consistent with itself: its
    totals can be recomputed from the first letters of its compact issue
    strings ([e] is the number of strings that start with E, [w] with W,
    [i] with I, over all checks), and each compact check holds one string
    per issue of the check. *)
Theorem compactReport_totals_from_letters (w : World) :
  let cr := compactReport (mainReport w) in
  let strings := flat_map Compact.i (Compact.checks cr) in
  Compact.te (Compact.totals cr) = length (filter (startsWithChar "E") strings)
  /\ Compact.tw (Compact.totals cr) = length (filter (startsWithChar "W") strings)
  /\ Compact.ti (Compact.totals cr) = length (filter (startsWithChar "I") strings)
  /\ map (fun c => length (Compact.i c)) (Compact.checks cr)
     = map (fun c => length (issues c)) (runChecks w).
Proof.
  cbv zeta. unfold compactReport, mainReport, buildReport.
  cbn [Compact.totals Compact.checks Compact.te Compact.tw Compact.ti
       totals checks].
  rewrite compact_issue_strings, calculateTotals_sums.
  cbn [errors warnings infos].
  rewrite <- (countType_by_letter error), <- (countType_by_letter warning),
    <- (countType_by_letter info).
  repeat split.
  rewrite map_map. apply map_ext. intros c. cbn [Compact.i].
  apply length_map.
Qed.

(** ** Text fallbacks *)

Lemma includes_empty (pat : string) :
  pat <> "" -> includes pat "" = false.
Proof.
  destruct pat; [congruence|reflexivity].
Qed.

Lemma scan_counts (p : string -> bool) (mk : string -> Issue)
      (ls : list string) :
  (forall l, type (mk l) = warning) ->
  let found := flat_map (fun l => if p l then [mk l] else []) ls in
  countType error found = 0
  /\ countType warning found = length (filter p ls).
Proof.
  intros Hmk. cbv zeta. induction ls as [|l ls [IHe IHw]]; [split; reflexivity|].
  cbn [flat_map filter]. rewrite !countType_app, IHe, IHw.
  destruct (p l); [|split; reflexivity].
  rewrite !countType_cons, Hmk. split; reflexivity.
Qed.

Lemma filter_pos_iff {X : Type} (p : X -> bool) (l : list X) :
  0 < length (filter p l) <-> exists x, In x l /\ p x = true.
Proof.
  induction l as [|x l IH]; cbn [filter].
  - split; [cbn; lia | intros (x & [] & _)].
  - destruct (p x) eqn:Hx.
    + split; [intros _; exists x; split; [left; reflexivity | exact Hx]
             | intros _; cbn; lia].
    + rewrite IH. split.
      * intros (y & Hy & Hp). exists y. split; [right|]; assumption.
      * intros (y & [<- | Hy] & Hp); [congruence|]. exists y. split; assumption.
Qed.

Lemma nonEmptyLines_marked (p : string -> bool) (text : string) :
  p "" = false ->
  (0 < length (filter p (nonEmptyLines text)) <->
   exists l, In l (splitLines text) /\ p l = true).
Proof.
  intros Hp. rewrite filter_pos_iff. unfold nonEmptyLines. split.
  - intros (l & Hin & Hl). apply filter_In in Hin as [Hin _].
    exists l. split; assumption.
  - intros (l & Hin & Hl). exists l. split; [|exact Hl].
    apply filter_In. split; [exact Hin|].
    destruct (String.eqb_spec l ""); [subst; congruence | reflexivity].
Qed.

Lemma text_status (found : list Issue) (n : nat) :
  countType error found = 0 -> countType warning found = n ->
  failWarnPass (countType error found) (countType warning found) <> fail
  /\ (failWarnPass (countType error found) (countType warning found) = warn
      <-> 0 < n).
Proof.
  intros He Hw. rewrite He, Hw. unfold failWarnPass.
  destruct n; cbn; (split; [discriminate|]);
    split; intros; try discriminate; try lia; reflexivity.
Qed.

(** X12. When the output of oxlint, knip or dependency-cruiser is not
    JSON, the adapter scans its lines and every issue it makes is a
    [warning]: the check never has status [fail], whatever the lines say,
    and it has status [warn] exactly when some line includes one of the
    adapter's two marker words. *)
Theorem text_fallbacks_only_warn (stdout stderr : string) (el : nat) :
  (status (checkOxlintText stdout stderr el) <> fail
   /\ (status (checkOxlintText stdout stderr el) = warn <->
       exists l, In l (splitLines stdout)
                 /\ (includes "error" l || includes "warning" l) = true))
  /\ (status (checkKnipText stdout stderr el) <> fail
      /\ (status (checkKnipText stdout stderr el) = warn <->
          exists l, In l (splitLines stdout)
                    /\ (includes "Unused" l || includes "unused" l) = true))
  /\ (status (checkArchitectureText stdout stderr el) <> fail
      /\ (status (checkArchitectureText stdout stderr el) = warn <->
          exists l, In l (splitLines (stdout ++ stderr))
                    /\ (includes "error" l || includes "violation" l) = true)).
Proof.
  split; [|split].
  - unfold checkOxlintText, checkOxlint, oxlintTextIssues. cbn [status].
    destruct (scan_counts (fun l => includes "error" l || includes "warning" l)
                (fun l => mkIssue warning None None l None None)
                (nonEmptyLines stdout) (fun _ => eq_refl)) as [He Hw].
    destruct (text_status _ _ He Hw) as [H1 H2]. split; [exact H1|].
    rewrite H2. apply nonEmptyLines_marked. reflexivity.
  - unfold checkKnipText, checkKnip, knipTextIssues. cbn [status].
    destruct (scan_counts (fun l => includes "Unused" l || includes "unused" l)
                (fun l => mkIssue warning None None (trim l) None None)
                (nonEmptyLines stdout) (fun _ => eq_refl)) as [He Hw].
    destruct (text_status _ _ He Hw) as [H1 H2]. split; [exact H1|].
    rewrite H2. apply nonEmptyLines_marked. reflexivity.
  - unfold checkArchitectureText, checkArchitecture, architectureTextIssues.
    cbn [negb status].
    destruct (scan_counts (fun l => includes "error" l || includes "violation" l)
                (fun l => mkIssue warning None None (trim l)
                            (Some "architecture/unknown") None)
                (nonEmptyLines (stdout ++ stderr)) (fun _ => eq_refl))
      as [He Hw].
    destruct (text_status _ _ He Hw) as [H1 H2]. split; [exact H1|].
    rewrite H2. apply nonEmptyLines_marked. reflexivity.
Qed.

Example trim_ex : trim "   3 errors found  " = "3 errors found".
Proof. reflexivity. Qed.

Example oxlint_text_ex :
  map message (oxlintTextIssues ("x.ts: error no-debugger" ++ nl ++ nl ++ "done"))
  = ["x.ts: error no-debugger"].
Proof. reflexivity. Qed.

(** ** Strings: prefixes, suffixes, separators *)

Lemma length_append (a b : string) :
  String.length (a ++ b) = String.length a + String.length b.
Proof.
  induction a as [|c a IH]; cbn; [reflexivity | rewrite IH; reflexivity].
Qed.

Lemma append_assoc (a b c : string) : (a ++ b) ++ c = a ++ b ++ c.
Proof.
  induction a as [|x a IH]; cbn; [reflexivity | rewrite IH; reflexivity].
Qed.

Lemma substring_whole (s : string) : substring 0 (String.length s) s = s.
Proof.
  induction s as [|c s IH]; cbn; [reflexivity | rewrite IH; reflexivity].
Qed.

Lemma substring_skip (a b : string) :
  substring (String.length a) (String.length b) (a ++ b) = b.
Proof.
  induction a as [|c a IH]; cbn [String.length append].
  - apply substring_whole.
  - cbn [substring]. exact IH.
Qed.

Lemma substring_split (s : string) : forall k,
  k <= String.length s ->
  s = substring 0 k s ++ substring k (String.length s - k) s.
Proof.
  induction s as [|c s IH]; intros k Hk.
  - destruct k; reflexivity.
  - destruct k as [|k].
    + cbn [substring append Nat.sub String.length].
      rewrite substring_whole. reflexivity.
    + cbn [String.length] in Hk. cbn [substring append String.length Nat.sub].
      rewrite <- (IH k) by lia. reflexivity.
Qed.

Lemma prefix_empty (s : string) : prefix "" s = true.
Proof. destruct s; reflexivity. Qed.

Lemma prefix_append (p s : string) : prefix p (p ++ s) = true.
Proof.
  induction p as [|c p IH]; cbn [append]; [apply prefix_empty|].
  cbn [prefix]. destruct (ascii_dec c c); [exact IH | contradiction].
Qed.

Lemma prefix_append_more (p x y : string) :
  prefix p x = true -> prefix p (x ++ y) = true.
Proof.
  revert x. induction p as [|c p IH]; intros x H; [apply prefix_empty|].
  destruct x as [|d x]; [discriminate H|].
  cbn [append prefix] in *.
  destruct (ascii_dec c d); [apply IH; exact H | discriminate H].
Qed.

Lemma removeFirst_unfold (pat s : string) :
  removeFirst pat s
  = if prefix pat s
    then substring (String.length pat) (String.length s - String.length pat) s
    else match s with
         | EmptyString => EmptyString
         | String c s' => String c (removeFirst pat s')
         end.
Proof. destruct s; reflexivity. Qed.

Lemma removeFirst_prefix (p s : string) : removeFirst p (p ++ s) = s.
Proof.
  rewrite removeFirst_unfold, prefix_append, length_append.
  replace (String.length p + String.length s - String.length p)
    with (String.length s) by lia.
  apply substring_skip.
Qed.

Lemma endsWith_iff (suf s : string) :
  endsWith suf s = true <-> exists pre, s = pre ++ suf.
Proof.
  unfold endsWith. rewrite andb_true_iff, Nat.leb_le, String.eqb_eq. split.
  - intros [Hle E].
    exists (substring 0 (String.length s - String.length suf) s).
    pose proof (substring_split s (String.length s - String.length suf)) as H.
    replace (String.length s - (String.length s - String.length suf))
      with (String.length suf) in H by lia.
    rewrite E in H. apply H. lia.
  - intros [pre ->]. rewrite length_append. split; [lia|].
    replace (String.length pre + String.length suf - String.length suf)
      with (String.length pre) by lia.
    apply substring_skip.
Qed.

Lemma endsWith_append (suf pre s : string) :
  endsWith suf s = true -> endsWith suf (pre ++ s) = true.
Proof.
  rewrite !endsWith_iff. intros [q ->]. exists (pre ++ q).
  rewrite append_assoc. reflexivity.
Qed.

Lemma includes_append_l (pat a b : string) :
  includes pat a = true -> includes pat (a ++ b) = true.
Proof.
  assert (U : forall x, includes pat x
                        = prefix pat x
                          || match x with
                             | EmptyString => false
                             | String _ x' => includes pat x'
                             end) by (intros x; destruct x; reflexivity).
  induction a as [|c a IH]; intros H.
  - rewrite U in H. apply orb_true_iff in H as [H|H]; [|discriminate].
    rewrite U, (prefix_append_more pat "" b H). reflexivity.
  - rewrite U in H. apply orb_true_iff in H as [H|H].
    + rewrite U, (prefix_append_more pat (String c a) b H). reflexivity.
    + cbn [append]. rewrite U, (IH H). apply orb_true_r.
Qed.

Lemma includes_append_r (pat a b : string) :
  includes pat b = true -> includes pat (a ++ b) = true.
Proof.
  intros H. induction a as [|c a IH]; cbn [append]; [exact H|].
  cbn [includes]. rewrite IH. apply orb_true_r.
Qed.

Lemma countChar_append (c : ascii) (a b : string) :
  countChar c (a ++ b) = countChar c a + countChar c b.
Proof.
  induction a as [|x a IH]; cbn; [reflexivity | rewrite IH; lia].
Qed.

Lemma lacks_countChar (c : ascii) (s : string) :
  lacks c s = true -> countChar c s = 0.
Proof.
  induction s as [|x s IH]; cbn; [reflexivity|].
  destruct (Ascii.eqb c x); cbn; [discriminate | exact IH].
Qed.

(** ** Literal patterns and the source-file pattern *)

Lemma includes_unfold (pat x : string) :
  includes pat x
  = prefix pat x
    || match x with
       | EmptyString => false
       | String _ x' => includes pat x'
       end.
Proof. destruct x; reflexivity. Qed.

Lemma rmatch_lit {R : Type} (t : string) : forall (s : string) prev cs
    (k : Cont R),
  (forall p s' c', k p s' c' <> None) ->
  (rmatch (lit t) prev s cs k <> None <-> prefix t s = true).
Proof.
  induction t as [|c t IH]; intros s prev cs k Hk.
  - cbn [lit rmatch]. rewrite prefix_empty. split; [reflexivity | intros _; apply Hk].
  - cbn [lit rmatch chr]. destruct s as [|x s].
    + cbn [prefix]. split; [congruence | discriminate].
    + cbn [prefix]. destruct (Ascii.eqb_spec c x) as [->|Hne].
      * destruct (ascii_dec x x); [|contradiction]. apply IH. exact Hk.
      * destruct (ascii_dec c x); [contradiction|].
        split; [congruence | discriminate].
Qed.

Lemma test_lit (t s : string) : test (lit t) s = includes t s.
Proof.
  unfold test, exec. generalize (@None ascii).
  induction s as [|x s IH]; intros prev.
  - rewrite includes_unfold. cbn [execFrom]. unfold matchAt.
    pose proof (rmatch_lit t "" prev [] (fun p s' cs => Some (p, s', cs))
                  ltac:(discriminate)) as H.
    destruct (rmatch (lit t) prev "" [] _) as [[[? ?] ?]|].
    + symmetry. rewrite orb_false_r. apply H. discriminate.
    + destruct (prefix t ""); [|reflexivity]. exfalso. apply H; reflexivity.
  - rewrite includes_unfold. cbn [execFrom]. unfold matchAt.
    pose proof (rmatch_lit t (String x s) prev []
                  (fun p s' cs => Some (p, s', cs)) ltac:(discriminate)) as H.
    destruct (rmatch (lit t) prev (String x s) [] _) as [[[? ?] ?]|].
    + symmetry. apply orb_true_iff. left. apply H. discriminate.
    + destruct (prefix t (String x s)).
      * exfalso. apply H; reflexivity.
      * cbn [orb]. apply IH.
Qed.

Ltac regex_step H :=
  cbn [rmatch chr lit] in H;
  match type of H with
  | context [if Ascii.eqb ?a ?b then _ else _] =>
      destruct (Ascii.eqb_spec a b); subst
  | context [match ?s with EmptyString => _ | String _ _ => _ end] =>
      is_var s; destruct s
  end;
  try discriminate H.

Lemma sourceFile_suffix (prev : option ascii) (s : string) :
  matchToEnd re_sourceFile prev s = Some tt -> s = ".ts" \/ s = ".tsx".
Proof.
  unfold matchToEnd, re_sourceFile, seqs, Opt. cbn [fold_right].
  intros H. repeat regex_step H.
  all: auto.
Qed.

Lemma testToEnd_sourceFile (name : string) :
  testToEnd re_sourceFile name = true ->
  endsWith ".ts" name = true \/ endsWith ".tsx" name = true.
Proof.
  unfold testToEnd. generalize (@None ascii).
  induction name as [|c name IH]; intros prev H; cbn [testToEndFrom] in H.
  - destruct (matchToEnd re_sourceFile prev "") as [[]|] eqn:E;
      [|discriminate H].
    destruct (sourceFile_suffix prev "" E); discriminate.
  - destruct (matchToEnd re_sourceFile prev (String c name)) as [[]|] eqn:E.
    + destruct (sourceFile_suffix prev _ E) as [-> | ->];
        [left | right]; reflexivity.
    + destruct (IH (Some c) H) as [H' | H']; [left | right];
        apply (endsWith_append _ (String c "") name H').
Qed.

(** ** Directory walks *)

Lemma analyzeFolderStructure_unfold (dir base : string) (d : nat)
      (name : string) (es : list Entry) :
  analyzeFolderStructure dir base d (DirEntry name (Some es))
  = if includes "node_modules" dir || includes "_generated" dir
       || includes ".git" dir
    then []
    else (match truthyString
                  (Some (stripLeadingSeparator (removeFirst base dir))) with
          | Some _ =>
              [folderAnalysisOf (stripLeadingSeparator (removeFirst base dir))
                                d es]
          | None => []
          end ++ subDirResults dir base d es)%list.
Proof.
  cbn [analyzeFolderStructure].
  destruct (includes "node_modules" dir || includes "_generated" dir
            || includes ".git" dir); [reflexivity|].
  f_equal. unfold subDirResults.
  induction es as [|e es IH]; [reflexivity|].
  cbn [flat_map]. destruct e; rewrite <- IH; reflexivity.
Qed.

Lemma walk_unfold (pattern : regex) (ignore : list regex) (cur name : string)
      (es : list Entry) :
  walk pattern ignore cur (DirEntry name (Some es))
  = walkEntries pattern ignore cur es.
Proof.
  cbn [walk]. unfold walkEntries.
  induction es as [|e es IH]; [reflexivity|].
  cbn [flat_map]. rewrite <- IH. reflexivity.
Qed.

Lemma analyze_reported (base : string) (e : Entry) :
  plainTree e = true ->
  forall (suffix : string) (d : nat),
    countChar "/" suffix = d ->
    (suffix = "" \/ exists r, suffix = String "/" r) ->
    forall f, In f (analyzeFolderStructure (base ++ suffix) base d e) ->
      folder_path f <> ""
      /\ depth f = S (countChar "/" (folder_path f))
      /\ includes "node_modules" (base ++ "/" ++ folder_path f) = false
      /\ includes "_generated" (base ++ "/" ++ folder_path f) = false
      /\ includes ".git" (base ++ "/" ++ folder_path f) = false.
Proof.
  induction e as [name | name | name | name es IH] using Entry_induction;
    intros Hplain suffix d Hc Hs f Hin; try contradiction.
  rewrite analyzeFolderStructure_unfold in Hin.
  destruct (includes "node_modules" (base ++ suffix)
            || includes "_generated" (base ++ suffix)
            || includes ".git" (base ++ suffix)) eqn:Hig; [contradiction|].
  apply in_app_or in Hin as [Hin | Hin].
  - rewrite removeFirst_prefix in Hin.
    destruct Hs as [-> | [r ->]]; [contradiction|].
    cbn [stripLeadingSeparator] in Hin.
    change (Ascii.eqb "/" "/" || Ascii.eqb "/" "092") with true in Hin.
    cbv iota in Hin.
    destruct r as [|x r]; [contradiction|]. cbn [truthyString] in Hin.
    destruct Hin as [<- | []]. cbn [folderAnalysisOf folder_path depth].
    apply orb_false_iff in Hig as [Hig H3].
    apply orb_false_iff in Hig as [H1 H2].
    split; [discriminate|]. split; [|repeat split; assumption].
    rewrite <- Hc. cbn [countChar]. rewrite Ascii.eqb_refl. reflexivity.
  - unfold subDirResults in Hin. apply in_flat_map in Hin as (e' & He' & Hin).
    destruct e' as [|name' l'|]; try contradiction.
    rewrite Forall_forall in IH.
    cbn [plainTree] in Hplain. rewrite forallb_forall in Hplain.
    specialize (Hplain _ He'). apply andb_true_iff in Hplain as [Hn Ht].
    cbn [entryName] in Hn. unfold plainName in Hn.
    apply andb_true_iff in Hn as [_ Hn].
    unfold pathJoin in Hin. rewrite append_assoc in Hin.
    apply (IH _ He' Ht (suffix ++ "/" ++ name') (S d)); [| |exact Hin].
    + rewrite countChar_append, Hc. cbn [append countChar].
      rewrite Ascii.eqb_refl, (lacks_countChar _ _ Hn). lia.
    + right. destruct Hs as [-> | [r ->]].
      * exists name'. reflexivity.
      * exists (r ++ "/" ++ name'). reflexivity.
Qed.

(** X13. The folder walk, started at its base path, never reports the
    base folder itself.  For a folder it reports, the depth is at least 1
    and equals the number of separators in the reported relative path plus
    one, and the path of the folder includes neither [node_modules] nor
    [_generated] nor [.git]. *)
Theorem analyzeFolderStructure_paths (base : string) (root : Entry)
        (f : FolderAnalysis) :
  plainTree root = true ->
  In f (analyzeFolderStructure base base 0 root) ->
  folder_path f <> ""
  /\ 1 <= depth f
  /\ depth f = S (countChar "/" (folder_path f))
  /\ includes "node_modules" (base ++ "/" ++ folder_path f) = false
  /\ includes "_generated" (base ++ "/" ++ folder_path f) = false
  /\ includes ".git" (base ++ "/" ++ folder_path f) = false.
Proof.
  intros Hplain Hin.
  rewrite <- (append_empty_r base) in Hin at 1.
  destruct (analyze_reported base root Hplain "" 0 eq_refl (or_introl eq_refl)
              f Hin) as (H1 & H2 & H3).
  split; [exact H1|]. split; [lia|]. split; assumption.
Qed.

Lemma analyzeFolderStructure_paths_witness :
  let f := mkFolderAnalysis "features/chat" 2 3 false false in
  folder_path f <> ""
  /\ 1 <= depth f
  /\ depth f = S (countChar "/" (folder_path f))
  /\ includes "node_modules" (webSrcPath "/repo" ++ "/" ++ folder_path f) = false
  /\ includes "_generated" (webSrcPath "/repo" ++ "/" ++ folder_path f) = false
  /\ includes ".git" (webSrcPath "/repo" ++ "/" ++ folder_path f) = false.
Proof.
  apply (analyzeFolderStructure_paths (webSrcPath "/repo") sampleTree).
  - reflexivity.
  - vm_compute. right. left. reflexivity.
Defined.

Lemma ignored_none (p : string) :
  existsb (fun re => test re p) ignorePatterns = false ->
  Forall (fun ig => includes ig p = false) ignoredTexts.
Proof.
  unfold ignorePatterns, ignoredTexts. cbn [existsb].
  rewrite !test_lit, !orb_false_iff.
  intros (H1 & H2 & H3 & H4 & H5 & _).
  repeat constructor; assumption.
Qed.

Lemma walk_found (e : Entry) : forall (cur p : string),
  In p (walk re_sourceFile ignorePatterns cur e) ->
  (exists rest, p = cur ++ "/" ++ rest)
  /\ (endsWith ".ts" p = true \/ endsWith ".tsx" p = true)
  /\ Forall (fun ig => includes ig p = false) ignoredTexts.
Proof.
  induction e as [name | name | name | name es IH] using Entry_induction;
    intros cur p Hin; try contradiction.
  rewrite walk_unfold in Hin. unfold walkEntries in Hin.
  apply in_flat_map in Hin as (e' & He' & Hin). cbv zeta in Hin.
  destruct (existsb (fun re => test re (pathJoin cur (entryName e')))
                    ignorePatterns) eqn:Hig; [contradiction|].
  destruct e' as [name' | name' l' | name']; cbn [entryName] in *.
  - destruct (testToEnd re_sourceFile name') eqn:Hm; [|contradiction].
    destruct Hin as [<- | []]. split; [exists name'; reflexivity|].
    split; [|apply ignored_none; exact Hig].
    unfold pathJoin.
    destruct (testToEnd_sourceFile name' Hm) as [H | H]; [left | right];
      rewrite <- append_assoc; apply endsWith_append; exact H.
  - rewrite Forall_forall in IH.
    destruct (IH _ He' _ _ Hin) as ((rest & ->) & Hends & Hno).
    split; [|split; assumption].
    exists (name' ++ "/" ++ rest). unfold pathJoin.
    rewrite !append_assoc. reflexivity.
  - contradiction.
Qed.

(** X14. Every file [findFiles] hands to the complexity check lies
    below the directory searched, has a path that ends with [.ts] or
    [.tsx], and a path that includes none of the ignored texts
    ([node_modules], [_generated], [.test.], [.spec.], [routeTree.gen]).
    As the texts are looked for in the whole path, a search directory whose
    own path includes one of them yields no file at all. *)
Theorem findFiles_sound (dir : string) (tree : Entry) :
  (forall p, In p (findFiles dir re_sourceFile ignorePatterns tree) ->
     (exists rest, p = dir ++ "/" ++ rest)
     /\ (endsWith ".ts" p = true \/ endsWith ".tsx" p = true)
     /\ Forall (fun ig => includes ig p = false) ignoredTexts)
  /\ (forall ig, In ig ignoredTexts -> includes ig dir = true ->
      findFiles dir re_sourceFile ignorePatterns tree = []).
Proof.
  split; [intros p Hin; apply (walk_found tree dir p Hin)|].
  intros ig Hig Hdir.
  destruct (findFiles dir re_sourceFile ignorePatterns tree) as [|p ps] eqn:E;
    [reflexivity|].
  exfalso.
  assert (Hin : In p (findFiles dir re_sourceFile ignorePatterns tree))
    by (rewrite E; left; reflexivity).
  destruct (walk_found tree dir p Hin) as ((rest & ->) & _ & Hno).
  rewrite Forall_forall in Hno. specialize (Hno ig Hig).
  rewrite (includes_append_l ig dir _ Hdir) in Hno. discriminate.
Qed.

Example findFiles_sample :
  findFiles (webSrcPath "/repo") re_sourceFile ignorePatterns sampleTree
  = ["/repo/apps/web/src/main.tsx"; "/repo/apps/web/src/env.d.ts";
     "/repo/apps/web/src/features/chat/Chat.tsx";
     "/repo/apps/web/src/features/chat/useChat.ts"].
Proof. vm_compute. reflexivity. Qed.

(** ** Markdown report: the action items *)

Lemma check_names (w : World) :
  map name (runChecks w)
  = ["Linting (oxlint)"; "Import & Complexity (ESLint)"; "Dead Code (knip)";
     "Duplicate Code (jscpd)"; "Dependency Graph (madge)"; "TypeScript Types";
     "Complexity Analysis"; "Architecture Boundaries"; "Structure Analysis"].
Proof.
  unfold runChecks, checkJscpd, checkMadge, checkArchitecture.
  destruct (isQuick w); [reflexivity|].
  destruct (configExists w); reflexivity.
Qed.

Lemma findCheck_run (w : World) :
  let r := mainReport w in
  findCheck "knip" r = Some (knipOf w)
  /\ findCheck "jscpd" r = Some (jscpdOf w)
  /\ findCheck "madge" r = Some (madgeOf w)
  /\ findCheck "Complexity" r = Some (eslintOf w)
  /\ findCheck "Architecture" r = Some (architectureOf w)
  /\ findCheck "Structure" r = Some (structureOf w).
Proof.
  unfold findCheck, mainReport, buildReport, runChecks, knipOf, jscpdOf,
    madgeOf, eslintOf, architectureOf, structureOf, checkJscpd, checkMadge,
    checkArchitecture.
  cbn [checks].
  destruct (isQuick w); [repeat split|].
  destruct (configExists w); repeat split.
Qed.

Lemma actionState_run (w : World) :
  actionState (mainReport w)
  = circularItems
      (deadCodeItems
         (duplicateItems
            (architectureItems
               (structureItems
                  (complexityItems ([], 1) (Some (eslintOf w)))
                  (Some (structureOf w)))
               (Some (architectureOf w)))
            (Some (jscpdOf w)))
         (Some (knipOf w)))
      (Some (madgeOf w)).
Proof.
  destruct (findCheck_run w) as (H1 & H2 & H3 & H4 & H5 & H6).
  unfold actionState. cbv zeta. rewrite H1, H2, H3, H4, H5, H6. reflexivity.
Qed.

(** X15. In a run, the check the action items call [complexityCheck] is
    the first check whose name includes "Complexity", which is the ESLint
    check ("Import & Complexity (ESLint)"), not the complexity check.  The
    action items therefore do not depend on the source files: whatever the
    complexity check analyses and reports, the items are the same. *)
Theorem actionItems_ignore_complexity_check (w : World) (cwd' : string)
        (files : list (string * option string)) :
  findCheck "Complexity" (mainReport w) = Some (eslintOf w)
  /\ name (eslintOf w) = "Import & Complexity (ESLint)"
  /\ actionItems (mainReport (withSources w cwd' files))
     = actionItems (mainReport w).
Proof.
  split; [apply (findCheck_run w)|]. split; [reflexivity|].
  unfold actionItems. rewrite !actionState_run. reflexivity.
Qed.

Lemma pushItem_numbered (st : ActionState) (headline : nat -> string)
      (details : list string) :
  numberedFromOne st ->
  (exists t, headline 1 = String "1" t) ->
  numberedFromOne (pushItem st headline details)
  /\ pushItem st headline details <> ([], 1).
Proof.
  intros Hst [t Ht]. split.
  - right. destruct Hst as [-> | (Hp & t' & rest & Hf)].
    + cbn. split; [lia|]. rewrite Ht. eauto.
    + unfold pushItem. cbn [fst snd List.concat]. split; [lia|].
      rewrite Hf. cbn [app]. eauto.
  - unfold pushItem. intros E. injection E as _ E.
    destruct Hst as [-> | (Hp & _)]; [discriminate | lia].
Qed.

Lemma cond_push (st : ActionState) (c : bool) (headline : nat -> string)
      (details : list string) :
  numberedFromOne st ->
  (exists t, headline 1 = String "1" t) ->
  let st' := if c then pushItem st headline details else st in
  numberedFromOne st' /\ (st' = ([], 1) <-> st = ([], 1) /\ c = false).
Proof.
  intros Hst Hh. cbv zeta. destruct c.
  - destruct (pushItem_numbered st headline details Hst Hh) as [H1 H2].
    split; [exact H1|]. split; [contradiction | intros [_ H]; discriminate H].
  - split; [exact Hst|]. split; [auto | intros [H _]; exact H].
Qed.

Ltac headline_one := eexists; cbv beta; change (showNat 1) with "1"; reflexivity.

Lemma empty_iff {X : Type} (l : list X) : (0 <? length l) = false <-> l = [].
Proof. destruct l; cbn; split; congruence. Qed.

Ltac cond_step HN Hnum Hiff :=
  match goal with
  | |- context [if ?c then pushItem ?s ?h ?d else ?s] =>
      destruct (cond_push s c h d HN ltac:(headline_one)) as [Hnum Hiff]
  end.

Lemma complexityItems_quiet (st : ActionState) (c : CheckResult) :
  numberedFromOne st ->
  numberedFromOne (complexityItems st (Some c))
  /\ (complexityItems st (Some c) = ([], 1) <->
      st = ([], 1)
      /\ filter (fun i => ruleIs "complexity/file-size" i && typeIs error i)
                (issues c) = []
      /\ filter (fun i => ruleIs "complexity/too-many-hooks" i && typeIs error i)
                (issues c) = []).
Proof.
  intros Hst. unfold complexityItems. cbv zeta.
  set (l1 := filter _ (issues c)). set (l2 := filter _ (issues c)).
  unfold complexComponentsItem.
  set (s1 := oversizedItem st l1).
  assert (H1 : numberedFromOne s1 /\ (s1 = ([], 1) <-> st = ([], 1) /\ l1 = [])).
  { subst s1. unfold oversizedItem. cond_step Hst Hn He.
    split; [exact Hn|]. rewrite He, empty_iff. reflexivity. }
  destruct H1 as [N1 E1]. cond_step N1 Hn2 He2.
  split; [exact Hn2|]. rewrite He2, E1, empty_iff. tauto.
Qed.

Lemma structureItems_quiet (st : ActionState) (c : CheckResult) :
  numberedFromOne st ->
  numberedFromOne (structureItems st (Some c))
  /\ (structureItems st (Some c) = ([], 1) <->
      st = ([], 1)
      /\ filter (ruleIs "structure/crowded-folder") (issues c) = []).
Proof.
  intros Hst. unfold structureItems. cbv zeta. cond_step Hst Hn He.
  split; [exact Hn|]. rewrite He, empty_iff. reflexivity.
Qed.

Lemma architectureItems_quiet (st : ActionState) (c : CheckResult) :
  numberedFromOne st ->
  numberedFromOne (architectureItems st (Some c))
  /\ (architectureItems st (Some c) = ([], 1) <->
      st = ([], 1) /\ filter (typeIs error) (issues c) = []).
Proof.
  intros Hst. unfold architectureItems. cbv zeta. cond_step Hst Hn He.
  split; [exact Hn|]. rewrite He, empty_iff. reflexivity.
Qed.

Lemma duplicateItems_quiet (st : ActionState) (c : CheckResult) :
  numberedFromOne st ->
  numberedFromOne (duplicateItems st (Some c))
  /\ (duplicateItems st (Some c) = ([], 1) <->
      st = ([], 1) /\ filter (typeIs warning) (issues c) = []).
Proof.
  intros Hst. unfold duplicateItems. cbv zeta. cond_step Hst Hn He.
  split; [exact Hn|]. rewrite He, empty_iff. reflexivity.
Qed.

Lemma circularItems_quiet (st : ActionState) (c : CheckResult) :
  numberedFromOne st ->
  numberedFromOne (circularItems st (Some c))
  /\ (circularItems st (Some c) = ([], 1) <->
      st = ([], 1) /\ filter (ruleIs "madge/circular") (issues c) = []).
Proof.
  intros Hst. unfold circularItems. cond_step Hst Hn He.
  split; [exact Hn|]. rewrite He, empty_iff. reflexivity.
Qed.

Lemma deadCodeItems_quiet (st : ActionState) (c : CheckResult) :
  numberedFromOne st ->
  numberedFromOne (deadCodeItems st (Some c))
  /\ (deadCodeItems st (Some c) = ([], 1) <->
      st = ([], 1)
      /\ filter (ruleIs "knip/unused-file") (issues c) = []
      /\ length (filter (ruleIncludes "unused-export") (issues c)) <= 10).
Proof.
  intros Hst. unfold deadCodeItems.
  destruct (issues c) as [|i rest] eqn:Hi.
  - cbn. split; [exact Hst|]. split; [intros ->; repeat split; lia | tauto].
  - rewrite <- Hi. replace (0 <? length (issues c)) with true
      by (rewrite Hi; reflexivity).
    cbv zeta.
    set (l1 := filter (ruleIs "knip/unused-file") (issues c)).
    set (l2 := filter (ruleIncludes "unused-export") (issues c)).
    set (s1 := if 0 <? length l1 then _ else st).
    assert (H1 : numberedFromOne s1
                 /\ (s1 = ([], 1) <-> st = ([], 1) /\ l1 = [])).
    { subst s1. cond_step Hst Hn He.
      split; [exact Hn|]. rewrite He, empty_iff. reflexivity. }
    destruct H1 as [N1 E1]. cond_step N1 Hn2 He2.
    split; [exact Hn2|]. rewrite He2, E1, Nat.ltb_ge. tauto.
Qed.

Lemma actionState_quiet (w : World) :
  numberedFromOne (actionState (mainReport w))
  /\ (actionState (mainReport w) = ([], 1) <-> nothingToAct w).
Proof.
  rewrite actionState_run. unfold nothingToAct.
  assert (N0 : numberedFromOne ([], 1)) by (left; reflexivity).
  destruct (complexityItems_quiet _ (eslintOf w) N0) as [N1 E1].
  destruct (structureItems_quiet _ (structureOf w) N1) as [N2 E2].
  destruct (architectureItems_quiet _ (architectureOf w) N2) as [N3 E3].
  destruct (duplicateItems_quiet _ (jscpdOf w) N3) as [N4 E4].
  destruct (deadCodeItems_quiet _ (knipOf w) N4) as [N5 E5].
  destruct (circularItems_quiet _ (madgeOf w) N5) as [N6 E6].
  split; [exact N6|]. rewrite E6, E5, E4, E3, E2, E1. tauto.
Qed.

(** X16. The action items of a run are exactly the line "No critical
    issues found!" and an empty line when, and only when, no group has
    anything to show: ESLint reports no error with the rule
    [complexity/file-size] or [complexity/too-many-hooks], the structure
    check no crowded folder, the architecture check no error, the
    duplicate-code check no warning, knip no unused file and at most 10
    unused exports, madge no cycle.  Errors of oxlint, of TypeScript, of the
    complexity check and all other ESLint errors play no role, so a run that
    exits with code 1 can print the line. *)
Theorem no_critical_issues_line (w : World) :
  actionItems (mainReport w) = [noCriticalLine; ""] <-> nothingToAct w.
Proof.
  destruct (actionState_quiet w) as [Hn Hq]. rewrite <- Hq.
  unfold actionItems. cbv zeta.
  destruct Hn as [-> | (Hp & t & rest & Hf)].
  - split; reflexivity.
  - split.
    + destruct (Nat.eqb_spec (snd (actionState (mainReport w))) 1); [lia|].
      cbn [List.concat]. rewrite Hf. cbn [app]. intros E. exfalso.
      injection E as E _. discriminate E.
    + intros E. rewrite E in Hp. cbn in Hp. lia.
Qed.

Example failing_run_without_critical_issue :
  exitCode (mainReport typeErrorWorld) = 1
  /\ actionItems (mainReport typeErrorWorld) = [noCriticalLine; ""].
Proof. vm_compute. split; reflexivity. Qed.

Lemma flat_map_length_le {X Y : Type} (f : X -> list Y) (k : nat) (l : list X) :
  (forall x, length (f x) <= k) -> length (flat_map f l) <= k * length l.
Proof.
  intros H. induction l as [|x l IH]; cbn [flat_map length]; [lia|].
  rewrite length_app. specialize (H x). lia.
Qed.

Lemma issueBullet_length (i : Issue) : length (issueBullet i) <= 2.
Proof. unfold issueBullet. destruct (truthyString (fix_ i)); cbn; lia. Qed.

Lemma infoBullet_length (i : Issue) : length (infoBullet i) <= 2.
Proof. unfold infoBullet. destruct (truthyString (fix_ i)); cbn; lia. Qed.

Lemma errorBlock_length (l : list Issue) : length (errorBlock l) <= 44.
Proof.
  unfold errorBlock. destruct (0 <? length l); [|cbn; lia].
  cbn [List.concat]. rewrite !length_app.
  pose proof (flat_map_length_le issueBullet 2 (firstn 20 l) issueBullet_length).
  pose proof (firstn_le_length 20 l). rewrite length_firstn in *.
  destruct (20 <? length l); cbn [length]; lia.
Qed.

Lemma warningBlock_length (l : list Issue) : length (warningBlock l) <= 44.
Proof.
  unfold warningBlock. destruct (0 <? length l); [|cbn; lia].
  cbn [List.concat]. rewrite !length_app.
  pose proof (flat_map_length_le issueBullet 2 (firstn 20 l) issueBullet_length).
  rewrite length_firstn in *.
  destruct (20 <? length l); cbn [length]; lia.
Qed.

Lemma infoBlock_length (l : list Issue) : length (infoBlock l) <= 23.
Proof.
  unfold infoBlock.
  destruct (Nat.leb_spec (length l) 10); rewrite ?andb_true_r, ?andb_false_r.
  - destruct (0 <? length l).
    + cbn [List.concat]. rewrite !length_app.
      pose proof (flat_map_length_le infoBullet 2 l infoBullet_length).
      cbn [length]. lia.
    + destruct (10 <? length l); cbn; lia.
  - destruct (10 <? length l); cbn; lia.
Qed.

Lemma checkDetail_length (c : CheckResult) :
  length (checkDetail c) <= 113
  /\ (issues c = [] -> checkDetail c = []).
Proof.
  unfold checkDetail. split.
  - destruct (length (issues c) =? 0); [cbn; lia|].
    cbn [List.concat]. rewrite !length_app.
    pose proof (errorBlock_length (filter (typeIs error) (issues c))).
    pose proof (warningBlock_length (filter (typeIs warning) (issues c))).
    pose proof (infoBlock_length (filter (typeIs info) (issues c))).
    cbn [length]. lia.
  - intros ->. reflexivity.
Qed.

Lemma pushItem_length (st : ActionState) (h : nat -> string)
      (d : list string) :
  length (fst (pushItem st h d)) = length (fst st) + 2 + length d.
Proof.
  unfold pushItem. cbn [fst List.concat]. rewrite !length_app. cbn [length]. lia.
Qed.

Lemma complexityItems_length (st : ActionState) (o : option CheckResult) :
  length (fst (complexityItems st o)) <= length (fst st) + 18.
Proof.
  destruct o as [c|]; [|cbn; lia]. unfold complexityItems. cbv zeta.
  set (l1 := filter _ (issues c)). set (l2 := filter _ (issues c)).
  assert (H1 : length (fst (oversizedItem st l1)) <= length (fst st) + 7).
  { unfold oversizedItem. destruct (0 <? length l1); [|lia].
    rewrite pushItem_length, length_map, length_firstn. lia. }
  unfold complexComponentsItem. destruct (0 <? length l2); [|lia].
  rewrite pushItem_length.
  match goal with
  | |- context [flat_map ?f ?l] =>
      pose proof (flat_map_length_le f 3 l ltac:(intros; cbn; lia)) as H2
  end.
  rewrite length_firstn in H2. lia.
Qed.

Lemma structureItems_length (st : ActionState) (o : option CheckResult) :
  length (fst (structureItems st o)) <= length (fst st) + 5.
Proof.
  destruct o as [c|]; [|cbn; lia]. unfold structureItems. cbv zeta.
  destruct (0 <? length _); [|lia].
  rewrite pushItem_length, length_map, length_firstn. lia.
Qed.

Lemma architectureItems_length (st : ActionState) (o : option CheckResult) :
  length (fst (architectureItems st o)) <= length (fst st) + 8.
Proof.
  destruct o as [c|]; [|cbn; lia]. unfold architectureItems. cbv zeta.
  destruct (0 <? length _); [|lia].
  rewrite pushItem_length.
  match goal with
  | |- context [flat_map ?f ?l] =>
      pose proof (flat_map_length_le f 2 l
                    ltac:(intros v; cbv beta; destruct (truthyString (fix_ v));
                           cbn [length]; lia))
        as H2
  end.
  rewrite length_firstn in H2. lia.
Qed.

Lemma duplicateItems_length (st : ActionState) (o : option CheckResult) :
  length (fst (duplicateItems st o)) <= length (fst st) + 3.
Proof.
  destruct o as [c|]; [|cbn; lia]. unfold duplicateItems. cbv zeta.
  destruct (0 <? length _); [|lia].
  rewrite pushItem_length. cbn [length]. lia.
Qed.

Lemma deadCodeItems_length (st : ActionState) (o : option CheckResult) :
  length (fst (deadCodeItems st o)) <= length (fst st) + 9.
Proof.
  destruct o as [c|]; [|cbn; lia]. unfold deadCodeItems.
  destruct (0 <? length (issues c)); [|lia]. cbv zeta.
  set (l1 := filter (ruleIs "knip/unused-file") (issues c)).
  set (l2 := filter (ruleIncludes "unused-export") (issues c)).
  set (s1 := if 0 <? length l1 then _ else st).
  assert (H1 : length (fst s1) <= length (fst st) + 7).
  { subst s1. destruct (0 <? length l1); [|lia].
    rewrite pushItem_length, length_map, length_firstn. lia. }
  destruct (10 <? length l2); [|lia].
  rewrite pushItem_length. cbn [length]. lia.
Qed.

Lemma circularItems_length (st : ActionState) (o : option CheckResult) :
  length (fst (circularItems st o)) <= length (fst st) + 2.
Proof.
  destruct o as [c|]; [|cbn; lia]. unfold circularItems.
  destruct (0 <? length _); [|lia].
  rewrite pushItem_length. cbn [length]. lia.
Qed.

Lemma actionState_length (report : HealthReport) :
  length (fst (actionState report)) <= 45.
Proof.
  unfold actionState. cbv zeta.
  pose proof (complexityItems_length ([], 1) (findCheck "Complexity" report)) as H1.
  pose proof (structureItems_length
                (complexityItems ([], 1) (findCheck "Complexity" report))
                (findCheck "Structure" report)) as H2.
  pose proof (architectureItems_length
                (structureItems
                   (complexityItems ([], 1) (findCheck "Complexity" report))
                   (findCheck "Structure" report))
                (findCheck "Architecture" report)) as H3.
  match goal with
  | |- context [circularItems (deadCodeItems (duplicateItems ?s3 ?o4) ?o5) ?o6] =>
      pose proof (duplicateItems_length s3 o4) as H4;
      pose proof (deadCodeItems_length (duplicateItems s3 o4) o5) as H5;
      pose proof (circularItems_length
                    (deadCodeItems (duplicateItems s3 o4) o5) o6) as H6
  end.
  cbn [fst length] in H1. lia.
Qed.

Lemma actionState_counter (report : HealthReport) :
  snd (actionState report) = 1 -> fst (actionState report) = [].
Proof.
  assert (C : forall st (c : bool) h d,
             (snd st = 1 -> fst st = []) -> 1 <= snd st ->
             let st' := if c then pushItem st h d else st in
             (snd st' = 1 -> fst st' = []) /\ 1 <= snd st').
  { intros st c h d H1 H2. destruct c; cbn [pushItem snd]; split; auto; lia. }
  unfold actionState. cbv zeta.
  set (s0 := (([] : list string), 1)).
  assert (I0 : (snd s0 = 1 -> fst s0 = []) /\ 1 <= snd s0) by (cbn; auto).
  assert (I1 : forall st o, (snd st = 1 -> fst st = []) /\ 1 <= snd st ->
               (snd (complexityItems st o) = 1 -> fst (complexityItems st o) = [])
               /\ 1 <= snd (complexityItems st o)).
  { intros st [c|] [Ha Hb]; [|cbn; auto]. unfold complexityItems. cbv zeta.
    unfold complexComponentsItem, oversizedItem.
    apply C; apply C; assumption. }
  assert (I2 : forall st o, (snd st = 1 -> fst st = []) /\ 1 <= snd st ->
               (snd (structureItems st o) = 1 -> fst (structureItems st o) = [])
               /\ 1 <= snd (structureItems st o)).
  { intros st [c|] [Ha Hb]; [|cbn; auto]. unfold structureItems. cbv zeta.
    apply C; assumption. }
  assert (I3 : forall st o, (snd st = 1 -> fst st = []) /\ 1 <= snd st ->
               (snd (architectureItems st o) = 1
                -> fst (architectureItems st o) = [])
               /\ 1 <= snd (architectureItems st o)).
  { intros st [c|] [Ha Hb]; [|cbn; auto]. unfold architectureItems. cbv zeta.
    apply C; assumption. }
  assert (I4 : forall st o, (snd st = 1 -> fst st = []) /\ 1 <= snd st ->
               (snd (duplicateItems st o) = 1 -> fst (duplicateItems st o) = [])
               /\ 1 <= snd (duplicateItems st o)).
  { intros st [c|] [Ha Hb]; [|cbn; auto]. unfold duplicateItems. cbv zeta.
    apply C; assumption. }
  assert (I5 : forall st o, (snd st = 1 -> fst st = []) /\ 1 <= snd st ->
               (snd (deadCodeItems st o) = 1 -> fst (deadCodeItems st o) = [])
               /\ 1 <= snd (deadCodeItems st o)).
  { intros st [c|] [Ha Hb]; [|cbn; auto]. unfold deadCodeItems.
    destruct (0 <? length (issues c)); [|auto]. cbv zeta.
    apply C; apply C; assumption. }
  assert (I6 : forall st o, (snd st = 1 -> fst st = []) /\ 1 <= snd st ->
               (snd (circularItems st o) = 1 -> fst (circularItems st o) = [])
               /\ 1 <= snd (circularItems st o)).
  { intros st [c|] [Ha Hb]; [|cbn; auto]. unfold circularItems.
    apply C; assumption. }
  apply I6, I5, I4, I3, I2, I1, I0.
Qed.

Lemma actionItems_length (report : HealthReport) :
  length (actionItems report) <= 45.
Proof.
  unfold actionItems. cbv zeta. cbn [List.concat]. rewrite app_nil_r, length_app.
  pose proof (actionState_length report) as H.
  destruct (Nat.eqb_spec (snd (actionState report)) 1) as [E|E].
  - rewrite (actionState_counter report E). cbn. lia.
  - cbn [length]. lia.
Qed.

(** Joining entries with line feeds gives one line per entry and one
    more per line feed inside an entry. *)
Lemma concat_line_feeds (entries : list string) :
  entries <> [] ->
  S (countChar "010" (String.concat (String "010" "") entries))
  = length entries + embeddedLineFeeds entries.
Proof.
  unfold embeddedLineFeeds.
  induction entries as [|x [|y l] IH]; intros Hne.
  - contradiction.
  - cbn. lia.
  - assert (Hy : y :: l <> []) by discriminate. specialize (IH Hy).
    change (String.concat (String "010" "") (x :: y :: l))
      with (x ++ String "010" "" ++ String.concat (String "010" "") (y :: l)).
    rewrite !countChar_append.
    change (countChar "010" (String "010" "")) with 1.
    cbn [map list_sum fold_right length] in *. lia.
Qed.

Lemma markdownLines_nonempty (toFixed1 : nat -> string) (JSON_FILE : string)
      (report : HealthReport) :
  markdownLines toFixed1 JSON_FILE report <> [].
Proof. unfold markdownLines. cbn [List.concat app]. discriminate. Qed.

(** X17. The array that [generateMarkdownReport] joins is bounded whatever
    the number of issues: the detail section of a check adds at most 113
    entries (20 errors and 20 warnings at most are listed, infos only up
    to 10), the action items at most 45, the whole array has at most 68
    entries plus 114 per check, which is 1094 for a run.  The report text
    has one line per entry and one more for every line feed that stands
    inside an entry (in a message, path, rule, fix, name or summary), so
    the bound is one on entries; it bounds the lines of the text as far
    as these texts hold no line feed. *)
Theorem markdown_bounded (toFixed1 : nat -> string) (JSON_FILE : string)
        (report : HealthReport) (w : World) :
  (forall c, length (checkDetail c) <= 113)
  /\ length (actionItems report) <= 45
  /\ length (markdownLines toFixed1 JSON_FILE report)
     <= 68 + 114 * length (checks report)
  /\ length (markdownLines toFixed1 JSON_FILE (mainReport w)) <= 1094
  /\ length (splitLines (generateMarkdownReport toFixed1 JSON_FILE report))
     = length (markdownLines toFixed1 JSON_FILE report)
       + embeddedLineFeeds (markdownLines toFixed1 JSON_FILE report).
Proof.
  assert (B : forall r, length (markdownLines toFixed1 JSON_FILE r)
                        <= 68 + 114 * length (checks r)).
  { intros r. unfold markdownLines. cbn [List.concat].
    rewrite !length_app, length_map.
    pose proof (flat_map_length_le checkDetail 113 (checks r)
                  (fun c => proj1 (checkDetail_length c))).
    pose proof (actionItems_length r). cbn [length]. lia. }
  split; [intros c; apply checkDetail_length|].
  split; [apply actionItems_length|].
  split; [apply B|]. split.
  - specialize (B (mainReport w)).
    assert (L : length (checks (mainReport w)) = 9) by reflexivity.
    rewrite L in B. exact B.
  - rewrite splitLines_length. unfold generateMarkdownReport.
    apply concat_line_feeds. apply markdownLines_nonempty.
Qed.

(** A message of two lines gives one entry and two lines of text. *)
Example markdown_message_with_line_feed :
  length (markdownLines (fun _ => "0.0") "report.json" twoLineReport) = 32
  /\ length (splitLines (generateMarkdownReport (fun _ => "0.0") "report.json"
                                                 twoLineReport)) = 33.
Proof. vm_compute. split; reflexivity. Qed.

(** ** Patterns that start with an opening angle bracket *)

Lemma matchAt_first_char (c : ascii) (r : regex) (prev : option ascii)
      (s : string) :
  head s <> Some c -> matchAt (Seq (chr c) r) prev s = None.
Proof.
  intros H. unfold matchAt. cbn [rmatch chr].
  destruct s as [|x s]; [reflexivity|].
  destruct (Ascii.eqb_spec c x) as [->|]; [|reflexivity].
  exfalso. apply H. reflexivity.
Qed.

Lemma lacks_head (c : ascii) (s : string) :
  lacks c s = true -> head s <> Some c.
Proof.
  destruct s as [|x s]; cbn; [discriminate|].
  intros H E. injection E as ->. rewrite Ascii.eqb_refl in H. discriminate.
Qed.

Lemma lacks_tail (c x : ascii) (s : string) :
  lacks c (String x s) = true -> lacks c s = true.
Proof. cbn. intros H. apply andb_true_iff in H as [_ H]. exact H. Qed.

Lemma test_first_char (c : ascii) (r : regex) (s : string) :
  lacks c s = true -> test (Seq (chr c) r) s = false.
Proof.
  unfold test, exec. generalize (@None ascii).
  induction s as [|x s IH]; intros prev H; cbn [execFrom];
    rewrite (matchAt_first_char c r prev _ (lacks_head c _ H)).
  - reflexivity.
  - apply IH. exact (lacks_tail c x s H).
Qed.

Lemma countFrom_first_char (c : ascii) (r : regex) (fuel : nat) :
  forall (prev : option ascii) (s : string),
    lacks c s = true -> countFrom fuel (Seq (chr c) r) prev s = 0.
Proof.
  induction fuel as [|fuel IH]; intros prev s H; [reflexivity|].
  cbn [countFrom]. rewrite (matchAt_first_char c r prev _ (lacks_head c _ H)).
  destruct s as [|x s]; [reflexivity|].
  apply IH. exact (lacks_tail c x s H).
Qed.

(** X18. A text without the character [<] raises neither of the two
    flags that look for markup: it is never classified as mixing business
    logic with rendering, however many conditions and [.map(] calls it has,
    nor as deeply nested. *)
Theorem no_angle_bracket_no_markup_flag (filePath content : string) :
  lacks "<" content = true ->
  detectMixedConcerns content = false
  /\ mixedConcerns (patterns (analyzeContent filePath content)) = false
  /\ deepJsxNesting (patterns (analyzeContent filePath content)) = false.
Proof.
  intros H.
  assert (M : detectMixedConcerns content = false).
  { unfold detectMixedConcerns. cbv zeta.
    unfold re_jsx, seqs. cbn [fold_right].
    rewrite (test_first_char "<" _ content H). reflexivity. }
  split; [exact M|]. split; [exact M|].
  cbn [analyzeContent patterns deepJsxNesting].
  unfold matchCount, re_nestedJsx, seqs. cbn [fold_right].
  rewrite (countFrom_first_char "<" _ _ None content H). reflexivity.
Qed.

Lemma no_angle_bracket_no_markup_flag_witness :
  detectMixedConcerns "if (a) { b.map(f) }" = false
  /\ mixedConcerns (patterns (analyzeContent "a.ts" "if (a) { b.map(f) }")) = false
  /\ deepJsxNesting (patterns (analyzeContent "a.ts" "if (a) { b.map(f) }")) = false.
Proof.
  apply (no_angle_bracket_no_markup_flag "a.ts" "if (a) { b.map(f) }").
  reflexivity.
Defined.

(** ** Paths of the complexity issues *)

Lemma includes_needs_char (c : ascii) (pat s : string) :
  lacks c s = true -> lacks c pat = false -> includes pat s = false.
Proof.
  intros Hs Hp.
  assert (P : forall x, lacks c x = true -> prefix pat x = false).
  { clear s Hs. induction pat as [|a pat IH]; [discriminate Hp|].
    intros [|b x] Hx; [reflexivity|]. cbn [prefix].
    destruct (ascii_dec a b) as [<-|]; [|reflexivity].
    cbn [lacks] in Hp, Hx. apply andb_true_iff in Hx as [Hab Hx].
    rewrite Hab in Hp. cbn [andb] in Hp. exact (IH Hp x Hx). }
  induction s as [|x s IH]; rewrite includes_unfold, (P _ Hs); [reflexivity|].
  cbn [orb]. apply IH. exact (lacks_tail c x s Hs).
Qed.

Lemma removeFirst_absent (pat s : string) :
  includes pat s = false -> removeFirst pat s = s.
Proof.
  induction s as [|x s IH]; intros H; rewrite includes_unfold in H;
    apply orb_false_iff in H as [Hp H]; rewrite removeFirst_unfold, Hp.
  - reflexivity.
  - rewrite (IH H). reflexivity.
Qed.

(** A path whose segments are not empty holds no doubled slash. *)
Lemma includes_double_slash (n r : string) :
  lacks "/" n = true -> head r <> Some "/"%char ->
  includes "//" r = false ->
  includes "//" (n ++ "/" ++ r) = false.
Proof.
  intros Hn Hr Hi. induction n as [|c n IH]; cbn [append];
    rewrite includes_unfold; cbn [prefix].
  - destruct (ascii_dec "/" "/") as [_|Hd]; [|contradiction].
    rewrite Hi, orb_false_r.
    destruct r as [|b r]; [reflexivity|]. cbn [prefix].
    destruct (ascii_dec "/" b) as [<-|]; [|reflexivity].
    exfalso. apply Hr. reflexivity.
  - cbn [lacks] in Hn. apply andb_true_iff in Hn as [Hc Hn].
    destruct (ascii_dec "/" c) as [<-|].
    + rewrite Ascii.eqb_refl in Hc. discriminate.
    + cbn [orb]. apply IH. exact Hn.
Qed.

Lemma plainName_head (n s : string) :
  plainName n = true -> head (n ++ s) <> Some "/"%char.
Proof.
  unfold plainName. intros H. apply andb_true_iff in H as [Hne Hs].
  destruct n as [|c n]; [discriminate Hne|].
  cbn [append head]. cbn [lacks] in Hs. apply andb_true_iff in Hs as [Hc _].
  intros E. injection E as ->. rewrite Ascii.eqb_refl in Hc. discriminate.
Qed.

Lemma walk_rest (ignore : list regex) (e : Entry) :
  separatorFree e = true ->
  forall (cur p : string), In p (walk re_sourceFile ignore cur e) ->
    exists rest,
      p = cur ++ "/" ++ rest /\ lacks "092" rest = true
      /\ (endsWith ".ts" rest = true \/ endsWith ".tsx" rest = true)
      /\ head rest <> Some "/"%char /\ includes "//" rest = false.
Proof.
  induction e as [name | name | name | name es IH] using Entry_induction;
    intros Hfree cur p Hin; try contradiction.
  rewrite walk_unfold in Hin. unfold walkEntries in Hin.
  apply in_flat_map in Hin as (e' & He' & Hin). cbv zeta in Hin.
  cbn [separatorFree] in Hfree. rewrite forallb_forall in Hfree.
  specialize (Hfree _ He'). apply andb_true_iff in Hfree as [Hn Hf].
  apply andb_true_iff in Hn as [Hp Hn].
  assert (Hs : lacks "/" (entryName e') = true)
    by (unfold plainName in Hp; apply andb_true_iff in Hp as [_ Hp];
        exact Hp).
  destruct (existsb _ ignore); [contradiction|].
  destruct e' as [name' | name' l' | name']; cbn [entryName] in *.
  - destruct (testToEnd re_sourceFile name') eqn:Hm; [|contradiction].
    destruct Hin as [<- | []]. exists name'.
    split; [reflexivity|]. split; [exact Hn|].
    split; [apply testToEnd_sourceFile; exact Hm|].
    split; [apply lacks_head; exact Hs|].
    apply (includes_needs_char "/"); [exact Hs | reflexivity].
  - rewrite Forall_forall in IH.
    destruct (IH _ He' Hf _ _ Hin) as (rest & -> & Hr & Hends & Hh & Hd).
    exists (name' ++ "/" ++ rest). split; [|split; [|split; [|split]]].
    + unfold pathJoin. rewrite !append_assoc. reflexivity.
    + rewrite lacks_app, Hn. cbn [append lacks]. exact Hr.
    + destruct Hends as [H | H]; [left | right];
        rewrite <- append_assoc; apply endsWith_append; exact H.
    + apply plainName_head. exact Hp.
    + apply includes_double_slash; assumption.
  - contradiction.
Qed.

Lemma complexityFileIssues_file (rel : string) (isTsx : bool)
      (a : FileAnalysis) :
  Forall (fun i => file i = Some rel /\ line i = None)
         (complexityFileIssues rel isTsx a).
Proof.
  unfold complexityFileIssues.
  repeat (apply Forall_app; split).
  - unfold fileSizeIssues. no_long_function.
  - destruct isTsx; [|constructor].
    apply Forall_app; split; [|apply Forall_app; split];
      unfold hookCountIssues, effectSprawlIssues, overMemoIssues;
      no_long_function.
  - unfold errorBoundaryIssues. no_long_function.
  - unfold multipleComponentsIssues. no_long_function.
  - unfold longFunctionIssues.
    destruct (0 <? length (longFunctions (patterns a))); [|constructor].
    apply Forall_map. apply Forall_forall. intros; split; reflexivity.
  - unfold mixedConcernsIssues. no_long_function.
Qed.

(** X19. On POSIX (a working directory as [process.cwd()] gives it there)
    and with the tree under [apps/web/src] as the source (names as a
    directory listing gives them, free of backslash), every issue of the
    complexity check carries no line number and names a file that ends
    with [.ts] or [.tsx]: relative to the working directory, as
    [apps/web/src/...]; or, when the working directory is the root ["/"],
    with the absolute path [/apps/web/src/...], which the two [replace]
    calls leave as it is. *)
Theorem checkComplexityOf_paths (cwd : string) (webSrc : Entry)
        (readFile : string -> option string) (el : nat) (i : Issue) :
  posixCwd cwd = true ->
  separatorFree webSrc = true ->
  In i (issues (checkComplexityOf cwd webSrc readFile el)) ->
  exists rest,
    file i = Some ((if String.eqb cwd "/" then "/" else "")
                   ++ "apps/web/src/" ++ rest)
    /\ (endsWith ".ts" rest = true \/ endsWith ".tsx" rest = true)
    /\ line i = None.
Proof.
  intros _ Hfree Hin. unfold checkComplexityOf, checkComplexity in Hin.
  cbn [issues] in Hin. rewrite complexity_fold_issues in Hin.
  cbn [c_issues app] in Hin.
  apply in_flat_map in Hin as ([p o] & Hp & Hin). cbn [fst snd] in Hin.
  apply in_map_iff in Hp as (p' & E & Hp). injection E as -> <-.
  destruct (analyzeFile p (readFile p)) as [a|]; [|contradiction].
  pose proof (complexityFileIssues_file (relativeTo cwd p)
                (endsWith ".tsx" p) a) as Hall.
  rewrite Forall_forall in Hall. destruct (Hall i Hin) as [Hfile Hline].
  unfold findFiles in Hp.
  destruct (walk_rest _ webSrc Hfree _ p Hp)
    as (rest & -> & Hrest & Hends & Hhead & Hdouble).
  exists rest. split; [|split; assumption].
  rewrite Hfile. f_equal. unfold relativeTo, webSrcPath.
  destruct (String.eqb_spec cwd "/") as [-> | Hcwd].
  - assert (Hno : includes "//" ("/apps/web/src" ++ "/" ++ rest) = false).
    { change ("/apps/web/src" ++ "/" ++ rest)
        with ("" ++ "/" ++ "apps" ++ "/" ++ "web" ++ "/" ++ "src" ++ "/" ++ rest).
      apply includes_double_slash; [reflexivity | discriminate |].
      apply includes_double_slash; [reflexivity | discriminate |].
      apply includes_double_slash; [reflexivity | discriminate |].
      apply includes_double_slash; [reflexivity | exact Hhead | exact Hdouble]. }
    change ("/" ++ "/") with "//". rewrite (removeFirst_absent _ _ Hno).
    apply removeFirst_absent. apply (includes_needs_char "092").
    + rewrite lacks_app. cbn. exact Hrest.
    + reflexivity.
  - change ("" ++ "apps/web/src/" ++ rest) with ("apps/web/src/" ++ rest).
    replace ((cwd ++ "/apps/web/src") ++ "/" ++ rest)
      with ((cwd ++ "/") ++ "apps/web/src/" ++ rest)
      by (rewrite !append_assoc; reflexivity).
    rewrite removeFirst_prefix. apply removeFirst_absent.
    apply (includes_needs_char "092").
    + rewrite lacks_app. rewrite Hrest. reflexivity.
    + rewrite lacks_app. cbn [lacks]. rewrite Ascii.eqb_refl.
      apply andb_false_r.
Qed.

Lemma checkComplexityOf_paths_witness :
  exists rest,
    Some "apps/web/src/features/chat/Chat.tsx" = Some ("apps/web/src/" ++ rest)
    /\ (endsWith ".ts" rest = true \/ endsWith ".tsx" rest = true)
    /\ @None JsNumber = None.
Proof.
  apply (checkComplexityOf_paths "/repo" sampleTree
           (fun p => if String.eqb p "/repo/apps/web/src/features/chat/Chat.tsx"
                     then Some "class ChatError extends React.Component {}"
                     else Some "")
           0
           (mkIssue warning (Some "apps/web/src/features/chat/Chat.tsx") None
              "Inline error boundary class in component file"
              (Some "pattern/inline-error-boundary")
              (Some "Move error boundary to shared/components/ErrorBoundary.tsx and import it."))).
  - reflexivity.
  - reflexivity.
  - vm_compute. left. reflexivity.
Defined.

(** Run from the root, the check finds the same file under
    [/apps/web/src] and reports it with its absolute path. *)
Example checkComplexityOf_at_root :
  map file
      (issues (checkComplexityOf "/" sampleTree
                 (fun p => if String.eqb p "/apps/web/src/features/chat/Chat.tsx"
                           then Some "class ChatError extends React.Component {}"
                           else Some "")
                 0))
  = [Some "/apps/web/src/features/chat/Chat.tsx"].
Proof. vm_compute. reflexivity. Qed.

Example madge_sample :
  map type (issues (checkMadge false cyclicMadge 0)) = [info; warning; error]
  /\ status (checkMadge false cyclicMadge 0) = fail.
Proof. vm_compute. split; reflexivity. Qed.
